(** * warung-backend: the user repository over the Supabase client

    Embedding of [src/repositories/userRepository.ts], of the interfaces
    of [IUser.ts], of the client loader [loaders/supabase.ts] and of the
    [users] table of [migrations/001_create_users_table.sql].

    The repository talks to the store through the query builder of the
    Supabase client: a chain [from(..).select(..).eq(..).single()] builds a
    request, awaiting it yields [{ data, error }].  The builder chain is
    embedded as a [Query] value, the awaited request as one call of
    [supabase_run], and every repository method as a computation that
    threads the store and the logger's output and either returns a value or
    throws a JavaScript [Error].

    Facts that depend only on what a method does with the answer are
    proved for every client.  Facts about what is stored are proved on
    [UsersTable], the table the migration declares.  Session tokens have no
    code among the sources; [SessionToken] follows the specification. *)

From stdpp Require Import gmap strings list fin_maps pretty.


(* ===================================================================== *)
(** ** JSON objects exchanged with the store *)
(* ===================================================================== *)

(** A column value as it travels in a JSON body: [null] or a string.
    Every column of [users] is serialised as a string. *)
Inductive JVal : Type :=
| JNull
| JStr (s : string).

#[global] Instance JVal_eq_dec : EqDecision JVal.
Proof. solve_decision. Defined.

(** A JS object: keys to values; a key that is not bound is a property
    that is absent ([undefined]). *)
Abbreviation JObject := (gmap string JVal).

(** [IUser] (IUser.ts): the declared shape of what the repository
    returns, with the keys [id], [name], [email], [password], [salt] and,
    optional, [role], [created_at], [updated_at], [lastLogin].  At run time
    the value is the object the store sent, typed by declaration only. *)
Abbreviation IUser := (gmap string JVal) (only parsing).

(** [IUserInputDTO] (IUser.ts). *)
Record IUserInputDTO : Type := {
  dto_name : string;
  dto_email : string;
  dto_password : string;
}.

(** The argument type of [create]:
    [IUserInputDTO & { salt: string; password: string }]. *)
Record CreateUserData : Type := {
  cu_dto : IUserInputDTO;
  cu_salt : string;
}.

Definition user_data (name email password salt : string) : CreateUserData :=
  {| cu_dto := {| dto_name := name; dto_email := email;
                  dto_password := password |};
     cu_salt := salt |}.

Definition cu_name (d : CreateUserData) : string := dto_name (cu_dto d).
Definition cu_email (d : CreateUserData) : string := dto_email (cu_dto d).
Definition cu_password (d : CreateUserData) : string := dto_password (cu_dto d).

(** [Partial<IUser>]: every key of [IUser] optional.  [lastLogin] is a
    [Date]; it is kept here by the string [JSON.stringify] gives it. *)
Record PartialIUser : Type := {
  p_id : option string;
  p_name : option string;
  p_email : option string;
  p_password : option string;
  p_salt : option string;
  p_role : option string;
  p_created_at : option string;
  p_updated_at : option string;
  p_lastLogin : option string;
}.

(** Setting a property when the source object has it. *)
Definition set_opt (k : string) (v : option string) (o : JObject) : JObject :=
  match v with
  | Some s => <[k := JStr s]> o
  | None => o
  end.

(** The request body of [insert(userData)]. *)
Definition json_of_create (d : CreateUserData) : JObject :=
  <["name" := JStr (cu_name d)]>
    (<["email" := JStr (cu_email d)]>
       (<["password" := JStr (cu_password d)]>
          (<["salt" := JStr (cu_salt d)]> ∅))).

(** The request body of [update(updateData)]: the properties that are
    present, and only those. *)
Definition json_of_partial (p : PartialIUser) : JObject :=
  set_opt "id" (p_id p)
    (set_opt "name" (p_name p)
       (set_opt "email" (p_email p)
          (set_opt "password" (p_password p)
             (set_opt "salt" (p_salt p)
                (set_opt "role" (p_role p)
                   (set_opt "created_at" (p_created_at p)
                      (set_opt "updated_at" (p_updated_at p)
                         (set_opt "lastLogin" (p_lastLogin p) ∅)))))))).

(* ===================================================================== *)
(** ** The query builder of the Supabase client *)
(* ===================================================================== *)

(** What the request does: [select(..)] reads, [insert(..)] and
    [update(..)] carry a body. *)
Inductive Verb : Type :=
| VSelect
| VInsert (values : JObject)
| VUpdate (values : JObject).

(** The column list of [select]; the source only ever asks for ['*'],
    which is also the default of [.select()] after a write. *)
Inductive Columns : Type :=
| Star
| Cols (cs : list string).

(** [supabase.from(table)]: a table, nothing to send yet. *)
Record TableRef : Type := { t_name : string }.

(** The state of a builder chain, then the request that [.single()]
    sends: the table, the verb, the columns to send back ([None]: nothing is
    asked back), the [eq] filters in the order they were added. *)
Record Query : Type := {
  q_table : string;
  q_verb : Verb;
  q_returning : option Columns;
  q_filters : list (string * string);
}.

Module Builder.

(** [supabase.from(table)] *)
Definition from (table : string) : TableRef := {| t_name := table |}.

(** [.select(columns)] on a table: a read of [columns]. *)
Definition select (cols : Columns) (t : TableRef) : Query :=
  {| q_table := t_name t; q_verb := VSelect; q_returning := Some cols;
     q_filters := [] |}.

(** [.insert(values)] *)
Definition insert (values : JObject) (t : TableRef) : Query :=
  {| q_table := t_name t; q_verb := VInsert values; q_returning := None;
     q_filters := [] |}.

(** [.update(values)] *)
Definition update (values : JObject) (t : TableRef) : Query :=
  {| q_table := t_name t; q_verb := VUpdate values; q_returning := None;
     q_filters := [] |}.

(** [.select()] after a write: send the written rows back. *)
Definition returning (q : Query) : Query :=
  {| q_table := q_table q; q_verb := q_verb q; q_returning := Some Star;
     q_filters := q_filters q |}.

(** [.eq(column, value)] *)
Definition eq (column value : string) (q : Query) : Query :=
  {| q_table := q_table q; q_verb := q_verb q; q_returning := q_returning q;
     q_filters := q_filters q ++ [(column, value)] |}.

(** [.single()]: the response is one object, not an array.  Every
    request of the repository ends with it, so a [Query] stands for a
    request in this form and [single] closes the chain. *)
Definition single (q : Query) : Query := q.

End Builder.

Notation "q |> f" := (f q) (at level 45, left associativity, only parsing).

(** The error object of the client ([PostgrestError]). *)
Record PostgrestError : Type := {
  message : string;
  details : string;
  hint : string;
  code : string;
}.

(** What awaiting a request yields: [{ data, error }]. *)
Record Response : Type := {
  data : option JObject;
  error : option PostgrestError;
}.

(** The injected ['supabase'] client, over a store of type [S]: awaiting a
    request answers and may change the store. *)
Class SupabaseClient (S : Type) : Type :=
  supabase_run : Query → S → Response * S.

(* ===================================================================== *)
(** ** Effects of a repository method *)
(* ===================================================================== *)

(** What the injected ['logger'] received. *)
Inductive LogEntry : Type :=
| LogSilly (msg : string)
| LogError (fmt : string) (arg : PostgrestError).

(** A thrown JavaScript error: its [name] (the class it was made with)
    and its [message]. *)
Record JsError : Type := {
  err_name : string;
  err_message : string;
}.

Inductive Outcome (A : Type) : Type :=
| Returned (a : A)
| Thrown (e : JsError).
Arguments Returned {A} a.
Arguments Thrown {A} e.

(** The store and the log, threaded through a method. *)
Record World (S : Type) : Type := {
  w_store : S;
  w_log : list LogEntry;
}.
Arguments w_store {S} w.
Arguments w_log {S} w.
Arguments Build_World {S} w_store w_log.

Definition Repo (S A : Type) : Type := World S → Outcome A * World S.

#[global] Instance Repo_ret {S} : MRet (Repo S) :=
  fun A (a : A) w => (Returned a, w).

Definition throw {S A} (e : JsError) : Repo S A := fun w => (Thrown e, w).

#[global] Instance Repo_bind {S} : MBind (Repo S) :=
  fun A B (k : A → Repo S B) (m : Repo S A) w =>
    match m w with
    | (Returned a, w') => k a w'
    | (Thrown e, w') => (Thrown e, w')
    end.

Definition logger_silly {S} (msg : string) : Repo S unit :=
  fun w => (Returned tt, {| w_store := w_store w; w_log := w_log w ++ [LogSilly msg] |}).

Definition logger_error {S} (fmt : string) (arg : PostgrestError) : Repo S unit :=
  fun w => (Returned tt, {| w_store := w_store w; w_log := w_log w ++ [LogError fmt arg] |}).

(** [await <request>] *)
Definition await {S} `{SupabaseClient S} (q : Query) : Repo S Response :=
  fun w =>
    let '(r, s) := supabase_run q (w_store w) in
    (Returned r, {| w_store := s; w_log := w_log w |}).

(** [new Error(message)] *)
Definition new_Error (msg : string) : JsError :=
  {| err_name := "Error"; err_message := msg |}.

(* ===================================================================== *)
(** ** UserRepository (src/repositories/userRepository.ts) *)
(* ===================================================================== *)

Module UserRepository.
Section Methods.
Context {S : Type} `{SupabaseClient S}.

Definition create_query (userData : CreateUserData) : Query :=
  Builder.from "users" |> Builder.insert (json_of_create userData)
    |> Builder.returning |> Builder.single.

Definition create (userData : CreateUserData) : Repo S (option IUser) :=
  logger_silly "Creating user in database" ;;
  r ← await (create_query userData);
  match error r with
  | Some e =>
      logger_error "Error creating user: %o" e ;;
      throw (new_Error ("Failed to create user: " +:+ message e))
  | None => mret (data r)
  end.

Definition findByEmail_query (email : string) : Query :=
  Builder.from "users" |> Builder.select Star |> Builder.eq "email" email
    |> Builder.single.

Definition findByEmail (email : string) : Repo S (option IUser) :=
  logger_silly "Finding user by email" ;;
  r ← await (findByEmail_query email);
  match error r with
  | Some e =>
      if bool_decide (code e ≠ "PGRST116") then
        logger_error "Error finding user by email: %o" e ;;
        throw (new_Error ("Failed to find user by email: " +:+ message e))
      else mret (data r)
  | None => mret (data r)
  end.

Definition findById_query (id : string) : Query :=
  Builder.from "users" |> Builder.select Star |> Builder.eq "id" id
    |> Builder.single.

Definition findById (id : string) : Repo S (option IUser) :=
  logger_silly "Finding user by id" ;;
  r ← await (findById_query id);
  match error r with
  | Some e =>
      if bool_decide (code e ≠ "PGRST116") then
        logger_error "Error finding user by id: %o" e ;;
        throw (new_Error ("Failed to find user by id: " +:+ message e))
      else mret (data r)
  | None => mret (data r)
  end.

Definition update_query (id : string) (updateData : PartialIUser) : Query :=
  Builder.from "users" |> Builder.update (json_of_partial updateData)
    |> Builder.eq "id" id |> Builder.returning |> Builder.single.

Definition update (id : string) (updateData : PartialIUser) : Repo S (option IUser) :=
  logger_silly "Updating user in database" ;;
  r ← await (update_query id updateData);
  match error r with
  | Some e =>
      logger_error "Error updating user: %o" e ;;
      throw (new_Error ("Failed to update user: " +:+ message e))
  | None => mret (data r)
  end.

End Methods.
End UserRepository.

(* ===================================================================== *)
(** ** The [users] table (migrations/001_create_users_table.sql) *)
(* ===================================================================== *)

(** The store the client is pointed at, at the level of the migration:
    the columns of [users] with their types and their NOT NULL, PRIMARY
    KEY, UNIQUE and DEFAULT clauses, the three row policies and the
    BEFORE UPDATE trigger.  A row is the JSON object the store sends for
    it; NULL is [JNull].

    A written value passes through the input of its column's type and is
    kept, and sent back, as that type renders it: a [UUID] in lower case
    with hyphens, a [VARCHAR(n)] as it is when it has at most [n]
    characters, a [TIMESTAMP WITH TIME ZONE] as the session renders it.
    A [string] is the UTF-8 text of a JS string.  The size limits of the
    transport are outside the model. *)
Module UsersTable.

Abbreviation Row := (gmap string JVal).

(** The columns in the order of the migration. *)
Definition columns : list string :=
  ["id"; "email"; "name"; "password"; "salt"; "role"; "created_at";
   "updated_at"].

(** [PRIMARY KEY] and [NOT NULL] columns. *)
Definition not_null_columns : list string :=
  ["id"; "email"; "name"; "password"; "salt"].

(** [PRIMARY KEY] and [UNIQUE] columns with the name of their constraint. *)
Definition unique_columns : list (string * string) :=
  [("id", "users_pkey"); ("email", "users_email_key")].

(** *** Column types *)

Inductive ColumnType : Type :=
| UUID
| VARCHAR (n : nat)
| TIMESTAMPTZ.

#[global] Instance ColumnType_eq_dec : EqDecision ColumnType.
Proof. solve_decision. Defined.

(** The types of the columns, in the order in which the store reads the
    properties of a request body (by name). *)
Definition column_types : list (string * ColumnType) :=
  [("created_at", TIMESTAMPTZ); ("email", VARCHAR 255); ("id", UUID);
   ("name", VARCHAR 255); ("password", VARCHAR 255); ("role", VARCHAR 50);
   ("salt", VARCHAR 255); ("updated_at", TIMESTAMPTZ)].

Definition column_type (c : string) : option ColumnType :=
  snd <$> head (filter (fun ct => ct.1 = c) column_types).

(** **** Texts *)

(** The character U+0000, which no text value of the store holds. *)
Fixpoint has_nul (v : string) : bool :=
  match v with
  | EmptyString => false
  | String c v' => (Ascii.nat_of_ascii c =? 0) || has_nul v'
  end.

(** A byte [10xxxxxx] continues the character before it. *)
Definition continuation (c : Ascii.ascii) : bool :=
  match c with
  | Ascii.Ascii _ _ _ _ _ _ b6 b7 => b7 && negb b6
  end.

(** The number of characters of a text. *)
Fixpoint char_length (v : string) : nat :=
  match v with
  | EmptyString => 0
  | String c v' =>
      if continuation c then char_length v' else S (char_length v')
  end.

(** The first [n] characters of a text, and what follows them. *)
Fixpoint split_chars (n : nat) (v : string) : string * string :=
  match v with
  | EmptyString => (EmptyString, EmptyString)
  | String c v' =>
      if continuation c then
        let '(keep, rest) := split_chars n v' in (String c keep, rest)
      else
        match n with
        | 0 => (EmptyString, v)
        | S n' =>
            let '(keep, rest) := split_chars n' v' in (String c keep, rest)
        end
  end.

Fixpoint all_spaces (v : string) : bool :=
  match v with
  | EmptyString => true
  | String c v' => (Ascii.nat_of_ascii c =? 32) && all_spaces v'
  end.

(** [VARCHAR(n)]: a value of at most [n] characters is taken as it is; of
    a longer one the characters after the [n]-th are dropped when they
    are all spaces, and the value is refused otherwise. *)
Definition varchar_in (n : nat) (v : string) : option string :=
  let '(keep, rest) := split_chars n v in
  if all_spaces rest then Some keep else None.

(** A text without U+0000 of at most [n] characters, which a
    [VARCHAR(n)] column takes as it is. *)
Definition within (n : nat) (v : string) : bool :=
  negb (has_nul v) && (char_length v <=? n).

(** **** Identifiers *)

Definition is_hex (c : Ascii.ascii) : bool :=
  let n := Ascii.nat_of_ascii c in
  ((48 <=? n) && (n <=? 57)) || ((97 <=? n) && (n <=? 102))
  || ((65 <=? n) && (n <=? 70)).

Definition lower_hex (c : Ascii.ascii) : Ascii.ascii :=
  let n := Ascii.nat_of_ascii c in
  if (65 <=? n) && (n <=? 70) then Ascii.ascii_of_nat (n + 32) else c.

Definition hyphen : Ascii.ascii := Ascii.ascii_of_nat 45.

(** Reading [count] bytes of a [UUID], each two hexadecimal digits, from
    byte [i] on; a hyphen may follow every second byte but the last.  The
    digits read, in lower case, and what is left of the text. *)
Fixpoint read_uuid (i count : nat) (src : string) : option (string * string) :=
  match count with
  | 0 => Some (EmptyString, src)
  | S count' =>
      match src with
      | String a (String b rest) =>
          if is_hex a && is_hex b then
            let rest' :=
              match rest with
              | String c rest'' =>
                  if Ascii.eqb c hyphen && Nat.odd i && (i <? 15)
                  then rest'' else rest
              | EmptyString => rest
              end in
            match read_uuid (S i) count' rest' with
            | Some (digits, after) =>
                Some (String (lower_hex a) (String (lower_hex b) digits), after)
            | None => None
            end
          else None
      | _ => None
      end
  end.

(** The rendering of a [UUID]: its 32 digits in groups of 8, 4, 4, 4 and
    12. *)
Definition uuid_out (digits : string) : string :=
  String.substring 0 8 digits +:+ "-" +:+ String.substring 8 4 digits +:+ "-"
  +:+ String.substring 12 4 digits +:+ "-" +:+ String.substring 16 4 digits +:+ "-"
  +:+ String.substring 20 12 digits.

(** [UUID]: 32 hexadecimal digits of either case, grouped by hyphens or
    not, within braces or not; the value is rendered in lower case with
    hyphens. *)
Definition uuid_in (v : string) : option string :=
  let '(braces, src) :=
    match v with
    | String c v' =>
        if Ascii.nat_of_ascii c =? 123 then (true, v') else (false, v)
    | EmptyString => (false, v)
    end in
  match read_uuid 0 16 src with
  | Some (digits, after) =>
      if bool_decide (after = if braces then "}" else EmptyString)
      then Some (uuid_out digits) else None
  | None => None
  end.

(** A value of type [UUID], by its rendering. *)
Record Uuid : Type := {
  uuid_text :> string;
  uuid_rendered : uuid_in uuid_text = Some uuid_text;
}.

(** *** Sessions *)

(** What a statement is run with: the caller identity the request
    carries ([auth.uid()], NULL without a user token), whether row
    security applies to the role, the values [NOW()] and
    [uuid_generate_v4()] take during the statement, and the input of
    [TIMESTAMP WITH TIME ZONE] under the session's time zone and date
    style: the rendering of the value read, or the error. *)
Record Session : Type := {
  auth_uid : option Uuid;
  row_security : bool;
  now : string;
  uuid_generate_v4 : Uuid;
  timestamptz_in : string → PostgrestError + string;
}.

Record Db : Type := {
  db_session : Session;
  db_users : list Row;
}.

(** [loaders/supabase.ts]: the process makes its one client from the
    configured URL and anon key, without a user session.  What it is
    connected to (whether row security applies, the clock, the generator,
    the time zone, the rows) is the store's; the statements it sends carry
    no caller identity. *)
Definition supabaseLoader (rls : bool) (time : string) (uuid : Uuid)
    (timestamptz : string → PostgrestError + string) (rows : list Row) : Db :=
  {| db_session := {| auth_uid := None; row_security := rls; now := time;
                      uuid_generate_v4 := uuid;
                      timestamptz_in := timestamptz |};
     db_users := rows |}.

Definition with_users (db : Db) (rows : list Row) : Db :=
  {| db_session := db_session db; db_users := rows |}.

(** *** Errors of the store *)

(** The fields [details] and [hint], which no method reads, are left
    empty. *)
Definition mk_error (c msg : string) : PostgrestError :=
  {| message := msg; details := ""; hint := ""; code := c |}.

Definition quote : string := String (Ascii.ascii_of_nat 34) EmptyString.
Definition quoted (v : string) : string := quote +:+ v +:+ quote.

Definition undefined_table (t : string) : PostgrestError :=
  mk_error "PGRST205"
    ("Could not find the table 'public." +:+ t +:+ "' in the schema cache").
Definition undefined_body_column (c : string) : PostgrestError :=
  mk_error "PGRST204"
    ("Could not find the '" +:+ c +:+ "' column of 'users' in the schema cache").
Definition undefined_column (c : string) : PostgrestError :=
  mk_error "42703" ("column users." +:+ c +:+ " does not exist").
Definition not_null_violation (c : string) : PostgrestError :=
  mk_error "23502"
    ("null value in column " +:+ quoted c +:+ " of relation "
     +:+ quoted "users" +:+ " violates not-null constraint").
Definition unique_violation (constraint : string) : PostgrestError :=
  mk_error "23505"
    ("duplicate key value violates unique constraint " +:+ quoted constraint).
Definition policy_violation : PostgrestError :=
  mk_error "42501"
    ("new row violates row-level security policy for table " +:+ quoted "users").
Definition no_single_row : PostgrestError :=
  mk_error "PGRST116" "JSON object requested, multiple (or no) rows returned".
Definition invalid_uuid (v : string) : PostgrestError :=
  mk_error "22P02" ("invalid input syntax for type uuid: " +:+ quoted v).
Definition value_too_long (n : nat) : PostgrestError :=
  mk_error "22001"
    ("value too long for type character varying(" +:+ pretty n +:+ ")").
Definition untranslatable_character : PostgrestError :=
  mk_error "22P05" "unsupported Unicode escape sequence".
Definition invalid_byte_sequence : PostgrestError :=
  mk_error "22021"
    ("invalid byte sequence for encoding " +:+ quoted "UTF8" +:+ ": 0x00").

Definition fail (e : PostgrestError) : Response :=
  {| data := None; error := Some e |}.

(** *** Values read from a request *)

(** A value of a request body, read as a value of type [t]. *)
Definition cast (s : Session) (t : ColumnType) (v : string)
  : PostgrestError + string :=
  if has_nul v then inl untranslatable_character
  else
    match t with
    | UUID =>
        match uuid_in v with
        | Some u => inr u
        | None => inl (invalid_uuid v)
        end
    | VARCHAR n =>
        match varchar_in n v with
        | Some v' => inr v'
        | None => inl (value_too_long n)
        end
    | TIMESTAMPTZ => timestamptz_in s v
    end.

(** The body of a request, column by column: every value as its column
    keeps it, or the error of the first value that its column refuses. *)
Fixpoint cast_body (s : Session) (types : list (string * ColumnType))
    (body : JObject) : PostgrestError + JObject :=
  match types with
  | [] => inr body
  | (c, t) :: rest =>
      match body !! c with
      | Some (JStr v) =>
          match cast s t v with
          | inl e => inl e
          | inr v' => cast_body s rest (<[c := JStr v']> body)
          end
      | _ => cast_body s rest body
      end
  end.

(** The value of an [eq] filter, read as a value of the type of its
    column.  A comparison with a [VARCHAR] column takes a text of any
    length. *)
Definition cast_filter (s : Session) (f : string * string)
  : PostgrestError + (string * string) :=
  if has_nul f.2 then inl invalid_byte_sequence
  else
    match column_type f.1 with
    | Some UUID =>
        match uuid_in f.2 with
        | Some u => inr (f.1, u)
        | None => inl (invalid_uuid f.2)
        end
    | Some TIMESTAMPTZ =>
        match timestamptz_in s f.2 with
        | inl e => inl e
        | inr t => inr (f.1, t)
        end
    | _ => inr f
    end.

Fixpoint cast_filters (s : Session) (fs : list (string * string))
  : PostgrestError + list (string * string) :=
  match fs with
  | [] => inr []
  | f :: rest =>
      match cast_filter s f with
      | inl e => inl e
      | inr f' =>
          match cast_filters s rest with
          | inl e => inl e
          | inr rest' => inr (f' :: rest')
          end
      end
  end.

(** *** Row policies: [auth.uid() = id] for SELECT, INSERT and UPDATE *)

Definition policy (s : Session) (r : Row) : bool :=
  match auth_uid s with
  | Some u => bool_decide (r !! "id" = Some (JStr u))
  | None => false
  end.

Definition allowed (s : Session) (r : Row) : bool :=
  if row_security s then policy s r else true.

(** *** Filters, column lists *)

(** Whether a row passes the filters, their values read already. *)
Definition matches (fs : list (string * string)) (r : Row) : bool :=
  forallb (fun f => bool_decide (r !! f.1 = Some (JStr f.2))) fs.

(** The first name of a list that is no column. *)
Definition unknown_column (cs : list string) : option string :=
  head (filter (fun c => c ∉ columns) cs).

(** The least of a list of names. *)
Definition least (ks : list string) : option string :=
  foldr (fun k acc =>
           match acc with
           | Some k' => Some (if String.leb k k' then k else k')
           | None => Some k
           end) None ks.

(** The first property of a request body, by name, that is no column. *)
Definition unknown_body_column (body : JObject) : option string :=
  least (filter (fun k => k ∉ columns) (elements (dom body))).

Definition project (cols : Columns) (r : Row) : JObject :=
  match cols with
  | Star => r
  | Cols cs => filter (fun kv => kv.1 ∈ cs) r
  end.

(** *** Constraints *)

Definition not_null_ok (r : Row) : bool :=
  forallb (fun c => match r !! c with Some (JStr _) => true | _ => false end)
    not_null_columns.

(** The first NOT NULL column that [r] leaves empty. *)
Definition null_column (r : Row) : option string :=
  head (filter (fun c => negb match r !! c with Some (JStr _) => true | _ => false end)
          not_null_columns).

(** How many rows of [rows] carry the value [r] has in column [c]. *)
Definition same_key (c : string) (r : Row) (rows : list Row) : list Row :=
  filter (fun r' => r' !! c = r !! c) rows.

(** Whether [r], as one of [rows], shares its value in column [c]
    with another row ([NULL]s never collide). *)
Definition collides (c : string) (r : Row) (rows : list Row) : bool :=
  match r !! c with
  | Some (JStr _) => bool_decide (1 < length (same_key c r rows))
  | _ => false
  end.

(** The first unique constraint that [r] breaks when it is one of
    [rows]. *)
Definition unique_conflict (r : Row) (rows : list Row) : option string :=
  snd <$> head (filter (fun uc => collides uc.1 r rows) unique_columns).

(** *** Statements *)

(** The [DEFAULT]s of the columns. *)
Definition defaults (s : Session) : Row :=
  <["id" := JStr (uuid_generate_v4 s)]>
    (<["email" := JNull]>
       (<["name" := JNull]>
          (<["password" := JNull]>
             (<["salt" := JNull]>
                (<["role" := JStr "user"]>
                   (<["created_at" := JStr (now s)]>
                      (<["updated_at" := JStr (now s)]> ∅))))))).

(** The row an INSERT of [body] makes, the values of [body] read
    already. *)
Definition new_row (s : Session) (body : JObject) : Row := body ∪ defaults s.

(** The row an UPDATE of [body] makes of [r], the values of [body] read
    already, after the trigger [update_users_updated_at] has set
    [updated_at] to [NOW()]. *)
Definition updated_row (s : Session) (body : JObject) (r : Row) : Row :=
  <["updated_at" := JStr (now s)]> (body ∪ r).

(** The rows a statement reaches whose filters, read already, are
    [fs]. *)
Definition reached (s : Session) (fs : list (string * string)) (r : Row) : bool :=
  allowed s r && matches fs r.

(** The first error among the checks on a written row, in the order
    the engine makes them: policy, NOT NULL, unique indexes. *)
Definition row_error (s : Session) (r : Row) (rows : list Row)
  : option PostgrestError :=
  if negb (allowed s r) then Some policy_violation
  else
    match null_column r with
    | Some c => Some (not_null_violation c)
    | None => unique_violation <$> unique_conflict r rows
    end.

Fixpoint first_error (s : Session) (written rows : list Row)
  : option PostgrestError :=
  match written with
  | [] => None
  | r :: rest =>
      match row_error s r rows with
      | Some e => Some e
      | None => first_error s rest rows
      end
  end.

(** The answer to a request in [.single()] form: exactly one row, or
    the error PGRST116 and, for a write, nothing kept. *)
Definition answer (q : Query) (result : list Row) (db db' : Db) : Response * Db :=
  match result with
  | [r] =>
      ({| data := (fun cols => project cols r) <$> q_returning q;
          error := None |}, db')
  | _ => (fail no_single_row, db)
  end.

(** The columns a request names in its column list. *)
Definition write_columns (q : Query) : list string :=
  match q_returning q with
  | Some (Cols cs) => cs
  | _ => []
  end.

(** An INSERT of [body]: the values are read, the row is made over the
    defaults and checked. *)
Definition run_insert (q : Query) (body : JObject) (db : Db) : Response * Db :=
  let s := db_session db in
  match cast_body s column_types body with
  | inl e => (fail e, db)
  | inr typed =>
      let r := new_row s typed in
      let rows' := db_users db ++ [r] in
      match first_error s [r] rows' with
      | Some e => (fail e, db)
      | None => answer q [r] db (with_users db rows')
      end
  end.

(** An UPDATE of a body that is not empty: the values of the filters are
    read, then those of the body; the rows reached are rewritten and
    checked. *)
Definition run_update (q : Query) (body : JObject) (db : Db) : Response * Db :=
  let s := db_session db in
  let rows := db_users db in
  match cast_filters s (q_filters q) with
  | inl e => (fail e, db)
  | inr fs =>
      match cast_body s column_types body with
      | inl e => (fail e, db)
      | inr typed =>
          let hit := fun r => reached s fs r in
          let rows' :=
            (fun r => if hit r then updated_row s typed r else r) <$> rows in
          let written := updated_row s typed <$> filter (fun r => hit r) rows in
          match first_error s written rows' with
          | Some e => (fail e, db)
          | None => answer q written db (with_users db rows')
          end
      end
  end.

(** Executing a request.  An unknown table or column is an error, and
    so is a property of the body that is no column; these are found
    before any value is read.  A read answers with the rows the policy
    lets through and the filters keep.  An insert adds the body over the
    defaults; an update rewrites the rows it reaches, and with an empty
    body it reads no filter and reaches no row.  A value that its column
    refuses fails the statement; so does a written row that fails a check,
    and, for a request in [.single()] form, any number of rows but one:
    the table is then left as it was. *)
Definition exec (q : Query) (db : Db) : Response * Db :=
  let s := db_session db in
  if negb (bool_decide (q_table q = "users"))
  then (fail (undefined_table (q_table q)), db)
  else
    match unknown_column ((q_filters q).*1 ++ write_columns q) with
    | Some c => (fail (undefined_column c), db)
    | None =>
        match q_verb q with
        | VSelect =>
            match cast_filters s (q_filters q) with
            | inl e => (fail e, db)
            | inr fs =>
                answer q (filter (fun r => reached s fs r) (db_users db)) db db
            end
        | VInsert body =>
            match unknown_body_column body with
            | Some c => (fail (undefined_body_column c), db)
            | None => run_insert q body db
            end
        | VUpdate body =>
            match unknown_body_column body with
            | Some c => (fail (undefined_body_column c), db)
            | None =>
                if bool_decide (body = ∅) then answer q [] db db
                else run_update q body db
            end
        end
    end.

#[global] Instance client : SupabaseClient Db := exec.

(** *** What the constraints keep true of the table *)

(** No two rows share a non-null value in column [c]. *)
Definition unique_on (c : string) (rows : list Row) : Prop :=
  ∀ i j r r' v,
    rows !! i = Some r → rows !! j = Some r' →
    r !! c = Some (JStr v) → r' !! c = Some (JStr v) → i = j.

(** The NOT NULL columns are filled, [id] and [email] are keys. *)
Definition consistent (rows : list Row) : Prop :=
  Forall (fun r => not_null_ok r = true) rows
  ∧ unique_on "id" rows ∧ unique_on "email" rows.

End UsersTable.
(* ===================================================================== *)
(** ** What a method makes of the store's answer *)
(* ===================================================================== *)

(** The outcome and the world after a method, read off the answer the
    client gave to the method's one request.  These equations hold for
    every client. *)
Section Answers.
Context {S : Type} `{client : SupabaseClient S}.

(** The answer a request gets in world [w]. *)
Definition answer_of (q : Query) (w : World S) : Response :=
  (supabase_run q (w_store w)).1.

(** The world after a request was awaited and [entries] were logged. *)
Definition world_after (q : Query) (entries : list LogEntry) (w : World S) : World S :=
  {| w_store := (supabase_run q (w_store w)).2; w_log := w_log w ++ entries |}.

(** Every store error is thrown: [create], [update]. *)
Definition throw_any (what fmt prefix : string) (q : Query) (w : World S)
  : Outcome (option JObject) * World S :=
  match error (answer_of q w) with
  | Some e =>
      (Thrown (new_Error (prefix +:+ message e)),
       world_after q [LogSilly what; LogError fmt e] w)
  | None => (Returned (data (answer_of q w)), world_after q [LogSilly what] w)
  end.

(** Every store error but PGRST116 is thrown: [findByEmail], [findById]. *)
Definition throw_unless_no_row (what fmt prefix : string) (q : Query) (w : World S)
  : Outcome (option JObject) * World S :=
  match error (answer_of q w) with
  | Some e =>
      if bool_decide (code e = "PGRST116")
      then (Returned (data (answer_of q w)), world_after q [LogSilly what] w)
      else (Thrown (new_Error (prefix +:+ message e)),
            world_after q [LogSilly what; LogError fmt e] w)
  | None => (Returned (data (answer_of q w)), world_after q [LogSilly what] w)
  end.

End Answers.

(* ===================================================================== *)
(** ** Session tokens (specification 4.2) *)
(* ===================================================================== *)

Module SessionToken.

(** Modelled from the spec: Session Claims (specification 3; no token
    code is among the sources): principal identifier, tenant identifier,
    issued-at and expiry timestamps. *)
Record Claims : Type := {
  c_principal : string;
  c_tenant : string;
  c_issued_at : N;
  c_expiry : N;
}.

(** Modelled from the spec: the three failures of validation. *)
Inductive TokenError : Type :=
| MissingToken
| MalformedToken
| ExpiredToken.

(** Replacing the byte at position [i] of a segment. *)
Fixpoint set_byte (i : nat) (b : Ascii.ascii) (s : string) : string :=
  match s, i with
  | EmptyString, _ => EmptyString
  | String _ s', O => String b s'
  | String c s', S i' => String c (set_byte i' b s')
  end.

Fixpoint get_byte (i : nat) (s : string) : option Ascii.ascii :=
  match s, i with
  | EmptyString, _ => None
  | String c _, O => Some c
  | String _ s', S i' => get_byte i' s'
  end.

Section Validator.
(** The server-held secret, the encoded claims segment, the signature
    function, the claims codec and the configured time-to-live are left
    open. *)
Context {Secret Payload : Type}.
Variable sign : Secret → Payload → string.
Variable encode : Claims → Payload.
Variable decode : Payload → option Claims.
Variable secret : Secret.
Variable ttl : N.

(** Modelled from the spec: a token, as its claims segment and its
    signature segment. *)
Record Token : Type := {
  tok_payload : Payload;
  tok_signature : string;
}.

(** Modelled from the spec: the Session Issuer (the token signing of
    the authentication service is not among the sources).  [issue]
    embeds the principal identifier, the tenant identifier (the
    principal's own), issued-at and the expiry computed from the
    configured time-to-live, and signs with the server-held secret. *)
Definition issue (principal : string) (now : N) : Token :=
  let c := {| c_principal := principal; c_tenant := principal;
              c_issued_at := now; c_expiry := now + ttl |} in
  {| tok_payload := encode c; tok_signature := sign secret (encode c) |}.

(** Modelled from the spec: the signature check, against the signature
    the secret gives the claims segment. *)
Definition signature_ok (t : Token) : bool :=
  bool_decide (tok_signature t = sign secret (tok_payload t)).

(** Modelled from the spec: the Session Validator (the middleware
    [isAuth] is not among the sources).  [validate] fails with
    [MissingToken] if no bearer token is present, [MalformedToken] if
    the signature or structure check fails, [ExpiredToken] if the
    current time exceeds the expiry claim, and otherwise returns the
    claims. *)
Definition validate (now : N) (bearer : option Token) : TokenError + Claims :=
  match bearer with
  | None => inl MissingToken
  | Some t =>
      if negb (signature_ok t) then inl MalformedToken
      else
        match decode (tok_payload t) with
        | None => inl MalformedToken
        | Some c =>
            if bool_decide (c_expiry c < now)%N then inl ExpiredToken
            else inr c
        end
  end.

(** The token with one byte of its signature segment replaced. *)
Definition tamper (i : nat) (b : Ascii.ascii) (t : Token) : Token :=
  {| tok_payload := tok_payload t;
     tok_signature := set_byte i b (tok_signature t) |}.

End Validator.

Arguments Token : clear implicits.
Arguments Build_Token {Payload} tok_payload tok_signature.

End SessionToken.

(* ===================================================================== *)
(** ** The loaders (loaders/index.ts, loaders/dependencyInjector.ts,
       loaders/supabase.ts) *)
(* ===================================================================== *)

(** Start-up of the process: the client is made, the typedi container is
    filled, express is loaded.  The libraries the loaders call
    ([createClient] of supabase-js, [Mailgun] of mailgun.js) and the express
    loader, which is not among the sources, are left open; each of them may
    throw.  [Container.set] and the logger do not throw. *)
Module Loaders.

(** The configuration values the loaders read ([config/index.ts] is not
    among the sources). *)
Record Config : Type := {
  supabase_url : string;
  supabase_anonKey : string;
  emails_apiKey : string;
  emails_apiUsername : string;
  emails_domain : string;
}.

(** The options [loaders/supabase.ts] passes to [createClient]. *)
Record AuthOptions : Type := {
  autoRefreshToken : bool;
  persistSession : bool;
  detectSessionInUrl : bool;
}.

Record ClientOptions : Type := {
  auth : AuthOptions;
  db_schema : string;
}.

(** The options of [mgInstance.client]. *)
Record MailgunOptions : Type := {
  key : string;
  username : string;
}.

(** What the logger received from a loader. *)
Inductive BootLog : Type :=
| LogInfo (msg : string)
| LogBootError (fmt : string) (arg : JsError).

Section Boot.
Context {Client MgInstance EmailClient App : Type}.

(** What is put into the container: the client, a class, the logger
    instance, the mail client, a string. *)
Inductive Injectable : Type :=
| TheSupabase (c : Client)
| TheClass (name : string)
| TheLogger
| TheEmailClient (c : EmailClient)
| TheString (s : string).

(** The typedi [Container] and the logger's output. *)
Record BootState : Type := {
  container : gmap string Injectable;
  boot_log : list BootLog;
}.

Definition Boot (A : Type) : Type := BootState → Outcome A * BootState.

#[global] Instance Boot_ret : MRet Boot :=
  fun A (a : A) st => (Returned a, st).

#[global] Instance Boot_bind : MBind Boot :=
  fun A B (k : A → Boot B) (m : Boot A) st =>
    match m st with
    | (Returned a, st') => k a st'
    | (Thrown e, st') => (Thrown e, st')
    end.

(** [throw e] *)
Definition rethrow {A} (e : JsError) : Boot A := fun st => (Thrown e, st).

(** [try { body } catch (e) { handler }]: what [body] did before it
    threw stays done. *)
Definition try_catch {A} (body : Boot A) (handler : JsError → Boot A) : Boot A :=
  fun st =>
    match body st with
    | (Thrown e, st') => handler e st'
    | done => done
    end.

(** A call into a library: its result, or its exception. *)
Definition external {A} (call : Outcome A) : Boot A := fun st => (call, st).

(** [Container.set(id, value)] *)
Definition Container_set (id : string) (value : Injectable) : Boot unit :=
  fun st =>
    (Returned tt,
     {| container := <[id := value]> (container st); boot_log := boot_log st |}).

(** [Logger.info(msg)], [LoggerInstance.error(fmt, e)] *)
Definition Logger_info (msg : string) : Boot unit :=
  fun st =>
    (Returned tt,
     {| container := container st; boot_log := boot_log st ++ [LogInfo msg] |}).

Definition Logger_error (fmt : string) (e : JsError) : Boot unit :=
  fun st =>
    (Returned tt,
     {| container := container st;
        boot_log := boot_log st ++ [LogBootError fmt e] |}).

Variable config : Config.
Variable createClient : string → string → ClientOptions → Outcome Client.
Variable new_Mailgun : Outcome MgInstance.
Variable mg_client : MgInstance → MailgunOptions → Outcome EmailClient.
Variable expressLoader : App → Boot unit.

(** [loaders/supabase.ts] *)
Definition supabaseLoader : Boot Client :=
  external
    (createClient (supabase_url config) (supabase_anonKey config)
       {| auth := {| autoRefreshToken := false; persistSession := false;
                     detectSessionInUrl := false |};
          db_schema := "public" |}).

(** The options the mail client is made with. *)
Definition mailgun_options : MailgunOptions :=
  {| key := emails_apiKey config; username := emails_apiUsername config |}.

(** [loaders/dependencyInjector.ts] *)
Definition dependencyInjectorLoader (supabaseClient : Client) : Boot unit :=
  try_catch
    (mgInstance ← external new_Mailgun;
     Container_set "supabase" (TheSupabase supabaseClient) ;;
     Container_set "userRepository" (TheClass "UserRepository") ;;
     Container_set "logger" TheLogger ;;
     emailClient ← external (mg_client mgInstance mailgun_options);
     Container_set "emailClient" (TheEmailClient emailClient) ;;
     Container_set "emailDomain" (TheString (emails_domain config)) ;;
     Logger_info "✌️ Supabase injected into container" ;;
     Logger_info "✌️ UserRepository injected into container")
    (fun e =>
       Logger_error "🔥 Error on dependency injector loader: %o" e ;;
       rethrow e).

(** [loaders/index.ts] *)
Definition loaders (expressApp : App) : Boot unit :=
  supabaseClient ← supabaseLoader;
  Logger_info "✌️ Supabase client loaded!" ;;
  dependencyInjectorLoader supabaseClient ;;
  Logger_info "✌️ Dependency Injector loaded" ;;
  expressLoader expressApp ;;
  Logger_info "✌️ Express loaded".

End Boot.

Arguments Injectable : clear implicits.
Arguments BootState : clear implicits.
Arguments Boot : clear implicits.

End Loaders.

(* ===================================================================== *)
(** ** Sequences of calls to the repository *)
(* ===================================================================== *)

(** The object [{}] as an update. *)
Definition empty_update : PartialIUser :=
  {| p_id := None; p_name := None; p_email := None; p_password := None;
     p_salt := None; p_role := None; p_created_at := None;
     p_updated_at := None; p_lastLogin := None |}.

(** One call of a method of the repository. *)
Inductive Call : Type :=
| CallCreate (userData : CreateUserData)
| CallUpdate (id : string) (updateData : PartialIUser)
| CallFindByEmail (email : string)
| CallFindById (id : string).

(** The world after a call; its outcome is dropped. *)
Definition perform (c : Call) (w : World UsersTable.Db) : World UsersTable.Db :=
  match c with
  | CallCreate userData => (UserRepository.create userData w).2
  | CallUpdate id updateData => (UserRepository.update id updateData w).2
  | CallFindByEmail email => (UserRepository.findByEmail email w).2
  | CallFindById id => (UserRepository.findById id w).2
  end.

(** The same table and log, under the session of the next statement. *)
Definition in_session (s : UsersTable.Session) (w : World UsersTable.Db)
  : World UsersTable.Db :=
  {| w_store := {| UsersTable.db_session := s;
                   UsersTable.db_users := UsersTable.db_users (w_store w) |};
     w_log := w_log w |}.

(** A history: calls, each under the session it is made in. *)
Fixpoint perform_all (history : list (UsersTable.Session * Call))
    (w : World UsersTable.Db) : World UsersTable.Db :=
  match history with
  | [] => w
  | (s, c) :: rest => perform_all rest (perform c (in_session s w))
  end.

(** How many calls of a history are [create]s. *)
Fixpoint creates (history : list (UsersTable.Session * Call)) : nat :=
  match history with
  | [] => 0
  | (_, CallCreate _) :: rest => S (creates rest)
  | _ :: rest => creates rest
  end.

(** A client that answers every request with one fixed response; the
    store is that response. *)
Module Canned.
#[global] Instance client : SupabaseClient Response := fun _ r => (r, r).

(** A world whose client fails every request with [e]. *)
Definition failing (e : PostgrestError) : World Response :=
  {| w_store := {| data := None; error := Some e |}; w_log := [] |}.
End Canned.

(* ===================================================================== *)
(** ** The vocabulary of the specification *)
(* ===================================================================== *)

(** The store's answer "no row found": the error PGRST116 of a
    [.single()] request, with no data as in every failed request. *)
Definition no_row_found (r : Response) : Prop :=
  data r = None ∧ ∃ e, error r = Some e ∧ code e = "PGRST116".

(** The three outcomes the specification (4.4) sorts a store error
    into, and the sorting by the error's code: PGRST116 is a single-row
    request that found no row, 23505 a unique-constraint violation. *)
Inductive StoreSignal : Type :=
| NotFound
| Conflict
| StoreUnavailable.

Definition spec_signal (e : PostgrestError) : StoreSignal :=
  if bool_decide (code e = "PGRST116") then NotFound
  else if bool_decide (code e = "23505") then Conflict
  else StoreUnavailable.

(** ASCII lower case, for handles that differ in letter case only. *)
Definition lower_ascii (c : Ascii.ascii) : Ascii.ascii :=
  let n := Ascii.nat_of_ascii c in
  if bool_decide (65 ≤ n ≤ 90) then Ascii.ascii_of_nat (n + 32) else c.

Fixpoint lower (s : string) : string :=
  match s with
  | EmptyString => EmptyString
  | String c s' => String (lower_ascii c) (lower s')
  end.

(** The world in which no record has the identifier [id]. *)
Definition without_id (id : string) (w : World UsersTable.Db) : World UsersTable.Db :=
  {| w_store :=
       UsersTable.with_users (w_store w)
         (filter (fun r : UsersTable.Row => r !! "id" ≠ Some (JStr id))
            (UsersTable.db_users (w_store w)));
     w_log := w_log w |}.

(* ===================================================================== *)
(** ** Concrete worlds *)
(* ===================================================================== *)

Module Scenario.
Import UsersTable.

(** Five identifiers. *)
Definition u1 : Uuid :=
  {| uuid_text := "00000000-0000-4000-8000-000000000001";
     uuid_rendered := eq_refl |}.
Definition u2 : Uuid :=
  {| uuid_text := "00000000-0000-4000-8000-000000000002";
     uuid_rendered := eq_refl |}.
Definition u3 : Uuid :=
  {| uuid_text := "00000000-0000-4000-8000-000000000003";
     uuid_rendered := eq_refl |}.
Definition u7 : Uuid :=
  {| uuid_text := "00000000-0000-4000-8000-00000000000a";
     uuid_rendered := eq_refl |}.
Definition u9 : Uuid :=
  {| uuid_text := "00000000-0000-4000-8000-000000000009";
     uuid_rendered := eq_refl |}.

(** [u7] as a client may spell it. *)
Definition U7 : string := "{00000000-0000-4000-8000-00000000000A}".

(** Two times of the clock. *)
Definition t0 : string := "2024-01-01T00:00:00+00:00".
Definition t1 : string := "2024-01-02T00:00:00+00:00".

(** A session in UTC that is given dates only: a date [YYYY-MM-DD] is
    midnight of that day, anything else is refused.  It stands in for the
    input of the store, which reads many more forms. *)
Definition is_digit (c : Ascii.ascii) : bool :=
  let n := Ascii.nat_of_ascii c in (48 <=? n) && (n <=? 57).

Definition is_date (v : string) : bool :=
  match String.list_ascii_of_string v with
  | [y1; y2; y3; y4; h1; m1; m2; h2; d1; d2] =>
      forallb is_digit [y1; y2; y3; y4; m1; m2; d1; d2]
      && Ascii.eqb h1 hyphen && Ascii.eqb h2 hyphen
  | _ => false
  end.

Definition utc (v : string) : PostgrestError + string :=
  if is_date v then inr (v +:+ "T00:00:00+00:00")
  else inl (mk_error "22007"
              ("invalid input syntax for type timestamp with time zone: "
               +:+ quoted v)).

(** The loaded client on an empty table, no row policy in force. *)
Definition db0 : Db := supabaseLoader false t0 u1 utc [].
Definition w0 : World Db := {| w_store := db0; w_log := [] |}.

Definition alice : CreateUserData :=
  {| cu_dto := {| dto_name := "Alice"; dto_email := "alice@x";
                  dto_password := "digest" |};
     cu_salt := "salt" |}.

Definition ALICE : CreateUserData :=
  {| cu_dto := {| dto_name := "Alice"; dto_email := "ALICE@X";
                  dto_password := "digest2" |};
     cu_salt := "salt2" |}.

(** The row [create alice] makes in [db0]. *)
Definition alice_row : Row :=
  <["id" := JStr u1]>
    (<["email" := JStr "alice@x"]>
       (<["name" := JStr "Alice"]>
          (<["password" := JStr "digest"]>
             (<["salt" := JStr "salt"]>
                (<["role" := JStr "user"]>
                   (<["created_at" := JStr t0]>
                      (<["updated_at" := JStr t0]> ∅))))))).

(** Another row. *)
Definition bob_row : Row :=
  <["id" := JStr u2]>
    (<["email" := JStr "bob@x"]>
       (<["name" := JStr "Bob"]>
          (<["password" := JStr "digest-b"]>
             (<["salt" := JStr "salt-b"]>
                (<["role" := JStr "user"]>
                   (<["created_at" := JStr t0]>
                      (<["updated_at" := JStr t0]> ∅))))))).

(** After Alice has registered. *)
Definition registered : World Db := (UserRepository.create alice w0).2.

(** The same table later, seen by a session [s]. *)
Definition world_of (s : Session) (rows : list Row) : World Db :=
  {| w_store := {| db_session := s; db_users := rows |}; w_log := [] |}.

Definition session1 : Session :=
  {| auth_uid := None; row_security := false; now := t1;
     uuid_generate_v4 := u2; timestamptz_in := utc |}.

(** Caller [u2] with and without the row policies in force. *)
Definition session_of_u2 (rls : bool) : Session :=
  {| auth_uid := Some u2; row_security := rls; now := t1;
     uuid_generate_v4 := u3; timestamptz_in := utc |}.

(** Alice herself as the caller, the row policies in force. *)
Definition session_of_alice : Session :=
  {| auth_uid := Some u1; row_security := true; now := t1;
     uuid_generate_v4 := u2; timestamptz_in := utc |}.

Definition rename (n : string) : PartialIUser :=
  {| p_id := None; p_name := Some n; p_email := None; p_password := None;
     p_salt := None; p_role := None; p_created_at := None;
     p_updated_at := None; p_lastLogin := None |}.

(** An update of the day of registration. *)
Definition registered_on (day : string) : PartialIUser :=
  {| p_id := None; p_name := None; p_email := None; p_password := None;
     p_salt := None; p_role := None; p_created_at := Some day;
     p_updated_at := None; p_lastLogin := None |}.

(** An update that names [lastLogin], which [IUser] declares and the
    table does not have. *)
Definition seen (at_ : string) : PartialIUser :=
  {| p_id := None; p_name := None; p_email := None; p_password := None;
     p_salt := None; p_role := None; p_created_at := None;
     p_updated_at := None; p_lastLogin := Some at_ |}.

(** [n] times the character [c]. *)
Fixpoint copies (n : nat) (c : Ascii.ascii) : string :=
  match n with
  | 0 => EmptyString
  | S n' => String c (copies n' c)
  end.

(** A text of 255 characters, and the same followed by a space. *)
Definition text255 : string := copies 255 (Ascii.ascii_of_nat 100).
Definition text255_space : string := text255 +:+ " ".

(** A name of 256 characters. *)
Definition name256 : string := copies 256 (Ascii.ascii_of_nat 110).

(** Registrations with these. *)
Definition carol (password : string) : CreateUserData :=
  {| cu_dto := {| dto_name := "Carol"; dto_email := "carol@x";
                  dto_password := password |};
     cu_salt := "salt-c" |}.

Definition dave (email : string) : CreateUserData :=
  {| cu_dto := {| dto_name := "Dave"; dto_email := email;
                  dto_password := "digest-d" |};
     cu_salt := "salt-d" |}.

Definition alice_named (name : string) : CreateUserData :=
  {| cu_dto := {| dto_name := name; dto_email := "alice@x";
                  dto_password := "digest" |};
     cu_salt := "salt" |}.

(** A signature for examples: the secret followed by the principal. *)
Definition toy_sign (k : string) (c : SessionToken.Claims) : string :=
  k +:+ SessionToken.c_principal c.

(** The byte 'X'. *)
Definition byte_X : Ascii.ascii := Ascii.ascii_of_nat 88.

End Scenario.


(** Start-ups to run the loaders on.  The libraries are stood in for by
    their argument checks: [createClient] refuses an empty URL, the mail
    client an empty key; the client made is the URL and key it was made
    with, the mail client its user name.  The express loader does
    nothing. *)
Module BootScenario.
Import Loaders.

Definition config_ok : Config :=
  {| supabase_url := "https://x.supabase.co"; supabase_anonKey := "anon";
     emails_apiKey := "key-1"; emails_apiUsername := "api";
     emails_domain := "mg.x" |}.

(** A configuration with no mail key. *)
Definition config_no_mail_key : Config :=
  {| supabase_url := "https://x.supabase.co"; supabase_anonKey := "anon";
     emails_apiKey := EmptyString; emails_apiUsername := "api";
     emails_domain := "mg.x" |}.

(** A configuration with no URL of the store. *)
Definition config_no_url : Config :=
  {| supabase_url := EmptyString; supabase_anonKey := "anon";
     emails_apiKey := "key-1"; emails_apiUsername := "api";
     emails_domain := "mg.x" |}.

Definition createClient (url anonKey : string) (_ : ClientOptions)
  : Outcome (string * string) :=
  if bool_decide (url = EmptyString)
  then Thrown (new_Error "supabaseUrl is required.")
  else Returned (url, anonKey).

Definition new_Mailgun : Outcome unit := Returned tt.

Definition mg_client (_ : unit) (options : MailgunOptions) : Outcome string :=
  if bool_decide (key options = EmptyString)
  then Thrown (new_Error "Parameter key is required")
  else Returned (username options).

Definition expressLoader (_ : unit) : Boot (string * string) string unit :=
  mret tt.

(** Nothing registered, nothing logged. *)
Definition boot0 : BootState (string * string) string :=
  {| container := ∅; boot_log := [] |}.

End BootScenario.

(** Later calls on Alice's table. *)
Module Later.
Import UsersTable Scenario.

(** An update that gives the row another identifier. *)
Definition move_to (id : string) : PartialIUser :=
  {| p_id := Some id; p_name := None; p_email := None; p_password := None;
     p_salt := None; p_role := None; p_created_at := None;
     p_updated_at := None; p_lastLogin := None |}.


(** Alice registers, registers again under another spelling, is renamed
    by somebody else, is looked up, and registers once more. *)
Definition history : list (Session * Call) :=
  [ (db_session db0, CallCreate alice);
    (session1, CallCreate ALICE);
    (session_of_u2 false, CallUpdate u1 (rename "Al"));
    (session1, CallFindByEmail "alice@x");
    (session_of_u2 false, CallCreate alice) ].

End Later.
(* ===================================================================== *)
(** ** The methods, run *)
(* ===================================================================== *)

Section AnswersFacts.
Context {S : Type} `{client : SupabaseClient S}.

Local Ltac split_on_code e :=
  let Hc := fresh "Hc" in
  destruct (decide (code e = "PGRST116")) as [Hc|Hc];
  [ rewrite (bool_decide_eq_false_2 _ (fun H => H Hc)),
      (bool_decide_eq_true_2 _ Hc)
  | rewrite (bool_decide_eq_true_2 _ Hc), (bool_decide_eq_false_2 _ Hc) ].

Local Ltac run_method :=
  intros;
  unfold throw_any, throw_unless_no_row, answer_of, world_after,
    UserRepository.create, UserRepository.update,
    UserRepository.findByEmail, UserRepository.findById,
    mbind, Repo_bind, mret, Repo_ret, throw, logger_silly, logger_error,
    await; simpl;
  match goal with
  | |- context [supabase_run ?q ?s] =>
      let r := fresh "r" in
      let e := fresh "e" in
      destruct (supabase_run q s) as [r ?]; simpl;
      destruct (error r) as [e|]; simpl; try reflexivity;
      try split_on_code e
  end;
  simpl; rewrite <- ?app_assoc; reflexivity.

Lemma create_run (userData : CreateUserData) (w : World S) :
  UserRepository.create userData w =
  throw_any "Creating user in database" "Error creating user: %o"
    "Failed to create user: " (UserRepository.create_query userData) w.
Proof. run_method. Qed.

Lemma update_run (id : string) (updateData : PartialIUser) (w : World S) :
  UserRepository.update id updateData w =
  throw_any "Updating user in database" "Error updating user: %o"
    "Failed to update user: " (UserRepository.update_query id updateData) w.
Proof. run_method. Qed.

Lemma findByEmail_run (email : string) (w : World S) :
  UserRepository.findByEmail email w =
  throw_unless_no_row "Finding user by email" "Error finding user by email: %o"
    "Failed to find user by email: " (UserRepository.findByEmail_query email) w.
Proof. run_method. Qed.

Lemma findById_run (id : string) (w : World S) :
  UserRepository.findById id w =
  throw_unless_no_row "Finding user by id" "Error finding user by id: %o"
    "Failed to find user by id: " (UserRepository.findById_query id) w.
Proof. run_method. Qed.

Lemma throw_any_Returned (what fmt prefix : string) (q : Query)
    (w w' : World S) (o : option JObject) :
  throw_any what fmt prefix q w = (Returned o, w') →
  error (answer_of q w) = None ∧ o = data (answer_of q w)
  ∧ w' = world_after q [LogSilly what] w.
Proof.
  unfold throw_any. destruct (error (answer_of q w)); [discriminate|].
  by intros [= <- <-].
Qed.

End AnswersFacts.

(* ===================================================================== *)
(** ** Facts about lists of rows *)
(* ===================================================================== *)

Section Lists.
Context {A : Type} (P : A → Prop) `{!∀ x, Decision (P x)}.

(** Exactly one element passes a filter: the list splits around it. *)
Lemma filter_one_split (l : list A) (x : A) :
  filter P l = [x] →
  ∃ pre post, l = pre ++ x :: post ∧ P x
              ∧ Forall (fun y => ¬ P y) pre ∧ Forall (fun y => ¬ P y) post.
Proof.
  induction l as [|y l IH]; intros Hf; [discriminate|].
  rewrite filter_cons in Hf. destruct (decide (P y)) as [Hy|Hy].
  - injection Hf as -> Hrest. exists [], l. repeat split; [done|constructor|].
    apply Forall_forall. intros z Hz Pz.
    by apply (filter_nil_not_elem_of P l z).
  - destruct (IH Hf) as (pre & post & -> & Hx & Hpre & Hpost).
    exists (y :: pre), post. repeat split; [done| |done].
    by constructor.
Qed.

Lemma filter_none (l : list A) :
  Forall (fun y => ¬ P y) l → filter P l = [].
Proof.
  induction 1 as [|y l Hy _ IH]; [done|].
  rewrite filter_cons. by destruct (decide (P y)).
Qed.

(** Rewriting the elements that pass and no others. *)
Lemma fmap_if_none (hit : A → bool) (f : A → A) (l : list A) :
  Forall (fun y => ¬ hit y) l →
  (fun y => if hit y then f y else y) <$> l = l.
Proof.
  induction 1 as [|y l Hy _ IH]; [done|].
  rewrite fmap_cons, IH. destruct (hit y); [|done]. by destruct Hy.
Qed.

(** A list without duplicates whose elements are all [x]. *)
Lemma only_element (l : list A) (x : A) :
  NoDup l → (∀ y, y ∈ l → y = x) → x ∈ l → l = [x].
Proof.
  intros Hnd Hall Hin. destruct l as [|y [|z l]].
  - by apply not_elem_of_nil in Hin.
  - by rewrite (Hall y) by apply list_elem_of_here.
  - assert (y = x) as -> by apply Hall, list_elem_of_here.
    assert (z = x) as ->
      by apply Hall, list_elem_of_further, list_elem_of_here.
    apply NoDup_cons in Hnd as [Hnot _]. destruct Hnot.
    apply list_elem_of_here.
Qed.

End Lists.

(* ===================================================================== *)
(** ** Facts about the values the columns take *)
(* ===================================================================== *)

Section ColumnFacts.
Import UsersTable.

(** *** Texts *)

Lemma split_chars_fits (n : nat) (v : string) :
  char_length v ≤ n → split_chars n v = (v, EmptyString).
Proof.
  revert n. induction v as [|c v IH]; intros n Hn; [done|].
  cbn [char_length split_chars] in *.
  destruct (continuation c).
  - by rewrite IH.
  - destruct n as [|n]; [lia|]. rewrite IH; [done|lia].
Qed.

(** A value within the width of its column is taken as it is. *)
Lemma varchar_in_fits (n : nat) (v : string) :
  char_length v ≤ n → varchar_in n v = Some v.
Proof. intros Hn. unfold varchar_in. by rewrite split_chars_fits. Qed.

Lemma varchar_in_same (n : nat) (v v' : string) :
  varchar_in n v = Some v' → char_length v ≤ n → v' = v.
Proof. intros Hin Hn. rewrite varchar_in_fits in Hin by done. by injection Hin. Qed.

Lemma split_chars_length (n : nat) (v : string) :
  char_length (split_chars n v).1 ≤ n.
Proof.
  revert n. induction v as [|c v IH]; intros n; [cbn; lia|].
  cbn [split_chars]. destruct (continuation c) eqn:Hc.
  - specialize (IH n). destruct (split_chars n v) as [keep rest].
    cbn [fst char_length] in *. by rewrite Hc.
  - destruct n as [|n]; [cbn; lia|].
    specialize (IH n). destruct (split_chars n v) as [keep rest].
    cbn [fst char_length] in *. rewrite Hc. lia.
Qed.

(** What a column of width [n] keeps has at most [n] characters. *)
Lemma varchar_in_length (n : nat) (v v' : string) :
  varchar_in n v = Some v' → char_length v' ≤ n.
Proof.
  unfold varchar_in. pose proof (split_chars_length n v) as Hlen.
  destruct (split_chars n v) as [keep rest]. cbn [fst] in Hlen.
  destruct (all_spaces rest); [|discriminate]. by intros [= <-].
Qed.

Lemma cast_varchar (s : Session) (n : nat) (v : string) :
  has_nul v = false → char_length v ≤ n → cast s (VARCHAR n) v = inr v.
Proof. intros Hnul Hn. unfold cast. by rewrite Hnul, varchar_in_fits. Qed.

Lemma within_cast (s : Session) (n : nat) (v : string) :
  within n v = true → cast s (VARCHAR n) v = inr v.
Proof.
  unfold within. intros Hv. apply andb_prop in Hv as [Hnul Hn].
  apply cast_varchar; [by apply negb_true_iff|by apply Nat.leb_le].
Qed.

Lemma cast_varchar_inv (s : Session) (n : nat) (v v' : string) :
  cast s (VARCHAR n) v = inr v' →
  has_nul v = false ∧ varchar_in n v = Some v'.
Proof.
  unfold cast. destruct (has_nul v); [discriminate|].
  destruct (varchar_in n v); [|discriminate]. by intros [= ->].
Qed.

Lemma cast_varchar_error (s : Session) (n : nat) (v : string)
    (e : PostgrestError) :
  cast s (VARCHAR n) v = inl e →
  e = untranslatable_character ∨ e = value_too_long n.
Proof.
  unfold cast. destruct (has_nul v); [intros [= <-]; by left|].
  destruct (varchar_in n v); [discriminate|]. intros [= <-]. by right.
Qed.

Lemma split_chars_has_nul (n : nat) (v : string) :
  has_nul v = false → has_nul (split_chars n v).1 = false.
Proof.
  revert n. induction v as [|c v IH]; intros n; [done|].
  cbn [has_nul split_chars]. intros Hv.
  apply orb_false_iff in Hv as [Hc Hv].
  destruct (continuation c).
  - specialize (IH n Hv). destruct (split_chars n v) as [keep rest].
    cbn [fst has_nul] in *. by rewrite Hc, IH.
  - destruct n as [|n]; [done|].
    specialize (IH n Hv). destruct (split_chars n v) as [keep rest].
    cbn [fst has_nul] in *. by rewrite Hc, IH.
Qed.

(** What a column keeps of a text holds no U+0000. *)
Lemma cast_varchar_has_nul (s : Session) (n : nat) (v v' : string) :
  cast s (VARCHAR n) v = inr v' → has_nul v' = false.
Proof.
  intros Hcast. apply cast_varchar_inv in Hcast as [Hnul Hin].
  unfold varchar_in in Hin.
  pose proof (split_chars_has_nul n v Hnul) as Hkeep.
  destruct (split_chars n v) as [keep rest].
  destruct (all_spaces rest); [|discriminate]. by injection Hin as <-.
Qed.

Lemma cast_uuid_inv (s : Session) (v v' : string) :
  cast s UUID v = inr v' → uuid_in v = Some v'.
Proof.
  unfold cast. destruct (has_nul v); [discriminate|].
  destruct (uuid_in v); [|discriminate]. by intros [= ->].
Qed.

(** *** Identifiers *)

Lemma is_hex_not_nul (c : Ascii.ascii) :
  is_hex c = true → (Ascii.nat_of_ascii c =? 0) = false.
Proof.
  unfold is_hex. destruct (Ascii.nat_of_ascii c) as [|n]; [|done].
  discriminate.
Qed.

Lemma read_uuid_has_nul (i count : nat) (src digits after : string) :
  read_uuid i count src = Some (digits, after) →
  has_nul src = has_nul after.
Proof.
  revert i src digits. induction count as [|count IH]; intros i src digits.
  - by intros [= _ <-].
  - cbn [read_uuid]. destruct src as [|a [|b rest]]; try discriminate.
    destruct (is_hex a) eqn:Ha; [|discriminate].
    destruct (is_hex b) eqn:Hb; [|discriminate]. cbn [andb].
    destruct (read_uuid (S i) count _) as [[ds tl]|] eqn:Hread;
      [|discriminate].
    intros [= _ <-]. apply IH in Hread. cbn [has_nul].
    rewrite (is_hex_not_nul a Ha), (is_hex_not_nul b Hb). cbn [orb].
    rewrite <- Hread. destruct rest as [|c rest]; [done|].
    destruct (Ascii.eqb c hyphen && Nat.odd i && (i <? 15)) eqn:Hc; [|done].
    apply andb_prop in Hc as [Hc _]. apply andb_prop in Hc as [Hc _].
    apply Ascii.eqb_eq in Hc as ->. done.
Qed.

(** A text that reads as an identifier holds no U+0000. *)
Lemma uuid_in_has_nul (v u : string) :
  uuid_in v = Some u → has_nul v = false.
Proof.
  unfold uuid_in.
  assert (Hrest : ∀ (braces : bool) src,
            match read_uuid 0 16 src with
            | Some (digits, after) =>
                if bool_decide (after = if braces then "}" else EmptyString)
                then Some (uuid_out digits) else None
            | None => None
            end = Some u → has_nul src = false).
  { intros braces src.
    destruct (read_uuid 0 16 src) as [[ds tl]|] eqn:Hread; [|discriminate].
    case_bool_decide as Htl; [|discriminate]. intros _.
    rewrite (read_uuid_has_nul _ _ _ _ _ Hread), Htl. by destruct braces. }
  destruct v as [|c v]; [apply (Hrest false)|].
  destruct (Ascii.nat_of_ascii c =? 123) eqn:Hc.
  - intros Hu. cbn [has_nul]. rewrite (Hrest true v Hu).
    apply Nat.eqb_eq in Hc. by rewrite Hc.
  - apply (Hrest false).
Qed.

(** Two identifiers with one rendering are one. *)
Lemma uuid_eq (u u' : Uuid) : uuid_text u = uuid_text u' → u = u'.
Proof.
  destruct u as [t H], u' as [t' H']. cbn. intros <-.
  f_equal. apply proof_irrel.
Qed.

(** *** Filters *)

Lemma cast_filters_email (s : Session) (key : string) :
  cast_filters s [("email", key)] =
  if has_nul key then inl invalid_byte_sequence else inr [("email", key)].
Proof.
  cbn [cast_filters]. unfold cast_filter. cbn [fst snd].
  destruct (has_nul key); [done|]. vm_compute (column_type "email"). done.
Qed.

Lemma cast_filters_id (s : Session) (key : string) :
  cast_filters s [("id", key)] =
  match uuid_in key with
  | Some u => inr [("id", u)]
  | None =>
      inl (if has_nul key then invalid_byte_sequence else invalid_uuid key)
  end.
Proof.
  cbn [cast_filters]. unfold cast_filter. cbn [fst snd].
  vm_compute (column_type "id").
  destruct (uuid_in key) as [u|] eqn:Hu.
  - by rewrite (uuid_in_has_nul key u Hu).
  - by destruct (has_nul key).
Qed.

(** *** Request bodies *)

(** What the reading of a body leaves of each property: a text becomes
    what its column keeps of it, anything else stays. *)
Lemma cast_body_lookup (s : Session) (types : list (string * ColumnType))
    (body typed : JObject) (k : string) :
  NoDup types.*1 →
  cast_body s types body = inr typed →
  (k ∉ types.*1 → typed !! k = body !! k)
  ∧ (body !! k = None → typed !! k = None)
  ∧ (body !! k = Some JNull → typed !! k = Some JNull)
  ∧ (∀ v t, body !! k = Some (JStr v) → (k, t) ∈ types →
            ∃ v', cast s t v = inr v' ∧ typed !! k = Some (JStr v')).
Proof.
  revert k body. induction types as [|[c t] types IH]; intros k body Hnd Hcast.
  - injection Hcast as <-. split_and!; try done.
    intros v t _ Hin. by apply not_elem_of_nil in Hin.
  - cbn [fmap list_fmap fst] in Hnd. apply NoDup_cons in Hnd as [Hc Hnd].
    cbn [cast_body] in Hcast.
    assert (Hskip : ∀ body', cast_body s types body' = inr typed →
              body' !! c = typed !! c).
    { intros body' Hbody'. symmetry.
      by apply (IH c body' Hnd Hbody'). }
    destruct (body !! c) as [[|v0]|] eqn:Hbc.
    + destruct (IH k body Hnd Hcast) as (Hout & Hnone & Hnull & Hstr).
      split_and!; try done.
      * intros Hk. apply Hout. cbn in Hk. set_solver.
      * intros v t' Hk Hin. apply elem_of_cons in Hin as [[= -> ->]|Hin];
          [congruence|by apply Hstr].
    + destruct (cast s t v0) as [e|v0'] eqn:Hv0; [discriminate|].
      destruct (IH k _ Hnd Hcast) as (Hout & Hnone & Hnull & Hstr).
      pose proof (Hskip _ Hcast) as Hc'. rewrite lookup_insert_eq in Hc'.
      destruct (decide (k = c)) as [->|Hkc].
      * split_and!; try congruence.
        -- intros Hk. cbn in Hk. set_solver.
        -- intros v t' Hk Hin. rewrite Hbc in Hk. injection Hk as <-.
           apply elem_of_cons in Hin as [[= ->]|Hin].
           ++ by exists v0'.
           ++ destruct Hc. apply list_elem_of_fmap. by exists (c, t').
      * split_and!.
        -- intros Hk. rewrite Hout, lookup_insert_ne; [done..|].
           cbn in Hk. set_solver.
        -- intros Hk. apply Hnone. by rewrite lookup_insert_ne.
        -- intros Hk. apply Hnull. by rewrite lookup_insert_ne.
        -- intros v t' Hk Hin. apply (Hstr v t').
           ++ by rewrite lookup_insert_ne.
           ++ apply elem_of_cons in Hin as [[= -> ->]|Hin]; done.
    + destruct (IH k body Hnd Hcast) as (Hout & Hnone & Hnull & Hstr).
      split_and!; try done.
      * intros Hk. apply Hout. cbn in Hk. set_solver.
      * intros v t' Hk Hin. apply elem_of_cons in Hin as [[= -> ->]|Hin];
          [congruence|by apply Hstr].
Qed.

(** A body is read when each of its texts is taken by its column. *)
Lemma cast_body_ok (s : Session) (types : list (string * ColumnType))
    (body : JObject) :
  NoDup types.*1 →
  (∀ k t v, (k, t) ∈ types → body !! k = Some (JStr v) →
            ∃ v', cast s t v = inr v') →
  ∃ typed, cast_body s types body = inr typed.
Proof.
  revert body. induction types as [|[c t] types IH]; intros body Hnd Hall.
  - by exists body.
  - cbn [fmap list_fmap fst] in Hnd. apply NoDup_cons in Hnd as [Hc Hnd].
    cbn [cast_body].
    assert (Hrest : ∀ k t' v, (k, t') ∈ types → body !! k = Some (JStr v) →
              ∃ v', cast s t' v = inr v').
    { intros k t' v Hin. apply Hall. by apply list_elem_of_further. }
    destruct (body !! c) as [[|v0]|] eqn:Hbc; try by apply IH.
    destruct (Hall c t v0 (list_elem_of_here _ _) Hbc) as [v0' ->].
    apply IH; [done|]. intros k t' v Hin Hk.
    destruct (decide (k = c)) as [->|Hkc].
    + destruct Hc. apply list_elem_of_fmap. by exists (c, t').
    + rewrite lookup_insert_ne in Hk by done. by apply (Hrest k t' v).
Qed.

(** A body that is refused holds a text that its column refuses, with
    this error. *)
Lemma cast_body_error (s : Session) (types : list (string * ColumnType))
    (body : JObject) (e : PostgrestError) :
  NoDup types.*1 →
  cast_body s types body = inl e →
  ∃ k t v, (k, t) ∈ types ∧ body !! k = Some (JStr v) ∧ cast s t v = inl e.
Proof.
  revert body. induction types as [|[c t] types IH]; intros body Hnd Hcast;
    [discriminate|].
  cbn [fmap list_fmap fst] in Hnd. apply NoDup_cons in Hnd as [Hc Hnd].
  cbn [cast_body] in Hcast.
  assert (Hrest : ∀ body', (∀ k, k ≠ c → body' !! k = body !! k) →
            cast_body s types body' = inl e →
            ∃ k t' v, (k, t') ∈ (c, t) :: types ∧ body !! k = Some (JStr v)
                      ∧ cast s t' v = inl e).
  { intros body' Hsame Hbody'.
    destruct (IH body' Hnd Hbody') as (k & t' & v & Hin & Hk & Hv).
    exists k, t', v. split_and!; [by apply list_elem_of_further| |done].
    rewrite <- Hsame; [done|]. intros ->. destruct Hc.
    apply list_elem_of_fmap. by exists (c, t'). }
  destruct (body !! c) as [[|v0]|] eqn:Hbc; try by apply (Hrest body).
  destruct (cast s t v0) as [e0|v0'] eqn:Hv0.
  - injection Hcast as ->. exists c, t, v0.
    split_and!; [apply list_elem_of_here|done..].
  - apply (Hrest _ (fun k Hk => lookup_insert_ne _ _ _ _ (not_eq_sym Hk)) Hcast).
Qed.

Lemma column_types_NoDup : NoDup column_types.*1.
Proof. by apply (bool_decide_unpack _). Qed.

(** The columns [create] fills are [VARCHAR(255)]. *)
Lemma create_columns_varchar (k : string) (t : ColumnType) :
  (k, t) ∈ column_types → k ∈ ["name"; "email"; "password"; "salt"] →
  t = VARCHAR 255.
Proof.
  intros Hin Hk. apply list_elem_of_In in Hin. cbn in Hin.
  repeat (destruct Hin as [[= <- <-]|Hin]; [try done|]); try done.
  all: exfalso; revert Hk; by apply (bool_decide_unpack _).
Qed.

End ColumnFacts.

(* ===================================================================== *)
(** ** Facts about the [users] table *)
(* ===================================================================== *)

Section TableFacts.
Import UsersTable.

(** *** Request bodies *)

Lemma json_of_create_lookup (d : CreateUserData) :
  json_of_create d !! "name" = Some (JStr (cu_name d))
  ∧ json_of_create d !! "email" = Some (JStr (cu_email d))
  ∧ json_of_create d !! "password" = Some (JStr (cu_password d))
  ∧ json_of_create d !! "salt" = Some (JStr (cu_salt d)).
Proof. unfold json_of_create. by simplify_map_eq. Qed.

Lemma json_of_create_keys (d : CreateUserData) (k : string) :
  k ∉ ["name"; "email"; "password"; "salt"] → json_of_create d !! k = None.
Proof.
  intros Hk. unfold json_of_create.
  rewrite !lookup_insert_ne, lookup_empty; [done|set_solver..].
Qed.

(** A body whose properties are all columns. *)
Lemma unknown_body_column_None (body : JObject) :
  (∀ k, is_Some (body !! k) → k ∈ columns) →
  unknown_body_column body = None.
Proof.
  intros Hall. unfold unknown_body_column. rewrite filter_none; [done|].
  apply Forall_forall. intros k Hk Hnot. apply Hnot, Hall.
  by apply elem_of_dom, elem_of_elements.
Qed.

(** A body with one property that is no column. *)
Lemma unknown_body_column_only (body : JObject) (x : string) :
  (∀ k, is_Some (body !! k) → k ∉ columns → k = x) →
  is_Some (body !! x) → x ∉ columns →
  unknown_body_column body = Some x.
Proof.
  intros Hall Hx Hnot. unfold unknown_body_column.
  rewrite (only_element _ x); [done| | |].
  - apply NoDup_filter, NoDup_elements.
  - intros k Hk. apply list_elem_of_filter in Hk as [Hk Hin].
    apply Hall; [|done]. by apply elem_of_dom, elem_of_elements.
  - apply list_elem_of_filter. split; [done|].
    by apply elem_of_elements, elem_of_dom.
Qed.

Lemma unknown_body_column_create (d : CreateUserData) :
  unknown_body_column (json_of_create d) = None.
Proof.
  apply unknown_body_column_None. intros k Hk.
  destruct (decide (k ∈ ["name"; "email"; "password"; "salt"])) as [Hin|Hout].
  - unfold columns. set_solver.
  - rewrite (json_of_create_keys d k Hout) in Hk. by destruct Hk.
Qed.

(** The body of [create], read: the four values as their columns keep
    them. *)
Lemma cast_body_create_inv (s : Session) (d : CreateUserData)
    (typed : JObject) :
  cast_body s column_types (json_of_create d) = inr typed →
  ∃ name email password salt,
    cast s (VARCHAR 255) (cu_name d) = inr name
    ∧ cast s (VARCHAR 255) (cu_email d) = inr email
    ∧ cast s (VARCHAR 255) (cu_password d) = inr password
    ∧ cast s (VARCHAR 255) (cu_salt d) = inr salt
    ∧ typed =
      json_of_create (user_data name email password salt).
Proof.
  intros Hcast.
  pose proof (fun k => cast_body_lookup s _ _ _ k column_types_NoDup Hcast)
    as Hlookup.
  destruct (json_of_create_lookup d) as (Hn & He & Hp & Hs).
  destruct (Hlookup "name") as (_ & _ & _ & Hname).
  destruct (Hname _ (VARCHAR 255) Hn) as (name & Hcn & Htn);
    [by apply (bool_decide_unpack _)|].
  destruct (Hlookup "email") as (_ & _ & _ & Hemail).
  destruct (Hemail _ (VARCHAR 255) He) as (email & Hce & Hte);
    [by apply (bool_decide_unpack _)|].
  destruct (Hlookup "password") as (_ & _ & _ & Hpassword).
  destruct (Hpassword _ (VARCHAR 255) Hp) as (password & Hcp & Htp);
    [by apply (bool_decide_unpack _)|].
  destruct (Hlookup "salt") as (_ & _ & _ & Hsalt).
  destruct (Hsalt _ (VARCHAR 255) Hs) as (salt & Hcs & Hts);
    [by apply (bool_decide_unpack _)|].
  exists name, email, password, salt. split_and!; try done.
  apply map_eq. intros k.
  set (d' := user_data name email password salt).
  destruct (json_of_create_lookup d') as (Hn' & He' & Hp' & Hs').
  destruct (decide (k = "name")) as [->|?]; [by rewrite Htn, Hn'|].
  destruct (decide (k = "email")) as [->|?]; [by rewrite Hte, He'|].
  destruct (decide (k = "password")) as [->|?]; [by rewrite Htp, Hp'|].
  destruct (decide (k = "salt")) as [->|?]; [by rewrite Hts, Hs'|].
  assert (Hout : k ∉ ["name"; "email"; "password"; "salt"]).
  { rewrite !not_elem_of_cons. split_and!; try done. apply not_elem_of_nil. }
  rewrite (json_of_create_keys d' k Hout).
  destruct (Hlookup k) as (_ & Hnone & _). apply Hnone.
  by apply json_of_create_keys.
Qed.

(** It is read when the four values are taken. *)
Lemma cast_body_create_ok (s : Session) (d : CreateUserData)
    (name email password salt : string) :
  cast s (VARCHAR 255) (cu_name d) = inr name →
  cast s (VARCHAR 255) (cu_email d) = inr email →
  cast s (VARCHAR 255) (cu_password d) = inr password →
  cast s (VARCHAR 255) (cu_salt d) = inr salt →
  cast_body s column_types (json_of_create d) =
  inr (json_of_create (user_data name email password salt)).
Proof.
  intros Hn He Hp Hs.
  destruct (json_of_create_lookup d) as (Hbn & Hbe & Hbp & Hbs).
  destruct (cast_body_ok s column_types (json_of_create d) column_types_NoDup)
    as [typed Htyped].
  { intros k t v Hin Hk.
    destruct (decide (k ∈ ["name"; "email"; "password"; "salt"])) as [Hkin|Hout].
    - assert (t = VARCHAR 255) as -> by by apply (create_columns_varchar k).
      rewrite !elem_of_cons in Hkin.
      destruct Hkin as [->|[->|[->|[->|Hnil]]]].
      + rewrite Hbn in Hk. injection Hk as <-. by exists name.
      + rewrite Hbe in Hk. injection Hk as <-. by exists email.
      + rewrite Hbp in Hk. injection Hk as <-. by exists password.
      + rewrite Hbs in Hk. injection Hk as <-. by exists salt.
      + by apply not_elem_of_nil in Hnil.
    - by rewrite (json_of_create_keys d k Hout) in Hk. }
  rewrite Htyped.
  apply cast_body_create_inv in Htyped
    as (name' & email' & password' & salt' & Hn' & He' & Hp' & Hs' & ->).
  congruence.
Qed.

(** It is refused when one of the four values is. *)
Lemma cast_body_create_error (s : Session) (d : CreateUserData)
    (e : PostgrestError) :
  cast_body s column_types (json_of_create d) = inl e →
  e = untranslatable_character ∨ e = value_too_long 255.
Proof.
  intros Hcast.
  apply cast_body_error in Hcast as (k & t & v & Hin & Hk & Hv);
    [|apply column_types_NoDup].
  destruct (decide (k ∈ ["name"; "email"; "password"; "salt"])) as [Hkin|Hout].
  - assert (t = VARCHAR 255) as -> by by apply (create_columns_varchar k).
    by apply (cast_varchar_error s 255 v).
  - by rewrite (json_of_create_keys d k Hout) in Hk.
Qed.

(** *** Written rows *)

Lemma new_row_given (s : Session) (body : JObject) (k : string) (v : JVal) :
  body !! k = Some v → new_row s body !! k = Some v.
Proof. apply lookup_union_Some_l. Qed.

Lemma new_row_default (s : Session) (body : JObject) (k : string) :
  body !! k = None → new_row s body !! k = defaults s !! k.
Proof. intros. unfold new_row. by rewrite lookup_union_r. Qed.

Lemma new_row_create (s : Session) (d : CreateUserData) :
  let r := new_row s (json_of_create d) in
  r !! "id" = Some (JStr (uuid_generate_v4 s))
  ∧ r !! "name" = Some (JStr (cu_name d))
  ∧ r !! "email" = Some (JStr (cu_email d))
  ∧ r !! "password" = Some (JStr (cu_password d))
  ∧ r !! "salt" = Some (JStr (cu_salt d))
  ∧ r !! "role" = Some (JStr "user").
Proof.
  destruct (json_of_create_lookup d) as (Hn & He & Hp & Hs).
  split_and!; try (by apply new_row_given).
  all: rewrite new_row_default; [done|]; apply json_of_create_keys.
  all: by apply (bool_decide_unpack _).
Qed.

Lemma not_null_ok_create (s : Session) (d : CreateUserData) :
  not_null_ok (new_row s (json_of_create d)) = true.
Proof.
  destruct (new_row_create s d) as (Hi & Hn & He & Hp & Hs & _).
  unfold not_null_ok, not_null_columns. simpl.
  by rewrite Hi, Hn, He, Hp, Hs.
Qed.

Lemma updated_row_kept (s : Session) (body : JObject) (r : Row) (k : string) :
  k ≠ "updated_at" → body !! k = None → updated_row s body r !! k = r !! k.
Proof.
  intros Hk Hb. unfold updated_row.
  by rewrite lookup_insert_ne, lookup_union_r.
Qed.

Lemma updated_row_set (s : Session) (body : JObject) (r : Row) (k : string)
    (v : JVal) :
  k ≠ "updated_at" → body !! k = Some v → updated_row s body r !! k = Some v.
Proof.
  intros Hk Hb. unfold updated_row.
  rewrite lookup_insert_ne by done. by apply lookup_union_Some_l.
Qed.

Lemma updated_row_stamp (s : Session) (body : JObject) (r : Row) :
  updated_row s body r !! "updated_at" = Some (JStr (now s)).
Proof. unfold updated_row. by rewrite lookup_insert_eq. Qed.

(** *** Checks on a written row *)

Lemma null_column_None (r : Row) :
  null_column r = None ↔ not_null_ok r = true.
Proof.
  unfold null_column, not_null_ok, not_null_columns.
  rewrite !filter_cons, filter_nil. cbn [forallb].
  destruct (r !! "id") as [[|?]|]; cbn; try (split; discriminate).
  destruct (r !! "email") as [[|?]|]; cbn; try (split; discriminate).
  destruct (r !! "name") as [[|?]|]; cbn; try (split; discriminate).
  destruct (r !! "password") as [[|?]|]; cbn; try (split; discriminate).
  destruct (r !! "salt") as [[|?]|]; cbn; try (split; discriminate).
  done.
Qed.

Lemma row_error_cases (s : Session) (r : Row) (rows : list Row) :
  row_error s r rows =
  if negb (allowed s r) then Some policy_violation
  else if negb (not_null_ok r)
       then Some (not_null_violation (default EmptyString (null_column r)))
       else unique_violation <$> unique_conflict r rows.
Proof.
  unfold row_error. destruct (allowed s r); [|done]. cbn [negb].
  pose proof (null_column_None r) as Hnull.
  destruct (null_column r) as [c|], (not_null_ok r); cbn [negb default];
    try done.
  - discriminate (proj2 Hnull eq_refl).
  - discriminate (proj1 Hnull eq_refl).
Qed.

(** *** Answers *)

(** A request that fails leaves no data. *)
Lemma answer_inv (q : Query) (result : list Row) (db db' : Db)
    (resp : Response) (dbx : Db) :
  answer q result db db' = (resp, dbx) →
  (∃ r, result = [r] ∧ error resp = None
        ∧ data resp = (fun cols => project cols r) <$> q_returning q
        ∧ dbx = db')
  ∨ (length result ≠ 1 ∧ resp = fail no_single_row ∧ dbx = db).
Proof.
  unfold answer. destruct result as [|r [|r' rest]]; intros [= <- <-].
  - right. done.
  - left. by exists r.
  - right. done.
Qed.

(** *** The requests of the repository, executed *)

Lemma exec_find_email (key : string) (db : Db) :
  exec (UserRepository.findByEmail_query key) db =
  if has_nul key then (fail invalid_byte_sequence, db)
  else
    answer (UserRepository.findByEmail_query key)
      (filter (fun r => reached (db_session db) [("email", key)] r)
         (db_users db)) db db.
Proof.
  unfold exec. cbn [UserRepository.findByEmail_query Builder.from
    Builder.select Builder.eq Builder.single q_table q_verb q_filters
    q_returning t_name app].
  rewrite cast_filters_email. by destruct (has_nul key).
Qed.

Lemma exec_find_id (key : string) (db : Db) :
  exec (UserRepository.findById_query key) db =
  match uuid_in key with
  | Some u =>
      answer (UserRepository.findById_query key)
        (filter (fun r => reached (db_session db) [("id", u)] r)
           (db_users db)) db db
  | None =>
      (fail (if has_nul key then invalid_byte_sequence else invalid_uuid key),
       db)
  end.
Proof.
  unfold exec. cbn [UserRepository.findById_query Builder.from
    Builder.select Builder.eq Builder.single q_table q_verb q_filters
    q_returning t_name app].
  rewrite cast_filters_id. by destruct (uuid_in key).
Qed.

Lemma exec_create (d : CreateUserData) (db : Db) :
  exec (UserRepository.create_query d) db =
  let s := db_session db in
  match cast_body s column_types (json_of_create d) with
  | inl e => (fail e, db)
  | inr typed =>
      let r := new_row s typed in
      match row_error s r (db_users db ++ [r]) with
      | Some e => (fail e, db)
      | None =>
          ({| data := Some r; error := None |},
           with_users db (db_users db ++ [r]))
      end
  end.
Proof.
  unfold exec. cbn [UserRepository.create_query Builder.from Builder.insert
    Builder.returning Builder.single q_table q_verb q_filters q_returning
    t_name]. cbv zeta.
  rewrite unknown_body_column_create. unfold run_insert. cbv zeta.
  destruct (cast_body _ _ _) as [e|typed]; [done|].
  cbn [first_error]. by destruct (row_error _ _ _).
Qed.

(** *** Unique constraints *)

Lemma collides_twice (c v : string) (r r' : Row) (rows : list Row) :
  r' !! c = Some (JStr v) → r ∈ rows → r !! c = Some (JStr v) →
  collides c r' (rows ++ [r']) = true.
Proof.
  intros Hr' Hin Hr. unfold collides, same_key. rewrite Hr'.
  apply bool_decide_eq_true_2.
  rewrite filter_app, length_app.
  assert (Hone : r ∈ filter (fun x : Row => x !! c = Some (JStr v)) rows)
    by (by apply list_elem_of_filter).
  destruct (filter _ rows) as [|x xs]; [by apply not_elem_of_nil in Hone|].
  rewrite filter_cons, decide_True by done. simpl. lia.
Qed.

Lemma collides_fresh (c v : string) (r' : Row) (rows : list Row) :
  r' !! c = Some (JStr v) →
  (∀ r, r ∈ rows → r !! c ≠ Some (JStr v)) →
  collides c r' (rows ++ [r']) = false.
Proof.
  intros Hr' Hfresh. unfold collides, same_key. rewrite Hr'.
  apply bool_decide_eq_false_2.
  rewrite filter_app, length_app, filter_none; [simpl|].
  - rewrite filter_cons, decide_True by done. simpl. lia.
  - apply Forall_forall. intros r Hr. by apply Hfresh.
Qed.

Lemma unique_conflict_cases (r : Row) (rows : list Row) :
  unique_conflict r rows =
  if collides "id" r rows then Some "users_pkey"
  else if collides "email" r rows then Some "users_email_key"
  else None.
Proof.
  unfold unique_conflict, unique_columns.
  rewrite !filter_cons, filter_nil. simpl.
  by destruct (collides "id" r rows), (collides "email" r rows).
Qed.

(** *** The repository on the table *)

(** [create] on the table: the body is read, the row made and checked. *)
Lemma create_on_table (d : CreateUserData) (w : World Db) :
  let s := db_session (w_store w) in
  let rows := db_users (w_store w) in
  let thrown (e : PostgrestError) : Outcome (option JObject) * World Db :=
    (Thrown (new_Error ("Failed to create user: " +:+ message e)),
     {| w_store := w_store w;
        w_log := w_log w ++ [LogSilly "Creating user in database";
                             LogError "Error creating user: %o" e] |}) in
  UserRepository.create d w =
  match cast_body s column_types (json_of_create d) with
  | inl e => thrown e
  | inr typed =>
      let r := new_row s typed in
      match row_error s r (rows ++ [r]) with
      | Some e => thrown e
      | None =>
          (Returned (Some r),
           {| w_store := with_users (w_store w) (rows ++ [r]);
              w_log := w_log w ++ [LogSilly "Creating user in database"] |})
      end
  end.
Proof.
  cbv zeta. rewrite create_run.
  unfold throw_any, world_after, answer_of, supabase_run, client.
  rewrite exec_create. cbv zeta.
  destruct (cast_body _ _ _) as [e|typed]; [done|].
  by destruct (row_error _ _ _).
Qed.

(** A lookup by [email] on the table. *)
Lemma findByEmail_on_table (email : string) (w : World Db) :
  UserRepository.findByEmail email w =
  if has_nul email then
    (Thrown (new_Error ("Failed to find user by email: "
                        +:+ message invalid_byte_sequence)),
     {| w_store := w_store w;
        w_log := w_log w ++ [LogSilly "Finding user by email";
                             LogError "Error finding user by email: %o"
                               invalid_byte_sequence] |})
  else
    (Returned
       match filter (fun r => reached (db_session (w_store w)) [("email", email)] r)
               (db_users (w_store w)) with
       | [r] => Some r
       | _ => None
       end,
     {| w_store := w_store w;
        w_log := w_log w ++ [LogSilly "Finding user by email"] |}).
Proof.
  rewrite findByEmail_run.
  unfold throw_unless_no_row, world_after, answer_of, supabase_run, client.
  rewrite exec_find_email. destruct (has_nul email); [done|].
  unfold answer. by destruct (filter _ _) as [|r [|r' rest]].
Qed.

(** A lookup by [id] on the table. *)
Lemma findById_on_table (id : string) (w : World Db) :
  UserRepository.findById id w =
  match uuid_in id with
  | Some u =>
      (Returned
         match filter (fun r => reached (db_session (w_store w)) [("id", u)] r)
                 (db_users (w_store w)) with
         | [r] => Some r
         | _ => None
         end,
       {| w_store := w_store w;
          w_log := w_log w ++ [LogSilly "Finding user by id"] |})
  | None =>
      let e := if has_nul id then invalid_byte_sequence else invalid_uuid id in
      (Thrown (new_Error ("Failed to find user by id: " +:+ message e)),
       {| w_store := w_store w;
          w_log := w_log w ++ [LogSilly "Finding user by id";
                               LogError "Error finding user by id: %o" e] |})
  end.
Proof.
  rewrite findById_run.
  unfold throw_unless_no_row, world_after, answer_of, supabase_run, client.
  rewrite exec_find_id. destruct (uuid_in id) as [u|].
  - unfold answer. by destruct (filter _ _) as [|r [|r' rest]].
  - by destruct (has_nul id).
Qed.

(** What a successful [create] made. *)
Lemma create_Returned (w w1 : World Db) (d : CreateUserData)
    (o : option JObject) :
  UserRepository.create d w = (Returned o, w1) →
  let s := db_session (w_store w) in
  ∃ name email password salt,
    cast s (VARCHAR 255) (cu_name d) = inr name
    ∧ cast s (VARCHAR 255) (cu_email d) = inr email
    ∧ cast s (VARCHAR 255) (cu_password d) = inr password
    ∧ cast s (VARCHAR 255) (cu_salt d) = inr salt
    ∧ let u := new_row s (json_of_create (user_data name email password salt)) in
      o = Some u
      ∧ w_store w1 = with_users (w_store w) (db_users (w_store w) ++ [u])
      ∧ row_error s u (db_users (w_store w) ++ [u]) = None.
Proof.
  rewrite create_on_table. cbv zeta.
  destruct (cast_body _ _ _) as [e|typed] eqn:Hcast; [discriminate|].
  apply cast_body_create_inv in Hcast
    as (name & email & password & salt & Hn & He & Hp & Hs & ->).
  destruct (row_error _ _ _) eqn:Herr; intros [= <- <-].
  by exists name, email, password, salt.
Qed.

(** [create] of values that their columns take. *)
Lemma create_taken (w : World Db) (d : CreateUserData)
    (name email password salt : string) :
  let s := db_session (w_store w) in
  let rows := db_users (w_store w) in
  cast s (VARCHAR 255) (cu_name d) = inr name →
  cast s (VARCHAR 255) (cu_email d) = inr email →
  cast s (VARCHAR 255) (cu_password d) = inr password →
  cast s (VARCHAR 255) (cu_salt d) = inr salt →
  let r := new_row s (json_of_create (user_data name email password salt)) in
  UserRepository.create d w =
  match row_error s r (rows ++ [r]) with
  | Some e =>
      (Thrown (new_Error ("Failed to create user: " +:+ message e)),
       {| w_store := w_store w;
          w_log := w_log w ++ [LogSilly "Creating user in database";
                               LogError "Error creating user: %o" e] |})
  | None =>
      (Returned (Some r),
       {| w_store := with_users (w_store w) (rows ++ [r]);
          w_log := w_log w ++ [LogSilly "Creating user in database"] |})
  end.
Proof.
  cbv zeta. intros Hn He Hp Hs. rewrite create_on_table. cbv zeta.
  by rewrite (cast_body_create_ok _ d name email password salt).
Qed.

(** [create] of values within the width of their columns. *)
Lemma create_within (w : World Db) (d : CreateUserData) :
  let s := db_session (w_store w) in
  let rows := db_users (w_store w) in
  within 255 (cu_name d) = true → within 255 (cu_email d) = true →
  within 255 (cu_password d) = true → within 255 (cu_salt d) = true →
  let r := new_row s (json_of_create d) in
  UserRepository.create d w =
  match row_error s r (rows ++ [r]) with
  | Some e =>
      (Thrown (new_Error ("Failed to create user: " +:+ message e)),
       {| w_store := w_store w;
          w_log := w_log w ++ [LogSilly "Creating user in database";
                               LogError "Error creating user: %o" e] |})
  | None =>
      (Returned (Some r),
       {| w_store := with_users (w_store w) (rows ++ [r]);
          w_log := w_log w ++ [LogSilly "Creating user in database"] |})
  end.
Proof.
  cbv zeta. intros Hn He Hp Hs.
  rewrite (create_taken w d (cu_name d) (cu_email d) (cu_password d)
             (cu_salt d)) by by apply within_cast.
  by destruct d as [[] ?].
Qed.

(** The policy on a new row looks at the generated identifier only. *)
Lemma allowed_new_row (s : Session) (body : JObject) :
  body !! "id" = None →
  allowed s (new_row s body) = true
  ↔ (row_security s = true → auth_uid s = Some (uuid_generate_v4 s)).
Proof.
  intros Hid. unfold allowed, policy.
  rewrite new_row_default by done. unfold defaults.
  rewrite lookup_insert_eq.
  destruct (row_security s); [|done].
  destruct (auth_uid s) as [a|]; [|split; [done|intros H; by discriminate H]].
  rewrite bool_decide_eq_true. split.
  - intros [= Ha] _. f_equal. by apply uuid_eq.
  - intros Hsame. by injection (Hsame eq_refl) as ->.
Qed.

End TableFacts.

(* ===================================================================== *)
(** ** The constraints of the table are invariants *)
(* ===================================================================== *)

Section Constraints.
Import UsersTable.

Lemma filter_two {A : Type} (P : A → Prop) `{!∀ x, Decision (P x)}
    (l : list A) (i j : nat) (x y : A) :
  i ≠ j → l !! i = Some x → l !! j = Some y → P x → P y →
  2 ≤ length (filter P l).
Proof.
  assert (Hone : ∀ (l : list A) k z, l !! k = Some z → P z →
                   1 ≤ length (filter P l)).
  { intros l' k z Hk Hz.
    assert (Hin : z ∈ filter P l').
    { apply list_elem_of_filter. split; [done|].
      by apply list_elem_of_lookup_2 in Hk. }
    destruct (filter P l'); [by apply not_elem_of_nil in Hin|cbn; lia]. }
  revert i j. induction l as [|a l IH]; intros i j Hij Hi Hj Hx Hy.
  - by rewrite lookup_nil in Hi.
  - rewrite filter_cons. destruct i as [|i], j as [|j]; try done.
    + injection Hi as ->. rewrite decide_True by done. cbn.
      pose proof (Hone l j y Hj Hy). lia.
    + injection Hj as ->. rewrite decide_True by done. cbn.
      pose proof (Hone l i x Hi Hx). lia.
    + assert (2 ≤ length (filter P l))
        by (apply (IH i j); [congruence|done..]).
      destruct (decide (P a)); cbn; lia.
Qed.

(** A written row that passed the unique checks shares no key. *)
Lemma collides_false_alone (c v : string) (r : Row) (rows : list Row)
    (i j : nat) (r' : Row) :
  collides c r rows = false → r !! c = Some (JStr v) →
  rows !! i = Some r → rows !! j = Some r' → r' !! c = Some (JStr v) →
  i = j.
Proof.
  unfold collides, same_key. intros Hc Hr Hi Hj Hr'. rewrite Hr in Hc.
  apply bool_decide_eq_false_1 in Hc.
  destruct (decide (i = j)) as [|Hij]; [done|]. destruct Hc.
  apply (filter_two (fun x : Row => x !! c = Some (JStr v)) rows i j r r');
    done.
Qed.

Lemma row_error_None (s : Session) (r : Row) (rows : list Row) :
  row_error s r rows = None →
  allowed s r = true ∧ not_null_ok r = true
  ∧ collides "id" r rows = false ∧ collides "email" r rows = false.
Proof.
  rewrite row_error_cases, unique_conflict_cases.
  destruct (allowed s r); [|discriminate].
  destruct (not_null_ok r); [|discriminate].
  by destruct (collides "id" r rows), (collides "email" r rows).
Qed.

Lemma first_error_None (s : Session) (written rows : list Row) (r : Row) :
  first_error s written rows = None → r ∈ written →
  row_error s r rows = None.
Proof.
  induction written as [|x written IH]; intros Hnone Hin.
  - by apply not_elem_of_nil in Hin.
  - cbn [first_error] in Hnone.
    destruct (row_error s x rows) eqn:Hx; [discriminate|].
    apply elem_of_cons in Hin as [->|Hin]; [done|by apply IH].
Qed.

Lemma unique_on_rewritten (c : string) (s : Session) (hit : Row → bool)
    (f : Row → Row) (rows : list Row) :
  let rows' := (fun r => if hit r then f r else r) <$> rows in
  (∀ r, r ∈ rows → hit r = true → collides c (f r) rows' = false) →
  unique_on c rows → unique_on c rows'.
Proof.
  intros rows' Hwritten Hunique i j r r' v Hi Hj Hr Hr'.
  unfold rows' in Hi, Hj. rewrite list_lookup_fmap in Hi, Hj.
  destruct (rows !! i) as [x|] eqn:Hxi; [|discriminate].
  destruct (rows !! j) as [y|] eqn:Hyj; [|discriminate].
  injection Hi as Hi. injection Hj as Hj.
  assert (Hi' : rows' !! i = Some r)
    by (unfold rows'; by rewrite list_lookup_fmap, Hxi, <- Hi).
  assert (Hj' : rows' !! j = Some r')
    by (unfold rows'; by rewrite list_lookup_fmap, Hyj, <- Hj).
  destruct (hit x) eqn:Hhx.
  - subst r.
    apply (collides_false_alone c v (f x) rows' i j r'); try done.
    apply Hwritten; [|done]. by apply list_elem_of_lookup_2 in Hxi.
  - destruct (hit y) eqn:Hhy.
    + subst r'. symmetry.
      apply (collides_false_alone c v (f y) rows' j i r); try done.
      apply Hwritten; [|done]. by apply list_elem_of_lookup_2 in Hyj.
    + subst r r'. by apply (Hunique i j x y v).
Qed.

Lemma unique_on_appended (c : string) (r : Row) (rows : list Row) :
  collides c r (rows ++ [r]) = false → unique_on c rows →
  unique_on c (rows ++ [r]).
Proof.
  intros Hc Hunique i j x y v Hi Hj Hx Hy.
  assert (Hlast : (rows ++ [r]) !! length rows = Some r)
    by apply list_lookup_middle, eq_refl.
  destruct (decide (i < length rows)) as [Hil|Hil];
    destruct (decide (j < length rows)) as [Hjl|Hjl].
  - rewrite lookup_app_l in Hi, Hj by done. by apply (Hunique i j x y v).
  - assert (j = length rows) as ->.
    { apply lookup_lt_Some in Hj. rewrite length_app in Hj. cbn in Hj. lia. }
    rewrite Hlast in Hj. injection Hj as <-. symmetry.
    by apply (collides_false_alone c v r (rows ++ [r]) (length rows) i x).
  - assert (i = length rows) as ->.
    { apply lookup_lt_Some in Hi. rewrite length_app in Hi. cbn in Hi. lia. }
    rewrite Hlast in Hi. injection Hi as <-.
    by apply (collides_false_alone c v r (rows ++ [r]) (length rows) j y).
  - apply lookup_lt_Some in Hi, Hj. rewrite length_app in Hi, Hj.
    cbn in Hi, Hj. lia.
Qed.

(** In a table with a key on [c], the rows around one row do not share
    its value. *)
Lemma unique_on_others (c v : string) (pre post : list Row) (r : Row) :
  unique_on c (pre ++ r :: post) → r !! c = Some (JStr v) →
  ∀ r', r' ∈ pre ++ post → r' !! c ≠ Some (JStr v).
Proof.
  intros Hunique Hr r' Hin Hr'.
  assert (Hmid : (pre ++ r :: post) !! length pre = Some r)
    by apply list_lookup_middle, eq_refl.
  apply elem_of_app in Hin as [Hin|Hin];
    apply list_elem_of_lookup in Hin as [i Hi].
  - pose proof (lookup_lt_Some _ _ _ Hi) as Hlt.
    assert (Hi' : (pre ++ r :: post) !! i = Some r')
      by by rewrite lookup_app_l.
    pose proof (Hunique i (length pre) r' r v Hi' Hmid Hr' Hr). lia.
  - assert (Hi' : (pre ++ r :: post) !! (length pre + S i) = Some r').
    { rewrite lookup_app_r by lia.
      by replace (length pre + S i - length pre) with (S i) by lia. }
    pose proof (Hunique (length pre + S i) (length pre) r' r v Hi' Hmid Hr' Hr).
    lia.
Qed.

Lemma consistent_nil : consistent [].
Proof.
  split_and!; [constructor|..]; intros i j r r' v Hi; by rewrite lookup_nil in Hi.
Qed.

Lemma consistent_one (r : Row) : not_null_ok r = true → consistent [r].
Proof.
  intros Hr. split_and!; [by constructor|..];
    intros [|i] [|j] x y v Hi Hj _ _; try done;
    by rewrite ?lookup_cons, lookup_nil in *.
Qed.

(** Whatever request is executed, the table stays consistent. *)
Lemma exec_consistent (q : Query) (db : Db) :
  consistent (db_users db) → consistent (db_users (exec q db).2).
Proof.
  intros (Hnn & Hid & Hemail). unfold exec.
  destruct (negb (bool_decide _)); [done|].
  destruct (unknown_column _); [done|].
  assert (Hanswer : ∀ result db', consistent (db_users db') →
            consistent (db_users (answer q result db db').2)).
  { intros result db' Hdb'. unfold answer.
    by destruct result as [|? [|? ?]]. }
  destruct (q_verb q) as [|body|body].
  - destruct (cast_filters _ _); [done|]. by apply Hanswer.
  - destruct (unknown_body_column body); [done|]. unfold run_insert.
    destruct (cast_body _ _ body) as [e|typed]; [done|].
    set (r := new_row (db_session db) typed).
    cbn [first_error].
    destruct (row_error _ r _) eqn:Herr; [done|].
    apply row_error_None in Herr as (_ & Hr & Hcid & Hcemail).
    apply Hanswer. cbn [db_users with_users]. split_and!.
    + apply Forall_app. split; [done|]. by constructor.
    + by apply unique_on_appended.
    + by apply unique_on_appended.
  - destruct (unknown_body_column body); [done|].
    case_bool_decide; [by apply Hanswer|]. unfold run_update.
    destruct (cast_filters _ _) as [e|fs]; [done|].
    destruct (cast_body _ _ body) as [e|typed]; [done|].
    set (s := db_session db).
    set (hit := fun r : Row => reached s fs r).
    destruct (first_error _ _ _) eqn:Herr; [done|].
    assert (Hwritten : ∀ r, r ∈ db_users db → hit r = true →
              row_error s (updated_row s typed r)
                ((fun r => if hit r then updated_row s typed r else r)
                   <$> db_users db) = None).
    { intros r Hr Hhit. apply (first_error_None _ _ _ _ Herr).
      apply list_elem_of_fmap. exists r. split; [done|].
      apply list_elem_of_filter. split; [by rewrite Hhit|done]. }
    apply Hanswer. cbn [db_users with_users]. split_and!.
    + apply Forall_fmap, Forall_forall. intros r Hr. cbn.
      destruct (hit r) eqn:Hhit.
      * by apply Hwritten, row_error_None in Hhit as (_ & ? & _).
      * by apply (proj1 (Forall_forall _ _) Hnn).
    + apply (unique_on_rewritten "id" s hit); [|done].
      intros r Hr Hhit.
      by apply Hwritten, row_error_None in Hhit as (_ & _ & ? & _).
    + apply (unique_on_rewritten "email" s hit); [|done].
      intros r Hr Hhit.
      by apply Hwritten, row_error_None in Hhit as (_ & _ & _ & ?).
Qed.

(** So does every method of the repository. *)
Lemma repository_consistent (w : World Db) :
  consistent (db_users (w_store w)) →
  (∀ d, consistent (db_users (w_store (UserRepository.create d w).2)))
  ∧ (∀ id p, consistent (db_users (w_store (UserRepository.update id p w).2)))
  ∧ (∀ key, consistent (db_users (w_store (UserRepository.findByEmail key w).2)))
  ∧ (∀ key, consistent (db_users (w_store (UserRepository.findById key w).2))).
Proof.
  intros Hw.
  assert (Hany : ∀ what fmt prefix q,
            consistent (db_users (w_store (throw_any what fmt prefix q w).2))).
  { intros. unfold throw_any.
    destruct (error _); cbn [snd world_after w_store]; by apply exec_consistent. }
  assert (Hunless : ∀ what fmt prefix q,
            consistent
              (db_users (w_store (throw_unless_no_row what fmt prefix q w).2))).
  { intros. unfold throw_unless_no_row.
    destruct (error _); [case_bool_decide|];
      cbn [snd world_after w_store]; by apply exec_consistent. }
  split_and!; intros.
  - rewrite create_run. apply Hany.
  - rewrite update_run. apply Hany.
  - rewrite findByEmail_run. apply Hunless.
  - rewrite findById_run. apply Hunless.
Qed.

End Constraints.
(* ===================================================================== *)
(** ** Store errors as the caller sees them *)
(* ===================================================================== *)

Section ErrorMapping.
Context {S : Type} `{client : SupabaseClient S}.

Local Ltac on_answer :=
  rewrite ?create_run, ?update_run, ?findByEmail_run, ?findById_run;
  unfold throw_any, throw_unless_no_row.

(** C3 (as amended): the mapping of the store's answer the four
    methods implement.  [create] and [update] return the answer's data
    when it has no error and throw [Error(prefix + message)] for every
    error, whatever its code; [findByEmail] and [findById] do the same,
    except that an error with code PGRST116 is not thrown: the data is
    returned. *)
Theorem C3_error_mapping (w : World S) (userData : CreateUserData)
    (key : string) (updateData : PartialIUser) :
  let thrown prefix (e : PostgrestError) : Outcome (option JObject) :=
    Thrown (new_Error (prefix +:+ message e)) in
  let all_thrown prefix (r : Response) :=
    match error r with
    | Some e => thrown prefix e
    | None => Returned (data r)
    end in
  let no_row_returned prefix (r : Response) :=
    match error r with
    | Some e =>
        if bool_decide (code e = "PGRST116") then Returned (data r)
        else thrown prefix e
    | None => Returned (data r)
    end in
  (UserRepository.create userData w).1 =
    all_thrown "Failed to create user: "
      (answer_of (UserRepository.create_query userData) w)
  ∧ (UserRepository.update key updateData w).1 =
    all_thrown "Failed to update user: "
      (answer_of (UserRepository.update_query key updateData) w)
  ∧ (UserRepository.findByEmail key w).1 =
    no_row_returned "Failed to find user by email: "
      (answer_of (UserRepository.findByEmail_query key) w)
  ∧ (UserRepository.findById key w).1 =
    no_row_returned "Failed to find user by id: "
      (answer_of (UserRepository.findById_query key) w).
Proof.
  cbv zeta. on_answer.
  repeat split;
    match goal with
    | |- context [error ?r] => destruct (error r) as [e|]; simpl; try done
    end;
    case_bool_decide; done.
Qed.

(** C4: when the store answers "no row found", [findByEmail] and
    [findById] do not throw; each returns the empty result [null], which
    is no error outcome. *)
Theorem C4_no_row_found_is_null (w : World S) (key : string) :
  (no_row_found (answer_of (UserRepository.findByEmail_query key) w) →
   (UserRepository.findByEmail key w).1 = Returned None)
  ∧ (no_row_found (answer_of (UserRepository.findById_query key) w) →
     (UserRepository.findById key w).1 = Returned None)
  ∧ ∀ e : JsError, Returned (None : option JObject) ≠ Thrown e.
Proof.
  on_answer.
  repeat split; try discriminate;
    intros (Hdata & e & He & Hcode); rewrite He, Hdata;
    rewrite (bool_decide_eq_true_2 _ Hcode); reflexivity.
Qed.

(** C8 (as amended): what a failed request surfaces.  The thrown error
    is the method's fixed prefix followed by the store's own message,
    word for word; of the store's error object nothing but the message
    reaches the caller, and the whole object goes to the logger. *)
Theorem C8_thrown_message_is_store_message (w : World S)
    (userData : CreateUserData) (key : string) (updateData : PartialIUser)
    (e : PostgrestError) :
  let surfaces {A} (run : Outcome A * World S) prefix fmt :=
    run.1 = Thrown (new_Error (prefix +:+ message e))
    ∧ last (w_log run.2) = Some (LogError fmt e) in
  (error (answer_of (UserRepository.create_query userData) w) = Some e →
   surfaces (UserRepository.create userData w)
     "Failed to create user: " "Error creating user: %o")
  ∧ (error (answer_of (UserRepository.update_query key updateData) w) = Some e →
     surfaces (UserRepository.update key updateData w)
       "Failed to update user: " "Error updating user: %o")
  ∧ (error (answer_of (UserRepository.findByEmail_query key) w) = Some e →
     code e ≠ "PGRST116" →
     surfaces (UserRepository.findByEmail key w)
       "Failed to find user by email: " "Error finding user by email: %o")
  ∧ (error (answer_of (UserRepository.findById_query key) w) = Some e →
     code e ≠ "PGRST116" →
     surfaces (UserRepository.findById key w)
       "Failed to find user by id: " "Error finding user by id: %o").
Proof.
  cbv zeta. on_answer.
  split; [|split; [|split]]; intros He; try intros Hcode; rewrite He.
  all: rewrite ?(bool_decide_eq_false_2 _ Hcode); simpl.
  all: split; [reflexivity|].
  all: change [LogSilly ?a; ?b] with ([LogSilly a] ++ [b]).
  all: by rewrite app_assoc, last_snoc.
Qed.

End ErrorMapping.

(** C4, at a concrete input: nobody is registered in the empty table. *)
Lemma C4_no_row_found_is_null_witness :
  let nobody : string := UsersTable.uuid_text Scenario.u9 in
  no_row_found
    (answer_of (UserRepository.findByEmail_query "nobody@x") Scenario.w0)
  ∧ (UserRepository.findByEmail "nobody@x" Scenario.w0).1 = Returned None
  ∧ no_row_found (answer_of (UserRepository.findById_query nobody) Scenario.w0)
  ∧ (UserRepository.findById nobody Scenario.w0).1 = Returned None.
Proof.
  intros nobody.
  assert (He : no_row_found
    (answer_of (UserRepository.findByEmail_query "nobody@x") Scenario.w0)).
  { split; [exact eq_refl | eexists; split; exact eq_refl]. }
  assert (Hi : no_row_found
    (answer_of (UserRepository.findById_query nobody) Scenario.w0)).
  { split; [exact eq_refl | eexists; split; exact eq_refl]. }
  split; [exact He | split; [| split; [exact Hi |]]].
  - exact (proj1 (C4_no_row_found_is_null Scenario.w0 "nobody@x") He).
  - exact (proj1 (proj2 (C4_no_row_found_is_null Scenario.w0 nobody)) Hi).
Defined.

(** C3, refuted as stated: no reading of the outcome of [update] or of
    [create] tells the three signals apart.  A request that found no row
    (PGRST116), a unique violation (23505) and a lost connection (08006)
    that carry the same message give one and the same outcome. *)
Lemma C3_counterexample :
  (¬ ∃ kind_of : Outcome (option JObject) → StoreSignal,
       ∀ e : PostgrestError,
         kind_of (UserRepository.update "u1" (Scenario.rename "Al")
                    (Canned.failing e)).1 = spec_signal e)
  ∧ (¬ ∃ kind_of : Outcome (option JObject) → StoreSignal,
         ∀ e : PostgrestError,
           kind_of (UserRepository.create Scenario.alice
                      (Canned.failing e)).1 = spec_signal e).
Proof.
  split; intros [kind_of Hkind].
  - pose proof (Hkind (UsersTable.mk_error "PGRST116" "failed")) as H1.
    pose proof (Hkind (UsersTable.mk_error "08006" "failed")) as H2.
    vm_compute in H1, H2. congruence.
  - pose proof (Hkind (UsersTable.mk_error "23505" "failed")) as H1.
    pose proof (Hkind (UsersTable.mk_error "08006" "failed")) as H2.
    vm_compute in H1, H2. congruence.
Qed.

(** C8, refuted as stated: two failures of the store that differ in
    nothing but the store's internal message reach the caller as two
    different errors. *)
Lemma C8_counterexample :
  let e1 := UsersTable.mk_error "08006" "connection to server at 10.0.0.5 failed" in
  let e2 := UsersTable.mk_error "08006" "remaining connection slots are reserved" in
  (UserRepository.create Scenario.alice (Canned.failing e1)).1
  ≠ (UserRepository.create Scenario.alice (Canned.failing e2)).1
  ∧ (UserRepository.create Scenario.alice (Canned.failing e1)).1
    = Thrown (new_Error
        "Failed to create user: connection to server at 10.0.0.5 failed").
Proof. split; [vm_compute; discriminate | reflexivity]. Qed.

(** C8 (as amended), at a concrete input: the store rejects every
    request with its policy error. *)
Lemma C8_thrown_message_is_store_message_witness :
  let e := UsersTable.policy_violation in
  let w := Canned.failing e in
  (UserRepository.create Scenario.alice w).1 =
    Thrown (new_Error ("Failed to create user: " +:+ message e))
  ∧ (UserRepository.update "u1" (Scenario.rename "Al") w).1 =
    Thrown (new_Error ("Failed to update user: " +:+ message e))
  ∧ (UserRepository.findByEmail "u1" w).1 =
    Thrown (new_Error ("Failed to find user by email: " +:+ message e))
  ∧ (UserRepository.findById "u1" w).1 =
    Thrown (new_Error ("Failed to find user by id: " +:+ message e)).
Proof.
  intros e w.
  destruct (C8_thrown_message_is_store_message w Scenario.alice "u1"
              (Scenario.rename "Al") e) as (Hc & Hu & He & Hi).
  split; [| split; [| split]].
  - exact (proj1 (Hc eq_refl)).
  - exact (proj1 (Hu eq_refl)).
  - refine (proj1 (He eq_refl _)). vm_compute. discriminate.
  - refine (proj1 (Hi eq_refl _)). vm_compute. discriminate.
Defined.
(* ===================================================================== *)
(** ** Registration and lookup on the [users] table *)
(* ===================================================================== *)

Section Lookups.
Import UsersTable.

Lemma reached_inv (s : Session) (col key : string) (r : Row) :
  reached s [(col, key)] r →
  allowed s r = true ∧ r !! col = Some (JStr key).
Proof.
  unfold reached, matches. cbn [forallb fst snd].
  rewrite andb_True, andb_True, bool_decide_spec.
  intros (Ha & Hm & _). split; [by apply Is_true_true|exact Hm].
Qed.

Lemma reached_intro (s : Session) (col key : string) (r : Row) :
  allowed s r = true → r !! col = Some (JStr key) →
  reached s [(col, key)] r.
Proof.
  intros Ha Hm. unfold reached, matches. cbn [forallb fst snd].
  rewrite Ha, andb_True, andb_True, bool_decide_spec. done.
Qed.

(** The one row a lookup returned is a row of the table that the filter
    keeps and the policy lets through. *)
Lemma one_reached (s : Session) (col key : string) (rows : list Row)
    (u : Row) :
  match filter (fun r => reached s [(col, key)] r) rows with
  | [r] => Some r
  | _ => None
  end = Some u →
  u ∈ rows ∧ allowed s u = true ∧ u !! col = Some (JStr key).
Proof.
  pose proof (list_elem_of_filter
                (fun r : Row => reached s [(col, key)] r) rows u) as Hspec.
  destruct (filter (fun r : Row => Is_true (reached s [(col, key)] r)) rows)
    as [|r [|r' rest]]; intros [= ->].
  assert (Hu : reached s [(col, key)] u ∧ u ∈ rows)
    by (apply Hspec, list_elem_of_singleton; reflexivity).
  destruct Hu as [Hr Hin].
  apply reached_inv in Hr. tauto.
Qed.

(** What a lookup returned, on the table. *)
Lemma findByEmail_Returned (key : string) (w w' : World Db) (u : JObject) :
  UserRepository.findByEmail key w = (Returned (Some u), w') →
  has_nul key = false
  ∧ u ∈ db_users (w_store w) ∧ allowed (db_session (w_store w)) u = true
  ∧ u !! "email" = Some (JStr key).
Proof.
  rewrite findByEmail_on_table. destruct (has_nul key); [discriminate|].
  intros [= Hu _]. split; [done|]. by apply one_reached in Hu.
Qed.

Lemma findById_Returned (key : string) (w w' : World Db) (u : JObject) :
  UserRepository.findById key w = (Returned (Some u), w') →
  ∃ id, uuid_in key = Some id
        ∧ u ∈ db_users (w_store w) ∧ allowed (db_session (w_store w)) u = true
        ∧ u !! "id" = Some (JStr id).
Proof.
  rewrite findById_on_table. destruct (uuid_in key) as [id|]; [|discriminate].
  intros [= Hu _]. exists id. split; [done|]. by apply one_reached in Hu.
Qed.

Lemma allowed_owner (s : Session) (r : Row) :
  row_security s = true → allowed s r = true →
  ∃ a, auth_uid s = Some a ∧ r !! "id" = Some (JStr a).
Proof.
  unfold allowed, policy. intros -> Hp.
  destruct (auth_uid s) as [a|]; [|discriminate].
  exists a. split; [reflexivity|]. exact (bool_decide_eq_true_1 _ Hp).
Qed.

Lemma not_null_ok_credentials (u : Row) :
  not_null_ok u = true →
  ∃ digest salt,
    u !! "password" = Some (JStr digest) ∧ u !! "salt" = Some (JStr salt).
Proof.
  unfold not_null_ok, not_null_columns. cbn [forallb].
  destruct (u !! "id") as [[|?]|]; [discriminate| |discriminate].
  destruct (u !! "email") as [[|?]|]; [discriminate| |discriminate].
  destruct (u !! "name") as [[|?]|]; [discriminate| |discriminate].
  destruct (u !! "password") as [[|digest]|]; [discriminate| |discriminate].
  destruct (u !! "salt") as [[|salt]|]; [discriminate| |discriminate].
  intros _. by exists digest, salt.
Qed.

Lemma filter_the_one (s : Session) (col key : string) (pre post : list Row)
    (r : Row) :
  r !! col = Some (JStr key) → allowed s r = true →
  (∀ r', r' ∈ pre ++ post → r' !! col ≠ Some (JStr key)) →
  filter (fun x => reached s [(col, key)] x) (pre ++ r :: post) = [r].
Proof.
  intros Hr Ha Hothers.
  assert (Hnone : ∀ l, (∀ r', r' ∈ l → r' !! col ≠ Some (JStr key)) →
            filter (fun x : Row => reached s [(col, key)] x) l = []).
  { intros l Hl. apply filter_none, Forall_forall.
    intros x Hx Hreach. apply reached_inv in Hreach as [_ Hm].
    by apply (Hl x). }
  rewrite filter_app, filter_cons, decide_True by by apply reached_intro.
  rewrite !Hnone; [reflexivity| |].
  - intros r' Hr'. apply Hothers, elem_of_app. by right.
  - intros r' Hr'. apply Hothers, elem_of_app. by left.
Qed.

(** What a [VARCHAR] column keeps of a value does not depend on the
    session. *)
Lemma cast_varchar_session (s s' : Session) (n : nat) (v : string) :
  cast s (VARCHAR n) v = cast s' (VARCHAR n) v.
Proof. reflexivity. Qed.

End Lookups.

Section OnTheTable.
Import UsersTable.

(** C10 (as amended): [create] sends the caller's [password] and [salt]
    (and [name] and [email]) as they are and nothing else, and returns the
    answer's data as it is.  On the [users] table the row that is stored
    and returned holds what the [VARCHAR(255)] columns keep of the
    supplied [password] and [salt]: the very values when they have at most
    255 characters. *)
Theorem C10_create_stores_as_supplied (userData : CreateUserData) :
  (∃ body, q_verb (UserRepository.create_query userData) = VInsert body
     ∧ body !! "password" = Some (JStr (cu_password userData))
     ∧ body !! "salt" = Some (JStr (cu_salt userData))
     ∧ body !! "name" = Some (JStr (cu_name userData))
     ∧ body !! "email" = Some (JStr (cu_email userData))
     ∧ ∀ k, k ∉ ["name"; "email"; "password"; "salt"] → body !! k = None)
  ∧ (∀ (S : Type) (client : SupabaseClient S) (w : World S),
       error (answer_of (UserRepository.create_query userData) w) = None →
       (UserRepository.create userData w).1 =
       Returned (data (answer_of (UserRepository.create_query userData) w)))
  ∧ (∀ (w w' : World Db) (o : option JObject),
       UserRepository.create userData w = (Returned o, w') →
       ∃ u digest salt,
         o = Some u
         ∧ db_users (w_store w') = db_users (w_store w) ++ [u]
         ∧ u !! "password" = Some (JStr digest)
         ∧ u !! "salt" = Some (JStr salt)
         ∧ varchar_in 255 (cu_password userData) = Some digest
         ∧ varchar_in 255 (cu_salt userData) = Some salt
         ∧ (char_length (cu_password userData) ≤ 255 →
            digest = cu_password userData)
         ∧ (char_length (cu_salt userData) ≤ 255 → salt = cu_salt userData)).
Proof.
  split_and!.
  - exists (json_of_create userData).
    destruct (json_of_create_lookup userData) as (Hn & He & Hp & Hs).
    split_and!; try done. apply json_of_create_keys.
  - intros S client w Hok. rewrite create_run. unfold throw_any.
    by rewrite Hok.
  - intros w w' o Hcreate.
    apply create_Returned in Hcreate
      as (name & email & password & salt & _ & _ & Hp & Hs & Hmade).
    cbv zeta in Hmade. destruct Hmade as (-> & -> & _).
    apply cast_varchar_inv in Hp as [_ Hp].
    apply cast_varchar_inv in Hs as [_ Hs].
    destruct (new_row_create (db_session (w_store w))
                (user_data name email password salt))
      as (_ & _ & _ & Hrp & Hrs & _).
    eexists _, password, salt. split_and!; try done.
    + by apply (varchar_in_same 255).
    + by apply (varchar_in_same 255).
Qed.

(** C6 (as amended): once [create] has succeeded for a login handle,
    every later [create] for the same handle fails, whatever the session,
    the time and the generated identifier: it throws the plain [Error] made
    of the store's rejection and the store is left as it was.  The
    rejection is that of a value its column refuses, of the policy, or of
    a duplicate key; it is the duplicate-key rejection of the [email]
    constraint whenever the values are within the width of their columns,
    the row passes the policy and its identifier is new. *)
Theorem C6_second_registration_fails (w w1 : World Db)
    (d d' : CreateUserData) (o : option JObject) (s' : Session)
    (log' : list LogEntry) :
  UserRepository.create d w = (Returned o, w1) →
  cu_email d' = cu_email d →
  let again : World Db :=
    {| w_store := {| db_session := s'; db_users := db_users (w_store w1) |};
       w_log := log' |} in
  ∃ e : PostgrestError,
    (UserRepository.create d' again).1 =
      Thrown (new_Error ("Failed to create user: " +:+ message e))
    ∧ e ∈ [untranslatable_character; value_too_long 255; policy_violation;
           unique_violation "users_pkey"; unique_violation "users_email_key"]
    ∧ w_store (UserRepository.create d' again).2 = w_store again
    ∧ (within 255 (cu_name d') = true → within 255 (cu_password d') = true →
       within 255 (cu_salt d') = true →
       (row_security s' = true → auth_uid s' = Some (uuid_generate_v4 s')) →
       (∀ r, r ∈ db_users (w_store w1) →
             r !! "id" ≠ Some (JStr (uuid_generate_v4 s'))) →
       e = unique_violation "users_email_key").
Proof.
  intros Hfirst Hemail. cbv zeta.
  apply create_Returned in Hfirst
    as (name & email & password & salt & _ & He & _ & _ & Hmade).
  cbv zeta in Hmade. destruct Hmade as (_ & -> & _).
  cbn [db_users with_users].
  set (rows := db_users (w_store w)).
  set (r := new_row (db_session (w_store w))
              (json_of_create (user_data name email password salt))).
  rewrite (cast_varchar_session _ s'), <- Hemail in He.
  rewrite create_on_table. cbv zeta.
  cbn [w_store w_log db_users db_session].
  destruct (cast_body s' column_types (json_of_create d')) as [e|typed]
    eqn:Hcast.
  - exists e. cbn [fst snd w_store]. split_and!; [done| |done|].
    + apply cast_body_create_error in Hcast as [-> | ->].
      * apply list_elem_of_here.
      * apply list_elem_of_further, list_elem_of_here.
    + intros Hn' Hp' Hs' _ _.
      rewrite (cast_body_create_ok s' d' (cu_name d') email (cu_password d')
                 (cu_salt d')) in Hcast; [discriminate| |done| |];
        by apply within_cast.
  - apply cast_body_create_inv in Hcast
      as (name' & email' & password' & salt' & _ & He' & _ & _ & ->).
    assert (email' = email) as -> by congruence.
    set (r' := new_row s' (json_of_create (user_data name' email password' salt'))).
    destruct (new_row_create (db_session (w_store w))
                (user_data name email password salt)) as (_ & _ & Hre & _).
    destruct (new_row_create s' (user_data name' email password' salt'))
      as (Hi' & _ & Hre' & _).
    fold r in Hre. fold r' in Hi', Hre'. cbn in Hre, Hre'.
    assert (Hdup : collides "email" r' ((rows ++ [r]) ++ [r']) = true).
    { apply (collides_twice "email" email r); [exact Hre'| |exact Hre].
      apply elem_of_app. right. apply list_elem_of_singleton. reflexivity. }
    assert (Hnn : not_null_ok r' = true) by apply not_null_ok_create.
    rewrite row_error_cases, unique_conflict_cases, Hdup, Hnn.
    destruct (allowed s' r') eqn:Hallowed;
      cbn [negb fmap option_fmap option_map].
    + destruct (collides "id" r' _) eqn:Hid;
        cbn [fmap option_fmap option_map fst snd w_store].
      * exists (unique_violation "users_pkey").
        split_and!; [reflexivity| |reflexivity|].
        -- do 3 apply list_elem_of_further. apply list_elem_of_here.
        -- intros _ _ _ _ Hfresh.
           rewrite (collides_fresh "id" (uuid_generate_v4 s')) in Hid;
             [discriminate|exact Hi'|exact Hfresh].
      * exists (unique_violation "users_email_key").
        split_and!; [reflexivity| |reflexivity|reflexivity].
        do 4 apply list_elem_of_further. apply list_elem_of_here.
    + exists policy_violation. cbn [fst snd w_store].
      split_and!; [reflexivity| |reflexivity|].
      * do 2 apply list_elem_of_further. apply list_elem_of_here.
      * intros _ _ _ Hpolicy _.
        apply (allowed_new_row s' (json_of_create (user_data name' email password' salt')))
          in Hpolicy; [|by apply json_of_create_keys, (bool_decide_unpack _)].
        fold r' in Hpolicy. congruence.
Qed.

End OnTheTable.

Section LookupClaims.
Import UsersTable.

(** C2 (as amended): a lookup asks for every column and returns a
    stored row whole; the NOT NULL columns being filled, as the table keeps
    them, the returned object holds the password digest and the salt. *)
Theorem C2_lookup_returns_the_whole_row (w w' : World Db) (key : string)
    (u : JObject) :
  consistent (db_users (w_store w)) →
  UserRepository.findByEmail key w = (Returned (Some u), w')
  ∨ UserRepository.findById key w = (Returned (Some u), w') →
  q_returning (UserRepository.findByEmail_query key) = Some Star
  ∧ q_returning (UserRepository.findById_query key) = Some Star
  ∧ u ∈ db_users (w_store w)
  ∧ ∃ digest salt,
      u !! "password" = Some (JStr digest) ∧ u !! "salt" = Some (JStr salt).
Proof.
  intros (Hnn & _) Hfound.
  assert (Hin : u ∈ db_users (w_store w)).
  { destruct Hfound as [Hu|Hu].
    - by apply findByEmail_Returned in Hu as (_ & ? & _).
    - by apply findById_Returned in Hu as (? & _ & ? & _). }
  split_and!; [reflexivity..|exact Hin|].
  apply not_null_ok_credentials.
  by apply (proj1 (Forall_forall _ _) Hnn).
Qed.

(** C5 (as amended): login handles are compared character for
    character.  A lookup returns only a row whose stored [email] is the
    presented handle itself, and returns the row that has it when the
    policy lets that row through; [create] succeeds for every handle that
    no stored row has exactly, whatever handles of other letter case are
    stored, given values within the width of their columns, a row the
    policy accepts and a new identifier; the handle is then stored as it
    was supplied. *)
Theorem C5_handles_compared_exactly (w : World Db) :
  let s := db_session (w_store w) in
  let rows := db_users (w_store w) in
  consistent rows →
  (∀ key u w',
     UserRepository.findByEmail key w = (Returned (Some u), w') →
     u !! "email" = Some (JStr key))
  ∧ (∀ key r,
       has_nul key = false →
       r ∈ rows → r !! "email" = Some (JStr key) → allowed s r = true →
       (UserRepository.findByEmail key w).1 = Returned (Some r))
  ∧ (∀ d,
       within 255 (cu_name d) = true → within 255 (cu_email d) = true →
       within 255 (cu_password d) = true → within 255 (cu_salt d) = true →
       (row_security s = true → auth_uid s = Some (uuid_generate_v4 s)) →
       (∀ r, r ∈ rows → r !! "id" ≠ Some (JStr (uuid_generate_v4 s))) →
       (∀ r, r ∈ rows → r !! "email" ≠ Some (JStr (cu_email d))) →
       ∃ u, (UserRepository.create d w).1 = Returned (Some u)
            ∧ db_users (w_store (UserRepository.create d w).2) = rows ++ [u]
            ∧ u !! "email" = Some (JStr (cu_email d))).
Proof.
  cbv zeta. intros (_ & _ & Hunique). split_and!.
  - intros key u w' Hu. by apply findByEmail_Returned in Hu as (_ & _ & _ & ?).
  - intros key r Hnul Hin Hr Ha.
    apply list_elem_of_split in Hin as (pre & post & Hrows).
    rewrite findByEmail_on_table, Hnul, Hrows.
    rewrite (filter_the_one _ "email" key pre post r Hr Ha); [done|].
    apply (unique_on_others "email" key pre post r); [|done].
    by rewrite <- Hrows.
  - intros d Hwn Hwe Hwp Hws Hpolicy Hid Hemail.
    rewrite create_within by done. cbv zeta.
    destruct (new_row_create (db_session (w_store w)) d)
      as (Hi & _ & He & _).
    rewrite row_error_cases, not_null_ok_create, unique_conflict_cases.
    rewrite (proj2 (allowed_new_row _ (json_of_create d)
                      (json_of_create_keys d "id" ltac:(by apply (bool_decide_unpack _))))
               Hpolicy).
    rewrite (collides_fresh "id" _ _ _ Hi Hid).
    rewrite (collides_fresh "email" _ _ _ He Hemail).
    cbn [negb fmap option_fmap option_map fst snd w_store db_users with_users].
    eexists. split_and!; [reflexivity|reflexivity|exact He].
Qed.

(** C1 (as amended): the repository is bound to no caller.  A lookup
    sends one equality filter, on the looked-up column with the
    looked-up value, and no filter on the caller's identifier.  Where
    the store enforces the row policy, a lookup returns no row but the
    caller's own, and looking up the identifier of anybody else gives
    [null], exactly as if no such record existed.  A key that is no
    identifier is refused by the store and the refusal is thrown: the
    same error whatever the rows, the caller and the policy. *)
Theorem C1_isolation_is_the_row_policy (w : World Db) (key : string) :
  let s := db_session (w_store w) in
  q_filters (UserRepository.findById_query key) = [("id", key)]
  ∧ q_filters (UserRepository.findByEmail_query key) = [("email", key)]
  ∧ (row_security s = true →
     (∀ u w',
        UserRepository.findById key w = (Returned (Some u), w')
        ∨ UserRepository.findByEmail key w = (Returned (Some u), w') →
        ∃ a, auth_uid s = Some a ∧ u !! "id" = Some (JStr a))
     ∧ (∀ id,
          uuid_in key = Some id →
          (∀ a, auth_uid s = Some a → uuid_text a ≠ id) →
          (UserRepository.findById key w).1 = Returned None
          ∧ (UserRepository.findById key w).1
            = (UserRepository.findById key (without_id id w)).1))
  ∧ (uuid_in key = None →
     ∃ e, (UserRepository.findById key w).1
          = Thrown (new_Error ("Failed to find user by id: " +:+ message e))
          ∧ e ∈ [invalid_uuid key; invalid_byte_sequence]
          ∧ ∀ w2 : World Db,
              (UserRepository.findById key w2).1
              = (UserRepository.findById key w).1).
Proof.
  cbv zeta. split_and!; [reflexivity..| |].
  - intros Hrls. split.
    + intros u w' [Hu|Hu].
      * apply findById_Returned in Hu as (_ & _ & _ & Ha & _).
        by apply allowed_owner.
      * apply findByEmail_Returned in Hu as (_ & _ & Ha & _).
        by apply allowed_owner.
    + intros id Hid Hother.
      assert (Hnone : filter (fun r : Row => reached (db_session (w_store w)) [("id", id)] r)
                        (db_users (w_store w)) = []).
      { apply filter_none, Forall_forall. intros r _ Hreach.
        apply reached_inv in Hreach as [Ha Hm].
        destruct (allowed_owner _ _ Hrls Ha) as (a & Hauth & Hrid).
        rewrite Hm in Hrid. injection Hrid as ->. by apply (Hother a). }
      assert (Hgone : filter (fun r : Row => reached (db_session (w_store w)) [("id", id)] r)
                        (filter (fun r : Row => r !! "id" ≠ Some (JStr id))
                           (db_users (w_store w))) = []).
      { apply filter_none, Forall_forall. intros r Hr Hreach.
        apply list_elem_of_filter in Hr as [Hne _].
        apply reached_inv in Hreach as [_ Hm]. by apply Hne. }
      rewrite !findById_on_table, Hid. unfold without_id.
      cbn [fst w_store db_users db_session with_users].
      by rewrite Hnone, Hgone.
  - intros Hbad.
    exists (if has_nul key then invalid_byte_sequence else invalid_uuid key).
    split_and!.
    + by rewrite findById_on_table, Hbad.
    + destruct (has_nul key).
      * apply list_elem_of_further, list_elem_of_here.
      * apply list_elem_of_here.
    + intros w2. by rewrite !findById_on_table, Hbad.
Qed.

End LookupClaims.
(* ===================================================================== *)
(** ** Updates on the [users] table *)
(* ===================================================================== *)

Section Updates.
Import UsersTable.

Lemma lookup_set_opt_eq (k : string) (v : option string) (o : JObject) :
  set_opt k v o !! k =
  match v with Some s => Some (JStr s) | None => o !! k end.
Proof. destruct v; [apply lookup_insert_eq|reflexivity]. Qed.

Lemma lookup_set_opt_ne (k k' : string) (v : option string) (o : JObject) :
  k ≠ k' → set_opt k v o !! k' = o !! k'.
Proof. intros Hk. destruct v; [by apply lookup_insert_ne|reflexivity]. Qed.

(** The body of an update holds a property exactly when [updateData]
    has it. *)
Lemma json_of_partial_lookup (p : PartialIUser) :
  json_of_partial p !! "id" = JStr <$> p_id p
  ∧ json_of_partial p !! "name" = JStr <$> p_name p
  ∧ json_of_partial p !! "email" = JStr <$> p_email p
  ∧ json_of_partial p !! "password" = JStr <$> p_password p
  ∧ json_of_partial p !! "salt" = JStr <$> p_salt p
  ∧ json_of_partial p !! "role" = JStr <$> p_role p
  ∧ json_of_partial p !! "created_at" = JStr <$> p_created_at p
  ∧ json_of_partial p !! "updated_at" = JStr <$> p_updated_at p
  ∧ json_of_partial p !! "lastLogin" = JStr <$> p_lastLogin p.
Proof.
  unfold json_of_partial.
  split_and!;
    repeat (rewrite lookup_set_opt_ne by discriminate);
    rewrite lookup_set_opt_eq;
    match goal with |- context [_ <$> ?f p] => destruct (f p) end;
    try reflexivity;
    repeat (rewrite lookup_set_opt_ne by discriminate);
    apply lookup_empty.
Qed.

Lemma json_of_partial_keys (p : PartialIUser) (k : string) :
  k ∉ columns → k ≠ "lastLogin" → json_of_partial p !! k = None.
Proof.
  unfold columns. rewrite !not_elem_of_cons.
  intros (? & ? & ? & ? & ? & ? & ? & ? & _) ?. unfold json_of_partial.
  rewrite !lookup_set_opt_ne by done. apply lookup_empty.
Qed.

(** The one property of an update that can be no column is
    [lastLogin]. *)
Lemma unknown_body_column_partial (p : PartialIUser) :
  unknown_body_column (json_of_partial p) =
  match p_lastLogin p with
  | Some _ => Some "lastLogin"
  | None => None
  end.
Proof.
  destruct (json_of_partial_lookup p) as (_ & _ & _ & _ & _ & _ & _ & _ & Hlast).
  assert (Hkeys : ∀ k, is_Some (json_of_partial p !! k) → k ∉ columns →
            k = "lastLogin").
  { intros k Hk Hnot. destruct (decide (k = "lastLogin")) as [|Hne]; [done|].
    rewrite (json_of_partial_keys p k Hnot Hne) in Hk. by destruct Hk. }
  destruct (p_lastLogin p) as [t|] eqn:Hp.
  - apply unknown_body_column_only; [done|by rewrite Hlast|].
    by apply (bool_decide_unpack _).
  - apply unknown_body_column_None. intros k Hk.
    destruct (decide (k ∈ columns)) as [|Hnot]; [done|].
    rewrite (Hkeys k Hk Hnot), Hlast in Hk. by destruct Hk.
Qed.

(** The request of [update], executed. *)
Lemma exec_update (id : string) (p : PartialIUser) (db : Db) :
  exec (UserRepository.update_query id p) db =
  match p_lastLogin p with
  | Some _ => (fail (undefined_body_column "lastLogin"), db)
  | None =>
      if bool_decide (json_of_partial p = ∅) then (fail no_single_row, db)
      else run_update (UserRepository.update_query id p) (json_of_partial p) db
  end.
Proof.
  unfold exec. cbn [UserRepository.update_query Builder.from Builder.update
    Builder.returning Builder.eq Builder.single q_table q_verb q_filters
    q_returning t_name app]. cbv zeta.
  rewrite unknown_body_column_partial.
  assert (Hcols : unknown_column
                    (([("id", id)] : list (string * string)).*1
                     ++ write_columns (UserRepository.update_query id p))
                  = None)
    by exact eq_refl.
  rewrite Hcols. by destruct (p_lastLogin p).
Qed.

(** The values of the body of an update, read: each property that
    [updateData] has is kept as its column takes it, each one that it has
    not is absent. *)
Lemma cast_body_partial (s : Session) (p : PartialIUser) (typed : JObject)
    (k : string) (t : ColumnType) (field : option string) :
  cast_body s column_types (json_of_partial p) = inr typed →
  json_of_partial p !! k = JStr <$> field →
  (k, t) ∈ column_types →
  match field with
  | Some v => ∃ v', cast s t v = inr v' ∧ typed !! k = Some (JStr v')
  | None => typed !! k = None
  end.
Proof.
  intros Hcast Hk Hin.
  destruct (cast_body_lookup s _ _ _ k column_types_NoDup Hcast)
    as (_ & Hnone & _ & Hstr).
  destruct field as [v|]; cbn in Hk.
  - by apply (Hstr v t).
  - by apply Hnone.
Qed.

(** A successful [update] read an identifier, read its body, and reached
    exactly one row. *)
Lemma update_Returned (w w' : World Db) (id : string) (p : PartialIUser)
    (o : option JObject) :
  UserRepository.update id p w = (Returned o, w') →
  let s := db_session (w_store w) in
  ∃ uuid typed old,
    p_lastLogin p = None
    ∧ uuid_in id = Some uuid
    ∧ cast_body s column_types (json_of_partial p) = inr typed
    ∧ filter (fun r => reached s [("id", uuid)] r) (db_users (w_store w))
      = [old]
    ∧ o = Some (updated_row s typed old)
    ∧ w_store w' =
      with_users (w_store w)
        ((fun r => if reached s [("id", uuid)] r
                   then updated_row s typed r else r)
           <$> db_users (w_store w)).
Proof.
  rewrite update_run. intros Hrun.
  apply throw_any_Returned in Hrun as (Herr & -> & ->).
  revert Herr. unfold world_after, answer_of, supabase_run, client.
  rewrite exec_update. cbv zeta. cbn [w_store].
  destruct (p_lastLogin p) eqn:Hlast; [discriminate|].
  case_bool_decide; [discriminate|]. unfold run_update. cbv zeta.
  cbn [UserRepository.update_query Builder.from Builder.update
    Builder.returning Builder.eq Builder.single q_filters app].
  rewrite cast_filters_id.
  destruct (uuid_in id) as [uuid|] eqn:Hid; [|discriminate].
  destruct (cast_body _ _ _) as [e|typed] eqn:Hcast; [discriminate|].
  destruct (first_error _ _ _); [discriminate|].
  destruct (answer _ _ _ _) as [resp dbx] eqn:Hanswer.
  apply answer_inv in Hanswer
    as [(r & Hone & _ & Hdata & ->)|(_ & -> & _)]; [|discriminate].
  intros _. cbn [fst snd]. rewrite Hdata.
  destruct (filter _ (db_users (w_store w))) as [|old [|??]] eqn:Hfilter;
    try discriminate.
  injection Hone as <-. exists uuid, typed, old.
  split_and!; [done..|exact Hfilter|done|done].
Qed.

(** What a successful [update] did to the table. *)
Lemma update_split (w w1 : World Db) (id : string) (p : PartialIUser)
    (o : option JObject) :
  UserRepository.update id p w = (Returned o, w1) →
  let s := db_session (w_store w) in
  ∃ uuid typed pre old post,
    p_lastLogin p = None
    ∧ uuid_in id = Some uuid
    ∧ cast_body s column_types (json_of_partial p) = inr typed
    ∧ db_users (w_store w) = pre ++ old :: post
    ∧ db_users (w_store w1) = pre ++ updated_row s typed old :: post
    ∧ old !! "id" = Some (JStr uuid)
    ∧ o = Some (updated_row s typed old).
Proof.
  intros Hrun.
  apply update_Returned in Hrun
    as (uuid & typed & old & Hlast & Hid & Hcast & Hone & -> & ->).
  apply filter_one_split in Hone
    as (pre & post & Hrows & Hold & Hpre & Hpost).
  exists uuid, typed, pre, old, post. apply reached_inv in Hold as Hoid.
  split_and!; [done..| |tauto|done].
  cbn [db_users with_users]. rewrite Hrows, fmap_app, fmap_cons.
  rewrite !fmap_if_none by assumption.
  by destruct (reached _ [("id", uuid)] old).
Qed.

(** C9: a successful [update(id, updateData)] rewrites one row, the
    one whose identifier is [id], in place; every other row stays as it
    was; on the rewritten row every column that [updateData] does not
    name keeps its value, except [updated_at], which the store sets to
    the time of the statement, and every column that [updateData] names
    holds the named value as the column keeps it; the returned value is
    the rewritten row. *)
Theorem C9_update_changes_one_row (w w' : World Db) (id : string)
    (updateData : PartialIUser) (o : option JObject) :
  UserRepository.update id updateData w = (Returned o, w') →
  let s := db_session (w_store w) in
  ∃ uuid pre old post new,
    uuid_in id = Some uuid
    ∧ db_users (w_store w) = pre ++ old :: post
    ∧ db_users (w_store w') = pre ++ new :: post
    ∧ old !! "id" = Some (JStr uuid)
    ∧ o = Some new
    ∧ p_lastLogin updateData = None
    ∧ Forall
        (fun '(k, t, field) =>
           match field with
           | Some v =>
               ∃ v', cast s t v = inr v'
                     ∧ (k ≠ "updated_at" → new !! k = Some (JStr v'))
           | None => k ≠ "updated_at" → new !! k = old !! k
           end)
        [("id", UUID, p_id updateData);
         ("email", VARCHAR 255, p_email updateData);
         ("name", VARCHAR 255, p_name updateData);
         ("password", VARCHAR 255, p_password updateData);
         ("salt", VARCHAR 255, p_salt updateData);
         ("role", VARCHAR 50, p_role updateData);
         ("created_at", TIMESTAMPTZ, p_created_at updateData);
         ("updated_at", TIMESTAMPTZ, p_updated_at updateData)]
    ∧ (∀ k, k ∉ columns → new !! k = old !! k)
    ∧ new !! "updated_at" = Some (JStr (now s))
    ∧ (∀ i r, db_users (w_store w) !! i = Some r →
              r !! "id" ≠ Some (JStr uuid) →
              db_users (w_store w') !! i = Some r).
Proof.
  intros Hrun. cbv zeta.
  apply update_split in Hrun
    as (uuid & typed & pre & old & post & Hlast & Hid & Hcast & Hrows
        & Hrows' & Hold & ->).
  set (s := db_session (w_store w)) in *.
  exists uuid, pre, old, post, (updated_row s typed old).
  destruct (json_of_partial_lookup updateData)
    as (Hbi & Hbn & Hbe & Hbp & Hbs & Hbr & Hbc & Hbu & Hbl).
  assert (Hcolumn : ∀ k t field,
            json_of_partial updateData !! k = JStr <$> field →
            (k, t) ∈ column_types →
            match field with
            | Some v =>
                ∃ v', cast s t v = inr v'
                      ∧ (k ≠ "updated_at" →
                         updated_row s typed old !! k = Some (JStr v'))
            | None =>
                k ≠ "updated_at" → updated_row s typed old !! k = old !! k
            end).
  { intros k t field Hk Hin.
    pose proof (cast_body_partial s updateData typed k t field Hcast Hk Hin)
      as Hfield.
    destruct field as [v|].
    - destruct Hfield as (v' & Hv & Htyped). exists v'. split; [done|].
      intros Hne. by apply updated_row_set.
    - intros Hne. by apply updated_row_kept. }
  split_and!; try done.
  - repeat (apply Forall_cons; split;
            [apply Hcolumn; [done|by apply (bool_decide_unpack _)]|]).
    constructor.
  - intros k Hk. apply updated_row_kept.
    + intros ->. apply Hk. by apply (bool_decide_unpack _).
    + destruct (cast_body_lookup s _ _ _ k column_types_NoDup Hcast)
        as (_ & Hnone & _).
      apply Hnone. destruct (decide (k = "lastLogin")) as [->|Hne].
      * by rewrite Hbl, Hlast.
      * by apply json_of_partial_keys.
  - apply updated_row_stamp.
  - intros i r Hi Hr. rewrite Hrows'. rewrite Hrows in Hi.
    destruct (decide (i < length pre)) as [Hlt|Hge].
    + rewrite lookup_app_l in Hi |- * by done. done.
    + rewrite lookup_app_r in Hi |- * by lia.
      destruct (i - length pre) as [|n]; [|done].
      injection Hi as <-. by destruct Hr.
Qed.

End Updates.
(* ===================================================================== *)
(** ** The claims on concrete tables *)
(* ===================================================================== *)

Section Instances.
Import UsersTable Scenario.

Lemma registered_rows : db_users (w_store registered) = [alice_row].
Proof. exact eq_refl. Qed.

(** The table Alice registered in is consistent, by the invariant. *)
Example registered_consistent : consistent (db_users (w_store registered)).
Proof. exact (proj1 (repository_consistent w0 consistent_nil) alice). Qed.

(** What the log holds after her registration and a second attempt. *)
Example log_after_two_attempts :
  w_log (UserRepository.create alice (UserRepository.create alice w0).2).2 =
  [LogSilly "Creating user in database"; LogSilly "Creating user in database";
   LogError "Error creating user: %o" (unique_violation "users_pkey")].
Proof. exact eq_refl. Qed.

(** An update of a row that is not there, and one that names a column the
    table does not have, are thrown. *)
Example update_of_nobody :
  (UserRepository.update u9 (rename "Al") registered).1 =
  Thrown (new_Error ("Failed to update user: " +:+ message no_single_row)).
Proof. exact eq_refl. Qed.

Example update_of_lastLogin :
  (UserRepository.update u1 (seen t1) registered).1 =
  Thrown (new_Error ("Failed to update user: "
                     +:+ message (undefined_body_column "lastLogin"))).
Proof. exact eq_refl. Qed.

(** With the row policies in force, caller [u2] does not reach Alice's
    row: the update finds no row and the table keeps hers. *)
Example update_by_somebody_else :
  let w := world_of (session_of_u2 true) [alice_row] in
  (UserRepository.update u1 (rename "Mallory") w).1 =
  Thrown (new_Error ("Failed to update user: " +:+ message no_single_row))
  ∧ db_users (w_store (UserRepository.update u1 (rename "Mallory") w).2)
    = [alice_row].
Proof. split; exact eq_refl. Qed.

(** The types of the columns at work: a key that is no identifier is
    refused; an identifier is found in whatever form it is spelled; a name
    of 256 characters is refused; a day is kept as the session renders
    it. *)
Example lookup_of_no_identifier :
  (UserRepository.findById "u9" registered).1 =
  Thrown (new_Error ("Failed to find user by id: "
                     +:+ message (invalid_uuid "u9"))).
Proof. exact eq_refl. Qed.

Example lookup_in_another_spelling :
  let w := (UserRepository.update u1 (Later.move_to u7) registered).2 in
  (UserRepository.findById U7 w).1 = (UserRepository.findById u7 w).1
  ∧ ∃ u, (UserRepository.findById U7 w).1 = Returned (Some u)
         ∧ u !! "id" = Some (JStr u7).
Proof. split; [exact eq_refl|]. eexists. split; exact eq_refl. Qed.

Example create_of_a_long_name :
  UserRepository.create (alice_named name256) w0 =
  (Thrown (new_Error ("Failed to create user: "
                      +:+ message (value_too_long 255))),
   {| w_store := db0;
      w_log := [LogSilly "Creating user in database";
                LogError "Error creating user: %o" (value_too_long 255)] |}).
Proof. exact eq_refl. Qed.

Example update_of_the_day :
  ∃ u, (UserRepository.update u1 (registered_on "2000-01-01")
          (world_of session1 [alice_row])).1 = Returned (Some u)
       ∧ u !! "created_at" = Some (JStr "2000-01-01T00:00:00+00:00").
Proof. eexists. split; exact eq_refl. Qed.

Local Ltac only_alice Hr :=
  apply list_elem_of_singleton in Hr as ->; vm_compute; discriminate.

(** C1, refuted as stated: with no row policy in force, a lookup of
    Alice's identifier returns her record to whoever asks: through the
    client the loader makes, which carries no caller at all, and through a
    client that carries caller [u2], who is somebody else. *)
Lemma C1_counterexample :
  let loaded : World Db :=
    {| w_store := supabaseLoader false t1 u3 utc [alice_row]; w_log := [] |} in
  let as_u2 := world_of (session_of_u2 false) [alice_row] in
  auth_uid (db_session (w_store loaded)) = None
  ∧ auth_uid (db_session (w_store as_u2)) = Some u2
  ∧ alice_row !! "id" = Some (JStr u1)
  ∧ uuid_text u2 ≠ uuid_text u1
  ∧ (UserRepository.findById u1 loaded).1 = Returned (Some alice_row)
  ∧ (UserRepository.findById u1 as_u2).1 = Returned (Some alice_row).
Proof.
  cbv zeta.
  split_and!; [exact eq_refl|exact eq_refl|exact eq_refl|discriminate|..];
    exact eq_refl.
Qed.

(** C1 (as amended), at a concrete input: the same lookup with the row
    policy in force, and a lookup of a key that is no identifier. *)
Lemma C1_isolation_is_the_row_policy_witness :
  let w := world_of (session_of_u2 true) [alice_row] in
  row_security (db_session (w_store w)) = true
  ∧ auth_uid (db_session (w_store w)) = Some u2
  ∧ (UserRepository.findById u1 w).1 = Returned None
  ∧ (UserRepository.findById u1 w).1
    = (UserRepository.findById u1 (without_id u1 w)).1
  ∧ uuid_in "u9" = None
  ∧ ∃ e, (UserRepository.findById "u9" w).1
         = Thrown (new_Error ("Failed to find user by id: " +:+ message e))
         ∧ e ∈ [invalid_uuid "u9"; invalid_byte_sequence]
         ∧ (UserRepository.findById "u9" w0).1
           = (UserRepository.findById "u9" w).1.
Proof.
  intros w.
  assert (Hrls : row_security (db_session (w_store w)) = true)
    by exact eq_refl.
  assert (Hbad : uuid_in "u9" = None) by exact eq_refl.
  destruct (C1_isolation_is_the_row_policy w u1) as (_ & _ & Hpolicy & _).
  destruct (proj2 (Hpolicy Hrls) u1 (uuid_rendered u1)) as [Hnull Hsame].
  { intros a [= <-]. discriminate. }
  destruct (C1_isolation_is_the_row_policy w "u9") as (_ & _ & _ & Hrefused).
  destruct (Hrefused Hbad) as (e & Hthrown & He & Hany).
  split; [exact Hrls|]. split; [exact eq_refl|]. split; [exact Hnull|].
  split; [exact Hsame|]. split; [exact Hbad|].
  exists e. split; [exact Hthrown|]. split; [exact He|exact (Hany w0)].
Defined.

(** C2, refuted as stated: the record that [findByEmail] and
    [findById] return for Alice holds her digest and her salt. *)
Lemma C2_counterexample :
  (UserRepository.findByEmail "alice@x" registered).1 = Returned (Some alice_row)
  ∧ (UserRepository.findById u1 registered).1 = Returned (Some alice_row)
  ∧ alice_row !! "password" = Some (JStr "digest")
  ∧ alice_row !! "salt" = Some (JStr "salt").
Proof. split_and!; exact eq_refl. Qed.

(** C2 (as amended), at a concrete input. *)
Lemma C2_lookup_returns_the_whole_row_witness :
  consistent (db_users (w_store registered))
  ∧ alice_row ∈ db_users (w_store registered)
  ∧ ∃ digest salt,
      alice_row !! "password" = Some (JStr digest)
      ∧ alice_row !! "salt" = Some (JStr salt).
Proof.
  assert (Hok : consistent (db_users (w_store registered)))
    by (apply (consistent_one alice_row); exact eq_refl).
  destruct (C2_lookup_returns_the_whole_row registered
              (UserRepository.findByEmail "alice@x" registered).2
              "alice@x" alice_row Hok) as (_ & _ & Hin & Hcred).
  { left. exact eq_refl. }
  split_and!; [exact Hok|exact Hin|exact Hcred].
Defined.

(** C5, refuted as stated: Alice is registered as "alice@x"; a lookup
    by "ALICE@X", the same handle but for letter case, finds nothing, and
    a registration under "ALICE@X" succeeds. *)
Lemma C5_counterexample :
  let w := world_of session1 [alice_row] in
  lower "ALICE@X" = lower "alice@x"
  ∧ (UserRepository.findByEmail "alice@x" w).1 = Returned (Some alice_row)
  ∧ (UserRepository.findByEmail "ALICE@X" w).1 = Returned None
  ∧ ∃ u, (UserRepository.create ALICE w).1 = Returned (Some u)
         ∧ db_users (w_store (UserRepository.create ALICE w).2)
           = [alice_row; u].
Proof.
  cbv zeta. split_and!; try (exact eq_refl).
  eexists. split; exact eq_refl.
Qed.

(** C5 (as amended), at a concrete input. *)
Lemma C5_handles_compared_exactly_witness :
  let w := world_of session1 [alice_row] in
  consistent (db_users (w_store w))
  ∧ (UserRepository.findByEmail "alice@x" w).1 = Returned (Some alice_row)
  ∧ ∃ u, (UserRepository.create ALICE w).1 = Returned (Some u)
         ∧ db_users (w_store (UserRepository.create ALICE w).2)
           = [alice_row] ++ [u]
         ∧ u !! "email" = Some (JStr "ALICE@X").
Proof.
  intros w.
  assert (Hok : consistent (db_users (w_store w)))
    by (apply (consistent_one alice_row); exact eq_refl).
  destruct (C5_handles_compared_exactly w Hok) as (_ & Hfind & Hcreate).
  split_and!; [exact Hok| |].
  - apply (Hfind "alice@x" alice_row); [exact eq_refl| |exact eq_refl..].
    apply list_elem_of_singleton, eq_refl.
  - apply (Hcreate ALICE); [exact eq_refl..|discriminate| |].
    + intros r Hr. change (r ∈ [alice_row]) in Hr. only_alice Hr.
    + intros r Hr. change (r ∈ [alice_row]) in Hr. only_alice Hr.
Defined.

(** C6, refuted as stated: Alice registers a second time.  With no row
    policy in force the attempt fails with a plain [Error] whose message is
    the store's duplicate-key message, not with an error of a kind of its
    own; with the row policies in force and Alice as the caller, the store
    turns the row down under the policy before it looks for duplicates. *)
Lemma C6_counterexample :
  let again := world_of session1 (db_users (w_store registered)) in
  let as_alice := world_of session_of_alice (db_users (w_store registered)) in
  (∃ e, (UserRepository.create alice again).1 = Thrown e
        ∧ err_name e = "Error"
        ∧ err_name e ≠ "DuplicateIdentity"
        ∧ err_message e =
          "Failed to create user: "
          +:+ message (unique_violation "users_email_key"))
  ∧ (UserRepository.create alice as_alice).1 =
    Thrown (new_Error ("Failed to create user: " +:+ message policy_violation)).
Proof.
  cbv zeta. split; [|exact eq_refl].
  eexists. split_and!; [exact eq_refl|exact eq_refl|discriminate|exact eq_refl].
Qed.

(** C6 (as amended), at a concrete input: Alice registers a second
    time, later. *)
Lemma C6_second_registration_fails_witness :
  let again : World Db :=
    {| w_store := {| db_session := session1;
                     db_users := db_users (w_store registered) |};
       w_log := [] |} in
  (UserRepository.create alice again).1 =
    Thrown (new_Error ("Failed to create user: " +:+
                       message (unique_violation "users_email_key")))
  ∧ w_store (UserRepository.create alice again).2 = w_store again.
Proof.
  intros again.
  destruct (C6_second_registration_fails w0 registered alice alice
              (Some alice_row) session1 [])
    as (e & Hthrown & _ & Hstore & Hdup).
  { exact eq_refl. }
  { exact eq_refl. }
  rewrite (Hdup eq_refl eq_refl eq_refl) in Hthrown.
  - split; [exact Hthrown|exact Hstore].
  - discriminate.
  - intros r Hr. rewrite registered_rows in Hr. only_alice Hr.
Defined.

(** C9, at a concrete input: Alice is renamed in a table that holds Bob
    too. *)
Lemma C9_update_changes_one_row_witness :
  let w := world_of session1 [alice_row; bob_row] in
  ∃ new,
    (UserRepository.update u1 (rename "Al") w).1 = Returned (Some new)
    ∧ db_users (w_store (UserRepository.update u1 (rename "Al") w).2)
      = [new; bob_row]
    ∧ new !! "name" = Some (JStr "Al")
    ∧ new !! "email" = alice_row !! "email"
    ∧ new !! "updated_at" = Some (JStr t1).
Proof.
  intros w.
  pose (row := <["updated_at" := JStr t1]> (<["name" := JStr "Al"]> alice_row)).
  assert (Hrun : UserRepository.update u1 (rename "Al") w =
                 (Returned (Some row),
                  (UserRepository.update u1 (rename "Al") w).2))
    by exact eq_refl.
  destruct (C9_update_changes_one_row w _ u1 (rename "Al") _ Hrun)
    as (uuid & pre & old & post & new & Huuid & Hrows & Hrows' & Hold & Hnew
        & _ & Hfields & _ & Hstamp & _).
  rewrite (uuid_rendered u1) in Huuid. injection Huuid as <-.
  exists new. injection Hnew as Hnew.
  destruct pre as [|a [|b pre]].
  - injection Hrows as <- <-.
    apply Forall_cons in Hfields as [_ Hfields].
    apply Forall_cons in Hfields as [Hemail Hfields].
    apply Forall_cons in Hfields as [Hname _].
    destruct Hname as (v' & Hcast & Hname). injection Hcast as <-.
    split_and!; [rewrite <- Hnew; exact eq_refl|exact Hrows'| | |exact Hstamp].
    + apply Hname. discriminate.
    + apply Hemail. discriminate.
  - injection Hrows as _ <- _. vm_compute in Hold. discriminate Hold.
  - apply (f_equal length) in Hrows. rewrite !length_app in Hrows.
    cbn in Hrows. lia.
Defined.

(** C10, refuted as stated: a digest of 255 characters followed by a
    space is stored, and returned, without the space. *)
Lemma C10_counterexample :
  ∃ u, (UserRepository.create (carol text255_space) w0).1
       = Returned (Some u)
       ∧ u !! "password" = Some (JStr text255)
       ∧ text255 ≠ text255_space.
Proof.
  eexists. split_and!; [exact eq_refl|exact eq_refl|].
  intros Hsame. apply (f_equal String.length) in Hsame.
  vm_compute in Hsame. discriminate Hsame.
Qed.

(** C10 (as amended), at a concrete input: Alice's registration. *)
Lemma C10_create_stores_as_supplied_witness :
  ∃ u, (UserRepository.create alice w0).1 = Returned (Some u)
       ∧ db_users (w_store registered) = [u]
       ∧ u !! "password" = Some (JStr "digest")
       ∧ u !! "salt" = Some (JStr "salt").
Proof.
  destruct (C10_create_stores_as_supplied alice) as (_ & _ & Hstored).
  destruct (Hstored w0 registered (Some alice_row))
    as (u & digest & salt & [= <-] & Hrows & Hp & Hs & _ & _ & Hdigest & Hsalt).
  { exact eq_refl. }
  exists alice_row. split_and!; [exact eq_refl|exact Hrows| |].
  - rewrite Hp, Hdigest; [reflexivity|]. vm_compute. lia.
  - rewrite Hs, Hsalt; [reflexivity|]. vm_compute. lia.
Defined.

End Instances.

(* ===================================================================== *)
(** ** Validation of session tokens *)
(* ===================================================================== *)

Module SessionTokenFacts.
Import SessionToken.

Lemma set_byte_changes (i : nat) (b c : Ascii.ascii) (s : string) :
  get_byte i s = Some c → c ≠ b → set_byte i b s ≠ s.
Proof.
  revert i. induction s as [|c' s IH]; intros [|i] Hget Hne; try discriminate.
  - injection Hget as ->. cbn. congruence.
  - cbn. intros [= Hs]. by apply (IH i).
Qed.

Section Validator.
Context {Secret Payload : Type}.
Variable sign : Secret → Payload → string.
Variable encode : Claims → Payload.
Variable decode : Payload → option Claims.
Variable secret : Secret.
Variable ttl : N.
Hypothesis decode_encode : ∀ c, decode (encode c) = Some c.

Let validate := validate sign decode secret.
Let issue := issue sign encode secret ttl.
Let signature_ok := signature_ok sign secret.

Lemma issue_signature_ok (principal : string) (at_ : N) :
  signature_ok (issue principal at_) = true.
Proof. by apply bool_decide_eq_true_2. Qed.

Lemma tamper_signature_bad (t : Token Payload) (i : nat) (b c : Ascii.ascii) :
  signature_ok t = true → get_byte i (tok_signature t) = Some c → c ≠ b →
  signature_ok (tamper i b t) = false.
Proof.
  intros Hok Hget Hne. apply bool_decide_eq_true_1 in Hok.
  apply bool_decide_eq_false_2. cbn [tamper tok_signature tok_payload].
  rewrite <- Hok. by apply (set_byte_changes i b c).
Qed.

(** C7: [validate] fails with [MissingToken] exactly when no bearer
    token is present; with [MalformedToken] exactly when the token
    present fails the signature check or the structure check, which
    every valid token does once a byte of its signature segment is
    replaced by another; with [ExpiredToken] exactly when the token
    present passes both checks and the current time exceeds its expiry
    claim; and a token issued for a principal, validated up to its
    expiry, yields claims with that principal's identifier. *)
Theorem C7_validate_outcomes (now : N) :
  (∀ bearer, validate now bearer = inl MissingToken ↔ bearer = None)
  ∧ (∀ bearer,
       validate now bearer = inl MalformedToken ↔
       ∃ t, bearer = Some t
            ∧ (signature_ok t = false ∨ decode (tok_payload t) = None))
  ∧ (∀ bearer,
       validate now bearer = inl ExpiredToken ↔
       ∃ t c, bearer = Some t ∧ signature_ok t = true
              ∧ decode (tok_payload t) = Some c ∧ (c_expiry c < now)%N)
  ∧ (∀ bearer c,
       validate now bearer = inr c ↔
       ∃ t, bearer = Some t ∧ signature_ok t = true
            ∧ decode (tok_payload t) = Some c ∧ (now ≤ c_expiry c)%N)
  ∧ (∀ t i b c,
       signature_ok t = true →
       get_byte i (tok_signature t) = Some c → c ≠ b →
       validate now (Some (tamper i b t)) = inl MalformedToken)
  ∧ (∀ principal issued_at,
       ((now ≤ issued_at + ttl)%N →
        ∃ c, validate now (Some (issue principal issued_at)) = inr c
             ∧ c_principal c = principal)
       ∧ ((issued_at + ttl < now)%N →
          validate now (Some (issue principal issued_at))
          = inl ExpiredToken)).
Proof.
  unfold validate, SessionToken.validate. fold signature_ok.
  split_and!.
  - intros [t|]; [|done].
    destruct (signature_ok t); cbn [negb]; [|done].
    destruct (decode _); [|done]. by case_bool_decide.
  - intros [t|]; [|split; [done|by intros (? & ? & ?)]].
    destruct (signature_ok t) eqn:Hsig; cbn [negb].
    + destruct (decode (tok_payload t)) as [c|] eqn:Hdec.
      * case_bool_decide; (split; [done|]);
          intros (t' & [= <-] & [?|?]); congruence.
      * split; [|done]. intros _. exists t. eauto.
    + split; [|done]. intros _. exists t. eauto.
  - intros [t|]; [|split; [done|by intros (? & ? & ? & ?)]].
    destruct (signature_ok t) eqn:Hsig; cbn [negb].
    + destruct (decode (tok_payload t)) as [c|] eqn:Hdec.
      * case_bool_decide as Hexp.
        -- split; [|done]. intros _. exists t, c. eauto.
        -- split; [done|]. intros (t' & c' & [= <-] & _ & Hc & ?).
           rewrite Hdec in Hc. injection Hc as <-. lia.
      * split; [done|]. intros (t' & c' & [= <-] & _ & Hc & _).
        congruence.
    + split; [done|]. intros (t' & c' & [= <-] & ? & _). congruence.
  - intros [t|] c0; [|split; [done|by intros (? & ? & ?)]].
    destruct (signature_ok t) eqn:Hsig; cbn [negb].
    + destruct (decode (tok_payload t)) as [c|] eqn:Hdec.
      * case_bool_decide as Hexp.
        -- split; [done|]. intros (t' & [= <-] & _ & Hc & ?).
           rewrite Hdec in Hc. injection Hc as <-. lia.
        -- split.
           ++ intros [= <-]. exists t. split_and!; try done. lia.
           ++ intros (t' & [= <-] & _ & Hc & _). congruence.
      * split; [done|]. intros (t' & [= <-] & _ & Hc & _). congruence.
    + split; [done|]. intros (t' & [= <-] & ? & _). congruence.
  - intros t i b c Hok Hget Hne.
    by rewrite (tamper_signature_bad t i b c Hok Hget Hne).
  - intros principal issued_at.
    rewrite issue_signature_ok. cbn [negb].
    unfold issue, SessionToken.issue. cbn [tok_payload].
    rewrite decode_encode. cbn [c_expiry]. split; intros Hnow.
    + rewrite bool_decide_eq_false_2 by lia. eauto.
    + by rewrite bool_decide_eq_true_2.
Qed.

End Validator.
End SessionTokenFacts.

(** C7, at a concrete input: claims are their own encoding, the signature
    is the secret followed by the principal; a token issued at time 1000
    for a day. *)
Lemma C7_validate_outcomes_witness :
  let validate := SessionToken.validate Scenario.toy_sign Some "k" in
  let token := SessionToken.issue Scenario.toy_sign id "k" 86400 "u1" 1000 in
  (∀ c : SessionToken.Claims, Some (id c) = Some c)
  ∧ (∃ c, validate 2000%N (Some token) = inr c ∧ SessionToken.c_principal c = "u1")
  ∧ validate 90000%N (Some token) = inl SessionToken.ExpiredToken
  ∧ validate 2000%N (Some (SessionToken.tamper 0 Scenario.byte_X token))
    = inl SessionToken.MalformedToken
  ∧ validate 2000%N None = inl SessionToken.MissingToken.
Proof.
  intros validate token.
  assert (Hcodec : ∀ c : SessionToken.Claims, Some (id c) = Some c)
    by (intros c; exact eq_refl).
  destruct (SessionTokenFacts.C7_validate_outcomes Scenario.toy_sign id Some "k"
              86400 Hcodec 2000)
    as (Hmissing & _ & _ & _ & Htamper & Hissued).
  destruct (SessionTokenFacts.C7_validate_outcomes Scenario.toy_sign id Some "k"
              86400 Hcodec 90000)
    as (_ & _ & _ & _ & _ & Hlate).
  split_and!.
  - exact Hcodec.
  - apply (Hissued "u1" 1000%N). vm_compute. discriminate.
  - apply (Hlate "u1" 1000%N). exact eq_refl.
  - apply (Htamper token 0 Scenario.byte_X (Ascii.ascii_of_nat 107));
      [exact eq_refl|exact eq_refl|discriminate].
  - by apply Hmissing.
Defined.

(* ===================================================================== *)
(** ** Further properties: requests, log and failures *)
(* ===================================================================== *)

Section Effects.
Context {S : Type} `{client : SupabaseClient S}.

(** X1: whatever the client, a call of a method sends its one request
    once, also when the request fails (nothing is retried), and keeps what
    was logged before; when it returns it has logged its one line of level
    [silly] and nothing else; when it throws, the answer to the request
    carried an error, and that line is followed by one entry of level
    [error], made of the method's own format and that error. *)
Theorem X1_one_request_one_log (w : World S) (userData : CreateUserData)
    (key : string) (updateData : PartialIUser) :
  let effects (run : Outcome (option JObject) * World S) (q : Query)
      (what fmt : string) :=
    w_store run.2 = (supabase_run q (w_store w)).2
    ∧ (∀ o, run.1 = Returned o → w_log run.2 = w_log w ++ [LogSilly what])
    ∧ (∀ thrown, run.1 = Thrown thrown →
         ∃ e, error (answer_of q w) = Some e
              ∧ w_log run.2 = w_log w ++ [LogSilly what; LogError fmt e]) in
  effects (UserRepository.create userData w)
    (UserRepository.create_query userData)
    "Creating user in database" "Error creating user: %o"
  ∧ effects (UserRepository.update key updateData w)
      (UserRepository.update_query key updateData)
      "Updating user in database" "Error updating user: %o"
  ∧ effects (UserRepository.findByEmail key w)
      (UserRepository.findByEmail_query key)
      "Finding user by email" "Error finding user by email: %o"
  ∧ effects (UserRepository.findById key w)
      (UserRepository.findById_query key)
      "Finding user by id" "Error finding user by id: %o".
Proof.
  cbv zeta.
  rewrite create_run, update_run, findByEmail_run, findById_run.
  unfold throw_any, throw_unless_no_row, world_after.
  split; [|split; [|split]].
  all: destruct (error _) as [e|] eqn:Herr; [try case_bool_decide|].
  all: cbn [fst snd w_store w_log]; split; [reflexivity|].
  all: split; [intros o Ho|intros thrown Hthrown].
  all: first [ discriminate Ho | discriminate Hthrown | reflexivity
             | exists e; split; reflexivity ].
Qed.

End Effects.

Section Atomicity.
Import UsersTable.

(** A statement that fails leaves the table as it was. *)
Lemma exec_error_unchanged (q : Query) (db : Db) (e : PostgrestError) :
  error (exec q db).1 = Some e → (exec q db).2 = db.
Proof.
  unfold exec.
  assert (Hanswer : ∀ result db',
            error (answer q result db db').1 = Some e →
            (answer q result db db').2 = db).
  { intros result db'. unfold answer.
    destruct result as [|r [|r' rest]]; cbn [fst snd error fail];
      [done|discriminate|done]. }
  destruct (negb (bool_decide _)); [done|].
  destruct (unknown_column _); [done|].
  destruct (q_verb q) as [|body|body].
  - destruct (cast_filters _ _); [done|]. apply Hanswer.
  - destruct (unknown_body_column body); [done|]. unfold run_insert.
    destruct (cast_body _ _ _); [done|].
    destruct (first_error _ _ _); [done|]. apply Hanswer.
  - destruct (unknown_body_column body); [done|].
    case_bool_decide; [apply Hanswer|]. unfold run_update.
    destruct (cast_filters _ _); [done|].
    destruct (cast_body _ _ _); [done|].
    destruct (first_error _ _ _); [done|]. apply Hanswer.
Qed.

(** No statement changes the session it runs in. *)
Lemma exec_session (q : Query) (db : Db) :
  db_session (exec q db).2 = db_session db.
Proof.
  unfold exec.
  assert (Hanswer : ∀ result db',
            db_session db' = db_session db →
            db_session (answer q result db db').2 = db_session db).
  { intros result db' Hdb'. unfold answer.
    by destruct result as [|r [|r' rest]]. }
  destruct (negb (bool_decide _)); [done|].
  destruct (unknown_column _); [done|].
  destruct (q_verb q) as [|body|body].
  - destruct (cast_filters _ _); [done|]. by apply Hanswer.
  - destruct (unknown_body_column body); [done|]. unfold run_insert.
    destruct (cast_body _ _ _); [done|].
    destruct (first_error _ _ _); [done|]. by apply Hanswer.
  - destruct (unknown_body_column body); [done|].
    case_bool_decide; [by apply Hanswer|]. unfold run_update.
    destruct (cast_filters _ _); [done|].
    destruct (cast_body _ _ _); [done|].
    destruct (first_error _ _ _); [done|]. by apply Hanswer.
Qed.

(** An insert adds at most one row; no other statement changes the
    number of rows. *)
Lemma exec_length (q : Query) (db : Db) :
  length (db_users (exec q db).2) = length (db_users db)
  ∨ ((∃ body, q_verb q = VInsert body)
     ∧ length (db_users (exec q db).2) = S (length (db_users db))).
Proof.
  unfold exec.
  assert (Hanswer : ∀ result db' (P : Prop),
            (length (db_users db') = length (db_users db)
             ∨ (P ∧ length (db_users db') = S (length (db_users db)))) →
            length (db_users (answer q result db db').2) = length (db_users db)
            ∨ (P ∧ length (db_users (answer q result db db').2)
                   = S (length (db_users db)))).
  { intros result db' P Hdb'. unfold answer.
    destruct result as [|r [|r' rest]]; cbn [snd]; tauto. }
  destruct (negb (bool_decide _)); [by left|].
  destruct (unknown_column _); [by left|].
  destruct (q_verb q) as [|body|body].
  - destruct (cast_filters _ _); [by left|]. apply Hanswer. by left.
  - destruct (unknown_body_column body); [by left|]. unfold run_insert.
    destruct (cast_body _ _ _); [by left|].
    destruct (first_error _ _ _); [by left|]. apply Hanswer. right.
    split; [by exists body|].
    cbn [db_users with_users]. rewrite length_app. cbn. lia.
  - destruct (unknown_body_column body); [by left|].
    case_bool_decide; [apply Hanswer; by left|]. unfold run_update.
    destruct (cast_filters _ _); [by left|].
    destruct (cast_body _ _ _); [by left|].
    destruct (first_error _ _ _); [by left|]. apply Hanswer. left.
    cbn [db_users with_users]. by rewrite length_fmap.
Qed.

(** X2: on the table, a call that throws has changed nothing: the store
    after a thrown [create], [update], [findByEmail] or [findById] is the
    store before it. *)
Theorem X2_thrown_means_unchanged (w : World Db) (userData : CreateUserData)
    (key : string) (updateData : PartialIUser) (e : JsError) :
  ((UserRepository.create userData w).1 = Thrown e →
   w_store (UserRepository.create userData w).2 = w_store w)
  ∧ ((UserRepository.update key updateData w).1 = Thrown e →
     w_store (UserRepository.update key updateData w).2 = w_store w)
  ∧ ((UserRepository.findByEmail key w).1 = Thrown e →
     w_store (UserRepository.findByEmail key w).2 = w_store w)
  ∧ ((UserRepository.findById key w).1 = Thrown e →
     w_store (UserRepository.findById key w).2 = w_store w).
Proof.
  rewrite create_run, update_run, findByEmail_run, findById_run.
  unfold throw_any, throw_unless_no_row, world_after, answer_of,
    supabase_run, client.
  split_and!.
  all: destruct (error _) as [pe|] eqn:Herr; [try case_bool_decide|].
  all: cbn [fst snd w_store]; intros Hthrown.
  all: first [ discriminate Hthrown
             | exact (exec_error_unchanged _ _ pe Herr) ].
Qed.

End Atomicity.
(* ===================================================================== *)
(** ** Further properties: lookups and round trips *)
(* ===================================================================== *)

Section RoundTrips.
Import UsersTable.

(** A filter keeps exactly [u] when [u] is the one row that the policy
    lets through and that has the key. *)
Lemma only_match (s : Session) (col key : string) (rows : list Row) (u : Row) :
  filter (fun r => reached s [(col, key)] r) rows = [u]
  ↔ ∃ pre post,
      rows = pre ++ u :: post
      ∧ u !! col = Some (JStr key) ∧ allowed s u = true
      ∧ ∀ r, r ∈ pre ++ post →
             ¬ (r !! col = Some (JStr key) ∧ allowed s r = true).
Proof.
  split.
  - intros Hone. apply filter_one_split in Hone
      as (pre & post & Hrows & Hu & Hpre & Hpost).
    apply reached_inv in Hu as [Ha Hm].
    exists pre, post. split_and!; [done..|].
    intros r Hr [Hrm Hra].
    assert (Hreach : reached s [(col, key)] r) by by apply reached_intro.
    apply elem_of_app in Hr as [Hr|Hr].
    + by apply (proj1 (Forall_forall _ _) Hpre r).
    + by apply (proj1 (Forall_forall _ _) Hpost r).
  - intros (pre & post & -> & Hm & Ha & Hothers).
    assert (Hnone : ∀ l, (∀ r, r ∈ l → r ∈ pre ++ post) →
              filter (fun r : Row => reached s [(col, key)] r) l = []).
    { intros l Hl. apply filter_none, Forall_forall.
      intros r Hr Hreach. apply reached_inv in Hreach as [Hra Hrm].
      by apply (Hothers r (Hl r Hr)). }
    rewrite filter_app, filter_cons, decide_True by by apply reached_intro.
    rewrite !Hnone; [reflexivity| |].
    + intros r Hr. apply elem_of_app. by right.
    + intros r Hr. apply elem_of_app. by left.
Qed.

(** X3: on the table a lookup never changes the store, and it throws
    only for a key that cannot be a value of the column: [findByEmail] for
    a key that holds U+0000, [findById] for a key that is no identifier.
    A lookup returns a row exactly when that row is the only one with the
    looked-up value that the row policy lets through, and [null] when
    there is no such row or more than one; identifiers are compared as
    values, whatever their spelling. *)
Theorem X3_lookup_returns_the_only_match (w : World Db) (key : string) :
  let s := db_session (w_store w) in
  let rows := db_users (w_store w) in
  let the_only (col value : string) (u : Row) :=
    ∃ pre post,
      rows = pre ++ u :: post
      ∧ u !! col = Some (JStr value) ∧ allowed s u = true
      ∧ ∀ r, r ∈ pre ++ post →
             ¬ (r !! col = Some (JStr value) ∧ allowed s r = true) in
  (∀ u, (UserRepository.findByEmail key w).1 = Returned (Some u)
        ↔ has_nul key = false ∧ the_only "email" key u)
  ∧ (∀ u, (UserRepository.findById key w).1 = Returned (Some u)
          ↔ ∃ id, uuid_in key = Some id ∧ the_only "id" id u)
  ∧ ((∃ e, (UserRepository.findByEmail key w).1 = Thrown e)
     ↔ has_nul key = true)
  ∧ ((∃ e, (UserRepository.findById key w).1 = Thrown e)
     ↔ uuid_in key = None)
  ∧ w_store (UserRepository.findByEmail key w).2 = w_store w
  ∧ w_store (UserRepository.findById key w).2 = w_store w.
Proof.
  cbv zeta. rewrite findByEmail_on_table, findById_on_table.
  assert (Hiff : ∀ col value u,
            Returned
              match filter (fun r : Row => reached (db_session (w_store w))
                              [(col, value)] r) (db_users (w_store w)) with
              | [r] => Some r
              | _ => None
              end = (Returned (Some u) : Outcome (option JObject))
            ↔ filter (fun r : Row => reached (db_session (w_store w))
                        [(col, value)] r) (db_users (w_store w)) = [u]).
  { intros col value u.
    destruct (filter _ (db_users (w_store w))) as [|r [|r' rest]];
      split; intros [=]; by subst. }
  split_and!.
  - intros u. destruct (has_nul key); cbn [fst].
    + split; [discriminate|]. by intros [[=] _].
    + rewrite Hiff, only_match. tauto.
  - intros u. destruct (uuid_in key) as [id|]; cbn [fst].
    + rewrite Hiff, only_match. split.
      * intros Hone. by exists id.
      * by intros (id' & [= <-] & Hone).
    + split; [discriminate|]. by intros (id & [=] & _).
  - destruct (has_nul key); cbn [fst].
    + split; [done|]. intros _. by eexists.
    + split; [by intros [e [=]]|discriminate].
  - destruct (uuid_in key) as [id|]; cbn [fst].
    + split; [by intros [e [=]]|discriminate].
    + split; [done|]. intros _. by eexists.
  - by destruct (has_nul key).
  - by destruct (uuid_in key).
Qed.

(** X4: a user that [create] returned is found again, by the login handle
    as the store kept it, which is the handle it was created with when
    that has at most 255 characters, and by the identifier the store gave
    it, in every later session whose row policy lets the row through. *)
Theorem X4_created_user_is_found (w w1 : World Db) (d : CreateUserData)
    (u : JObject) (s' : Session) :
  consistent (db_users (w_store w)) →
  UserRepository.create d w = (Returned (Some u), w1) →
  allowed s' u = true →
  ∃ email,
    varchar_in 255 (cu_email d) = Some email
    ∧ u !! "email" = Some (JStr email)
    ∧ (char_length (cu_email d) ≤ 255 → email = cu_email d)
    ∧ (UserRepository.findByEmail email (in_session s' w1)).1
      = Returned (Some u)
    ∧ (UserRepository.findById (uuid_generate_v4 (db_session (w_store w)))
         (in_session s' w1)).1
      = Returned (Some u).
Proof.
  intros Hok Hcreate Ha.
  pose proof (proj1 (repository_consistent w Hok) d) as Hok1.
  rewrite Hcreate in Hok1. cbn [snd] in Hok1.
  apply create_Returned in Hcreate
    as (name & email & password & salt & _ & He & _ & _ & Hmade).
  cbv zeta in Hmade. destruct Hmade as ([= ->] & Hstore & _).
  set (s := db_session (w_store w)) in *.
  set (d' := user_data name email password salt) in *.
  destruct (new_row_create s d') as (Hi & _ & Hre & _). cbn in Hre.
  rewrite Hstore in Hok1. cbn [db_users with_users] in Hok1.
  destruct Hok1 as (_ & Huid & Huemail).
  pose proof (cast_varchar_has_nul _ _ _ _ He) as Hnul.
  apply cast_varchar_inv in He as [_ He].
  exists email. split_and!; [done|done|by apply (varchar_in_same 255)|..].
  - rewrite findByEmail_on_table, Hnul.
    cbn [fst in_session w_store db_users db_session].
    rewrite Hstore. cbn [db_users with_users].
    rewrite (filter_the_one s' "email" _ (db_users (w_store w)) []
               (new_row s (json_of_create d')) Hre Ha); [done|].
    exact (unique_on_others "email" _ (db_users (w_store w)) [] _ Huemail Hre).
  - rewrite findById_on_table, (uuid_rendered (uuid_generate_v4 s)).
    cbn [fst in_session w_store db_users db_session].
    rewrite Hstore. cbn [db_users with_users].
    rewrite (filter_the_one s' "id" _ (db_users (w_store w)) []
               (new_row s (json_of_create d')) Hi Ha); [done|].
    exact (unique_on_others "id" _ (db_users (w_store w)) [] _ Huid Hi).
Qed.

(** X5: after a successful [update] the rewritten row is found under its
    identifier, the new one if [updateData] names [id], in every session
    whose row policy lets the row through; and when the identifier was
    changed, to another value and not only in its spelling, a lookup of
    the old one finds nothing. *)
Theorem X5_updated_user_is_found (w w1 : World Db) (id : string)
    (updateData : PartialIUser) (new : JObject) (s' : Session) :
  consistent (db_users (w_store w)) →
  UserRepository.update id updateData w = (Returned (Some new), w1) →
  allowed s' new = true →
  (UserRepository.findById (default id (p_id updateData))
     (in_session s' w1)).1 = Returned (Some new)
  ∧ (uuid_in (default id (p_id updateData)) ≠ uuid_in id →
     (UserRepository.findById id (in_session s' w1)).1 = Returned None).
Proof.
  intros Hok Hupdate Ha.
  pose proof (proj1 (proj2 (repository_consistent w Hok)) id updateData)
    as Hok1.
  rewrite Hupdate in Hok1. cbn [snd] in Hok1.
  apply update_split in Hupdate
    as (uuid & typed & pre & old & post & _ & Hid & Hcast & Hrows & Hrows1
        & Hold & [= ->]).
  set (s := db_session (w_store w)) in *.
  assert (Hnew : ∃ nid, uuid_in (default id (p_id updateData)) = Some nid
                        ∧ updated_row s typed old !! "id" = Some (JStr nid)).
  { destruct (json_of_partial_lookup updateData) as (Hbody & _).
    pose proof (cast_body_partial s updateData typed "id" UUID
                  (p_id updateData) Hcast Hbody
                  ltac:(by apply (bool_decide_unpack _))) as Hfield.
    destruct (p_id updateData) as [id'|]; cbn [default].
    - destruct Hfield as (nid & Hnid & Htyped). exists nid.
      split; [by apply (cast_uuid_inv s)|by apply updated_row_set].
    - exists uuid. split; [done|]. by rewrite updated_row_kept. }
  destruct Hnew as (nid & Hnid & Hnew).
  rewrite !findById_on_table, Hnid, Hid.
  cbn [fst in_session w_store db_users db_session]. rewrite Hrows1.
  rewrite Hrows1 in Hok1. destruct Hok1 as (_ & Huid1 & _).
  split.
  - rewrite (filter_the_one s' "id" _ pre post _ Hnew Ha); [done|].
    by apply (unique_on_others "id" _ pre post (updated_row s typed old)).
  - intros Hmoved.
    destruct Hok as (_ & Huid & _). rewrite Hrows in Huid.
    pose proof (unique_on_others "id" uuid pre post old Huid Hold) as Hothers.
    rewrite filter_app, filter_cons, decide_False.
    + rewrite !filter_none; [done| |].
      * apply Forall_forall. intros r Hr Hreach.
        apply reached_inv in Hreach as [_ Hm].
        apply (Hothers r); [|done]. apply elem_of_app. by right.
      * apply Forall_forall. intros r Hr Hreach.
        apply reached_inv in Hreach as [_ Hm].
        apply (Hothers r); [|done]. apply elem_of_app. by left.
    + intros Hreach. apply reached_inv in Hreach as [_ Hm].
      rewrite Hnew in Hm. injection Hm as ->. by destruct Hmoved.
Qed.

End RoundTrips.
(* ===================================================================== *)
(** ** Further properties: writes the store turns down, rows it fills in *)
(* ===================================================================== *)

Section Writes.
Import UsersTable.

(** What an [update] that the store fails with [e] comes to. *)
Lemma update_fails_on_table (id : string) (p : PartialIUser) (w : World Db)
    (e : PostgrestError) :
  (exec (UserRepository.update_query id p) (w_store w)).1 = fail e →
  UserRepository.update id p w =
  (Thrown (new_Error ("Failed to update user: " +:+ message e)),
   {| w_store := w_store w;
      w_log := w_log w ++ [LogSilly "Updating user in database";
                           LogError "Error updating user: %o" e] |}).
Proof.
  intros Hfail. rewrite update_run.
  unfold throw_any, world_after, answer_of, supabase_run, client.
  rewrite Hfail. cbn [error fail].
  rewrite (exec_error_unchanged _ _ e); [done|]. by rewrite Hfail.
Qed.

(** The body of an update is read when each property that [updateData]
    has is taken by its column. *)
Lemma cast_body_partial_ok (s : Session) (p : PartialIUser) :
  Forall (fun '(t, field) => ∀ v, field = Some v → ∃ v', cast s t v = inr v')
    [(UUID, p_id p); (VARCHAR 255, p_email p); (VARCHAR 255, p_name p);
     (VARCHAR 255, p_password p); (VARCHAR 255, p_salt p);
     (VARCHAR 50, p_role p); (TIMESTAMPTZ, p_created_at p);
     (TIMESTAMPTZ, p_updated_at p)] →
  ∃ typed, cast_body s column_types (json_of_partial p) = inr typed.
Proof.
  intros Hfields.
  apply Forall_cons in Hfields as [Hi Hfields].
  apply Forall_cons in Hfields as [He Hfields].
  apply Forall_cons in Hfields as [Hn Hfields].
  apply Forall_cons in Hfields as [Hp Hfields].
  apply Forall_cons in Hfields as [Hs Hfields].
  apply Forall_cons in Hfields as [Hr Hfields].
  apply Forall_cons in Hfields as [Hc Hfields].
  apply Forall_cons in Hfields as [Hu _].
  destruct (json_of_partial_lookup p)
    as (Hbi & Hbn & Hbe & Hbp & Hbs & Hbr & Hbc & Hbu & _).
  apply cast_body_ok; [apply column_types_NoDup|].
  intros k t v Hin Hk. apply list_elem_of_In in Hin. cbn in Hin.
  assert (Hfield : ∀ field : option string,
            JStr <$> field = Some (JStr v) → field = Some v).
  { intros [x|]; [|discriminate]. by intros [= ->]. }
  repeat (destruct Hin as [[= <- <-]|Hin];
          [match goal with
           | H : json_of_partial p !! ?c = _ |- _ =>
               rewrite H in Hk; apply Hfield in Hk
           end|]); [..|done].
  - by apply Hc.
  - by apply He.
  - by apply Hi.
  - by apply Hn.
  - by apply Hp.
  - by apply Hr.
  - by apply Hs.
  - by apply Hu.
Qed.

(** An update, but for an empty one or one of [lastLogin], that reaches
    no row. *)
Lemma run_update_unreached (id uuid : string) (p : PartialIUser) (db : Db)
    (typed : JObject) :
  uuid_in id = Some uuid →
  cast_body (db_session db) column_types (json_of_partial p) = inr typed →
  filter (fun r => reached (db_session db) [("id", uuid)] r) (db_users db)
  = [] →
  run_update (UserRepository.update_query id p) (json_of_partial p) db
  = (fail no_single_row, db).
Proof.
  intros Hid Hcast Hnone. unfold run_update. cbv zeta.
  cbn [UserRepository.update_query Builder.from Builder.update
    Builder.returning Builder.eq Builder.single q_filters app].
  by rewrite cast_filters_id, Hid, Hcast, Hnone.
Qed.

(** X6: an [update] with the empty object [{}] never succeeds, whatever
    the identifier and the table: it throws the store's "no single row"
    error and the store stays as it was. *)
Theorem X6_empty_update_is_thrown (id : string) (w : World Db) :
  (UserRepository.update id empty_update w).1 =
  Thrown (new_Error ("Failed to update user: " +:+ message no_single_row))
  ∧ w_store (UserRepository.update id empty_update w).2 = w_store w.
Proof.
  rewrite (update_fails_on_table id empty_update w no_single_row); [done|].
  rewrite exec_update. cbn [p_lastLogin empty_update].
  by rewrite bool_decide_eq_true_2.
Qed.

(** X7: [IUser] declares [lastLogin] and the table has no such column, so
    an [update] whose [updateData] has [lastLogin] never succeeds: it throws
    the store's unknown-column error and the store stays as it was,
    whatever else [updateData] holds. *)
Theorem X7_update_of_lastLogin_is_thrown (id : string)
    (updateData : PartialIUser) (w : World Db) (t : string) :
  p_lastLogin updateData = Some t →
  (UserRepository.update id updateData w).1 =
  Thrown (new_Error ("Failed to update user: "
                     +:+ message (undefined_body_column "lastLogin")))
  ∧ w_store (UserRepository.update id updateData w).2 = w_store w.
Proof.
  intros Hlast.
  rewrite (update_fails_on_table id updateData w
             (undefined_body_column "lastLogin")); [done|].
  by rewrite exec_update, Hlast.
Qed.

(** The rows an update reaches are none when no row has the identifier,
    and none when the row policy is in force for another caller. *)
Lemma unreached (s : Session) (uuid : string) (rows : list Row) :
  (∀ r, r ∈ rows → r !! "id" ≠ Some (JStr uuid))
  ∨ (row_security s = true ∧ ∀ a, auth_uid s = Some a → uuid_text a ≠ uuid) →
  filter (fun r => reached s [("id", uuid)] r) rows = [].
Proof.
  intros Hwhy. apply filter_none, Forall_forall. intros r Hr Hreach.
  apply reached_inv in Hreach as [Ha Hm].
  destruct Hwhy as [Hmissing|[Hrls Hother]].
  - by apply (Hmissing r).
  - destruct (allowed_owner s r Hrls Ha) as (a & Hauth & Hid).
    rewrite Hm in Hid. injection Hid as ->. by apply (Hother a).
Qed.

(** X8: an [update] of an identifier that no row has, or, with the row
    policies in force, of a row that is not the caller's own, changes
    nothing and throws the "no single row" error of the store (the
    unknown-column error if [updateData] has [lastLogin]); this for an
    [id] that is an identifier and values of [updateData] that their
    columns take. *)
Theorem X8_update_reaches_own_rows_only (id uuid : string)
    (updateData : PartialIUser) (w : World Db) :
  let s := db_session (w_store w) in
  uuid_in id = Some uuid →
  Forall (fun '(t, field) => ∀ v, field = Some v → ∃ v', cast s t v = inr v')
    [(UUID, p_id updateData); (VARCHAR 255, p_email updateData);
     (VARCHAR 255, p_name updateData); (VARCHAR 255, p_password updateData);
     (VARCHAR 255, p_salt updateData); (VARCHAR 50, p_role updateData);
     (TIMESTAMPTZ, p_created_at updateData);
     (TIMESTAMPTZ, p_updated_at updateData)] →
  (∀ r, r ∈ db_users (w_store w) → r !! "id" ≠ Some (JStr uuid))
  ∨ (row_security s = true ∧ ∀ a, auth_uid s = Some a → uuid_text a ≠ uuid) →
  (UserRepository.update id updateData w).1 =
  Thrown (new_Error ("Failed to update user: " +:+
                     message (match p_lastLogin updateData with
                              | Some _ => undefined_body_column "lastLogin"
                              | None => no_single_row
                              end)))
  ∧ w_store (UserRepository.update id updateData w).2 = w_store w.
Proof.
  cbv zeta. intros Hid Hfields Hwhy.
  destruct (p_lastLogin updateData) as [t|] eqn:Hlast.
  - rewrite (update_fails_on_table id updateData w
               (undefined_body_column "lastLogin")); [done|].
    by rewrite exec_update, Hlast.
  - rewrite (update_fails_on_table id updateData w no_single_row); [done|].
    rewrite exec_update, Hlast. case_bool_decide; [done|].
    destruct (cast_body_partial_ok _ _ Hfields) as [typed Htyped].
    rewrite (run_update_unreached id uuid updateData (w_store w) typed);
      [done..|]. by apply unreached.
Qed.




(** X11: through the client the loader makes, which carries no user
    token, and with the row policies of the migration in force, nothing
    can be read or written: no lookup returns a row, every [create] and
    every [update] throws, and the table stays as it was.  A lookup of an
    identifier, or of a handle, returns [null]; a [create] of values
    within the width of their columns is turned down by the policy. *)
Theorem X11_loaded_client_under_policy (time : string) (uuid : Uuid)
    (timestamptz : string → PostgrestError + string) (rows : list Row)
    (log : list LogEntry) (key : string) (userData : CreateUserData)
    (updateData : PartialIUser) :
  let w := {| w_store := supabaseLoader true time uuid timestamptz rows;
              w_log := log |} in
  (∀ u, (UserRepository.findById key w).1 ≠ Returned (Some u)
        ∧ (UserRepository.findByEmail key w).1 ≠ Returned (Some u))
  ∧ (is_Some (uuid_in key) → (UserRepository.findById key w).1 = Returned None)
  ∧ (has_nul key = false →
     (UserRepository.findByEmail key w).1 = Returned None)
  ∧ (∃ e, (UserRepository.create userData w).1 = Thrown e)
  ∧ (within 255 (cu_name userData) = true →
     within 255 (cu_email userData) = true →
     within 255 (cu_password userData) = true →
     within 255 (cu_salt userData) = true →
     (UserRepository.create userData w).1 =
     Thrown (new_Error ("Failed to create user: "
                        +:+ message policy_violation)))
  ∧ (∃ e, (UserRepository.update key updateData w).1 = Thrown e)
  ∧ db_users (w_store (UserRepository.create userData w).2) = rows
  ∧ db_users (w_store (UserRepository.update key updateData w).2) = rows.
Proof.
  intros w.
  assert (Hnone : ∀ fs, filter (fun r : Row => reached (db_session (w_store w))
                    fs r) (db_users (w_store w)) = []).
  { intros fs. apply filter_none, Forall_forall. by intros r _ Hreach. }
  assert (Hcreate : ∃ e, UserRepository.create userData w =
            (Thrown (new_Error ("Failed to create user: " +:+ message e)),
             {| w_store := w_store w;
                w_log := w_log w ++ [LogSilly "Creating user in database";
                                     LogError "Error creating user: %o" e] |})).
  { rewrite create_on_table. cbv zeta.
    destruct (cast_body _ _ _) as [e|typed]; by eexists. }
  assert (Hupdate : ∃ e, (exec (UserRepository.update_query key updateData)
                            (w_store w)).1 = fail e).
  { rewrite exec_update. destruct (p_lastLogin updateData); [by eexists|].
    case_bool_decide; [by eexists|]. unfold run_update. cbv zeta.
    destruct (cast_filters _ _) as [e|fs]; [by eexists|].
    destruct (cast_body _ _ _) as [e|typed]; [by eexists|].
    rewrite Hnone. by eexists. }
  destruct Hcreate as [ec Hcreate]. destruct Hupdate as [eu Hupdate].
  rewrite (update_fails_on_table _ _ _ _ Hupdate), Hcreate.
  rewrite findByEmail_on_table, findById_on_table.
  split; [|split; [|split; [|split; [|split; [|split; [|split]]]]]].
  - intros u. split.
    + destruct (uuid_in key); cbn [fst]; [by rewrite Hnone|discriminate].
    + destruct (has_nul key); cbn [fst]; [discriminate|by rewrite Hnone].
  - intros [id ->]. by rewrite Hnone.
  - intros ->. by rewrite Hnone.
  - by eexists.
  - intros Hn He Hp Hs. rewrite <- Hcreate. by rewrite create_within.
  - by eexists.
  - reflexivity.
  - reflexivity.
Qed.

(** X18: a value that its column refuses is refused before the row
    policy and the duplicate checks are made, whatever the session and the
    rows: when one of the four values of [userData] holds U+0000, or has
    more than 255 characters of which those after the 255th are not all
    spaces, [create] throws the store's rejection of that value and the
    store stays as it was. *)
Theorem X18_create_refuses_what_the_columns_refuse (userData : CreateUserData)
    (w : World Db) (v : string) :
  v ∈ [cu_name userData; cu_email userData; cu_password userData;
       cu_salt userData] →
  has_nul v = true ∨ varchar_in 255 v = None →
  ∃ e, e ∈ [untranslatable_character; value_too_long 255]
       ∧ (UserRepository.create userData w).1 =
         Thrown (new_Error ("Failed to create user: " +:+ message e))
       ∧ w_store (UserRepository.create userData w).2 = w_store w.
Proof.
  intros Hv Hrefused. rewrite create_on_table. cbv zeta.
  destruct (cast_body _ _ _) as [e|typed] eqn:Hcast.
  - exists e. split; [|done].
    apply cast_body_create_error in Hcast as [-> | ->].
    + apply list_elem_of_here.
    + apply list_elem_of_further, list_elem_of_here.
  - apply cast_body_create_inv in Hcast
      as (name & email & password & salt & Hn & He & Hp & Hs & _).
    apply cast_varchar_inv in Hn as [Hn1 Hn2].
    apply cast_varchar_inv in He as [He1 He2].
    apply cast_varchar_inv in Hp as [Hp1 Hp2].
    apply cast_varchar_inv in Hs as [Hs1 Hs2].
    rewrite !elem_of_cons in Hv.
    destruct Hv as [->|[->|[->|[->|Hnil]]]];
      [..|by apply not_elem_of_nil in Hnil];
      destruct Hrefused; congruence.
Qed.

(** X19: an [id] that is no identifier is refused before any row is
    read: an [update] with such an [id], of a body that is not empty and
    has no [lastLogin], throws the store's rejection of the [id], whatever
    the rows, the caller and the values of the body, and the store stays
    as it was. *)
Theorem X19_update_refuses_what_is_no_identifier (id : string)
    (updateData : PartialIUser) (w : World Db) :
  uuid_in id = None →
  p_lastLogin updateData = None →
  json_of_partial updateData ≠ ∅ →
  let e := if has_nul id then invalid_byte_sequence else invalid_uuid id in
  (UserRepository.update id updateData w).1 =
  Thrown (new_Error ("Failed to update user: " +:+ message e))
  ∧ w_store (UserRepository.update id updateData w).2 = w_store w.
Proof.
  intros Hid Hlast Hbody. cbv zeta.
  rewrite (update_fails_on_table id updateData w
             (if has_nul id then invalid_byte_sequence else invalid_uuid id));
    [done|].
  rewrite exec_update, Hlast. case_bool_decide; [done|].
  unfold run_update. cbv zeta.
  cbn [UserRepository.update_query Builder.from Builder.update
    Builder.returning Builder.eq Builder.single q_filters app].
  by rewrite cast_filters_id, Hid.
Qed.

End Writes.

(* ===================================================================== *)
(** ** Further properties: histories of calls *)
(* ===================================================================== *)

Section Histories.
Import UsersTable.

(** The store after a call is the store after the one statement of the
    call; only [create] sends an insert. *)
Lemma perform_exec (c : Call) (w : World Db) :
  ∃ q, w_store (perform c w) = (exec q (w_store w)).2
       ∧ ((∃ body, q_verb q = VInsert body) → ∃ d, c = CallCreate d).
Proof.
  destruct c as [d|id p|email|id]; cbn [perform].
  - exists (UserRepository.create_query d). split; [|by exists d].
    rewrite create_run. unfold throw_any, world_after.
    by destruct (error _).
  - exists (UserRepository.update_query id p). split; [|by intros [? [=]]].
    rewrite update_run. unfold throw_any, world_after.
    by destruct (error _).
  - exists (UserRepository.findByEmail_query email).
    split; [|by intros [? [=]]].
    rewrite findByEmail_run. unfold throw_unless_no_row, world_after.
    destruct (error _); [case_bool_decide|]; done.
  - exists (UserRepository.findById_query id). split; [|by intros [? [=]]].
    rewrite findById_run. unfold throw_unless_no_row, world_after.
    destruct (error _); [case_bool_decide|]; done.
Qed.

(** X12: the constraints of the migration are invariants of every
    history: whatever calls are made, in whatever sessions, values and
    order, the NOT NULL columns of every row stay filled and no two rows
    share an [id] or an [email]. *)
Theorem X12_history_keeps_constraints (history : list (Session * Call))
    (w : World Db) :
  consistent (db_users (w_store w)) →
  consistent (db_users (w_store (perform_all history w))).
Proof.
  revert w. induction history as [|[s c] history IH]; intros w Hok; [done|].
  cbn [perform_all]. apply IH.
  destruct (perform_exec c (in_session s w)) as (q & -> & _).
  by apply exec_consistent.
Qed.

(** X13: no call removes a row: along every history the table never
    shrinks, and it grows by at most one row for each [create]. *)
Theorem X13_history_never_removes_rows (history : list (Session * Call))
    (w : World Db) :
  length (db_users (w_store w))
  ≤ length (db_users (w_store (perform_all history w)))
  ≤ length (db_users (w_store w)) + creates history.
Proof.
  revert w. induction history as [|[s c] history IH]; intros w.
  - cbn [perform_all creates]. lia.
  - cbn [perform_all]. specialize (IH (perform c (in_session s w))).
    destruct (perform_exec c (in_session s w)) as (q & Hq & Hinsert).
    rewrite Hq in IH.
    destruct (exec_length q (w_store (in_session s w))) as [Hsame|[Hins Hone]].
    + rewrite Hsame in IH. cbn [in_session w_store db_users] in IH.
      assert (creates history ≤ creates ((s, c) :: history))
        by (cbn [creates]; destruct c; lia).
      lia.
    + rewrite Hone in IH. cbn [in_session w_store db_users] in IH.
      destruct (Hinsert Hins) as [d ->]. cbn [creates]. lia.
Qed.

End Histories.

(* ===================================================================== *)
(** ** The loaders *)
(* ===================================================================== *)

Module LoaderFacts.
Import Loaders.

Section Boot.
Context {Client MgInstance EmailClient App : Type}.
Variable config : Config.
Variable createClient : string → string → ClientOptions → Outcome Client.
Variable new_Mailgun : Outcome MgInstance.
Variable mg_client : MgInstance → MailgunOptions → Outcome EmailClient.
Variable expressLoader : App → Boot Client EmailClient unit.

Local Abbreviation injector :=
  (dependencyInjectorLoader config new_Mailgun mg_client).
Local Abbreviation injector_error :=
  (LogBootError "🔥 Error on dependency injector loader: %o").

(** The three runs of the injector: the mail library cannot be
    instantiated, the mail client cannot be made, both are made. *)
Lemma injector_run (supabaseClient : Client) (st : BootState Client EmailClient) :
  injector supabaseClient st =
  match new_Mailgun with
  | Thrown e =>
      (Thrown e,
       {| container := container st;
          boot_log := boot_log st ++ [injector_error e] |})
  | Returned mg =>
      let first_three :=
        <["logger" := TheLogger]>
          (<["userRepository" := TheClass "UserRepository"]>
             (<["supabase" := TheSupabase supabaseClient]> (container st))) in
      match mg_client mg (mailgun_options config) with
      | Thrown e =>
          (Thrown e,
           {| container := first_three;
              boot_log := boot_log st ++ [injector_error e] |})
      | Returned ec =>
          (Returned tt,
           {| container :=
                <["emailDomain" := TheString (emails_domain config)]>
                  (<["emailClient" := TheEmailClient ec]> first_three);
              boot_log :=
                boot_log st
                ++ [LogInfo "✌️ Supabase injected into container";
                    LogInfo "✌️ UserRepository injected into container"] |})
      end
  end.
Proof.
  unfold dependencyInjectorLoader, try_catch, mbind, Boot_bind, external,
    Container_set, Logger_info, Logger_error, rethrow.
  destruct new_Mailgun as [mg|e]; cbn [container boot_log]; [|done].
  destruct (mg_client mg (mailgun_options config)) as [ec|e];
    cbn [container boot_log]; [|done].
  by rewrite <- app_assoc.
Qed.

(** X14: when the mail library gives its client, the injector returns,
    has registered the client it was handed under 'supabase', the
    repository class, the logger, the mail client and the mail domain
    under their five names, has left every other name of the container as
    it was, and has logged its two messages after what was logged
    before. *)
Theorem X14_injector_fills_the_container (supabaseClient : Client)
    (st : BootState Client EmailClient) (mg : MgInstance) (ec : EmailClient) :
  new_Mailgun = Returned mg →
  mg_client mg (mailgun_options config) = Returned ec →
  let run := injector supabaseClient st in
  run.1 = Returned tt
  ∧ container run.2 !! "supabase" = Some (TheSupabase supabaseClient)
  ∧ container run.2 !! "userRepository" = Some (TheClass "UserRepository")
  ∧ container run.2 !! "logger" = Some TheLogger
  ∧ container run.2 !! "emailClient" = Some (TheEmailClient ec)
  ∧ container run.2 !! "emailDomain"
    = Some (TheString (emails_domain config))
  ∧ (∀ k, k ∉ ["supabase"; "userRepository"; "logger"; "emailClient";
               "emailDomain"] →
          container run.2 !! k = container st !! k)
  ∧ boot_log run.2 =
    boot_log st
    ++ [LogInfo "✌️ Supabase injected into container";
        LogInfo "✌️ UserRepository injected into container"].
Proof.
  intros Hmg Hec. cbv zeta. rewrite injector_run, Hmg. cbv zeta.
  rewrite Hec. cbn [fst snd container boot_log].
  split; [done|].
  split; [by rewrite !lookup_insert_ne, lookup_insert_eq by done|].
  split; [by rewrite !lookup_insert_ne, lookup_insert_eq by done|].
  split; [by rewrite !lookup_insert_ne, lookup_insert_eq by done|].
  split; [by rewrite lookup_insert_ne, lookup_insert_eq by done|].
  split; [by rewrite lookup_insert_eq|].
  split; [|done].
  intros k Hk. rewrite !not_elem_of_cons in Hk.
  destruct Hk as (? & ? & ? & ? & ? & _).
  by rewrite !lookup_insert_ne by done.
Qed.

(** X15: the injector throws exactly the error of the mail library, logs
    it once after what was logged before, and does not undo what it
    registered: when the mail client cannot be made, 'supabase',
    'userRepository' and 'logger' are registered while 'emailClient',
    'emailDomain' and every other name are as before; when the library
    cannot be instantiated the container is untouched. *)
Theorem X15_injector_failure_leaves_half_a_container (supabaseClient : Client)
    (st : BootState Client EmailClient) (e : JsError) :
  let run := injector supabaseClient st in
  let no_library := new_Mailgun = Thrown e in
  let no_client :=
    ∃ mg, new_Mailgun = Returned mg
          ∧ mg_client mg (mailgun_options config) = Thrown e in
  (run.1 = Thrown e ↔ no_library ∨ no_client)
  ∧ (run.1 = Thrown e →
     boot_log run.2 = boot_log st ++ [injector_error e]
     ∧ ∀ k, k ∉ ["supabase"; "userRepository"; "logger"] →
            container run.2 !! k = container st !! k)
  ∧ (no_library → container run.2 = container st)
  ∧ (no_client →
     container run.2 !! "supabase" = Some (TheSupabase supabaseClient)
     ∧ container run.2 !! "userRepository" = Some (TheClass "UserRepository")
     ∧ container run.2 !! "logger" = Some TheLogger).
Proof.
  cbv zeta. rewrite injector_run.
  destruct new_Mailgun as [mg|e0]; cbv zeta.
  - destruct (mg_client mg (mailgun_options config)) as [ec|e1] eqn:Hec;
      cbn [fst snd container boot_log].
    + split; [|split; [|split]].
      * split; [done|]. intros [[=]|(mg' & [= <-] & Hthrown)].
        rewrite Hec in Hthrown. by inversion Hthrown.
      * by intros [=].
      * by intros [=].
      * intros (mg' & [= <-] & Hthrown). rewrite Hec in Hthrown.
        by inversion Hthrown.
    + split; [|split; [|split]].
      * split.
        -- intros [= ->]. right. by exists mg.
        -- intros [[=]|(mg' & [= <-] & Hthrown)]. rewrite Hec in Hthrown.
           by inversion Hthrown.
      * intros [= ->]. split; [done|]. intros k Hk.
        rewrite !not_elem_of_cons in Hk. destruct Hk as (? & ? & ? & _).
        by rewrite !lookup_insert_ne by done.
      * by intros [=].
      * intros _.
        split; [by rewrite !lookup_insert_ne, lookup_insert_eq by done|].
        split; [by rewrite lookup_insert_ne, lookup_insert_eq by done|].
        by rewrite lookup_insert_eq.
  - cbn [fst snd container boot_log]. split; [|split; [|split]].
    + split.
      * intros [= ->]. by left.
      * intros [[= ->]|(mg & [=] & _)]. done.
    + by intros [= ->].
    + done.
    + by intros (mg & [=] & _).
Qed.

(** The runs of the loaders, by the step that fails. *)
Lemma loaders_run (expressApp : App) (st : BootState Client EmailClient) :
  loaders config createClient new_Mailgun mg_client expressLoader expressApp st
  = match createClient (supabase_url config) (supabase_anonKey config)
            {| auth := {| autoRefreshToken := false; persistSession := false;
                          detectSessionInUrl := false |};
               db_schema := "public" |} with
    | Thrown e => (Thrown e, st)
    | Returned c =>
        match injector c
                {| container := container st;
                   boot_log := boot_log st
                               ++ [LogInfo "✌️ Supabase client loaded!"] |} with
        | (Thrown e, st1) => (Thrown e, st1)
        | (Returned _, st1) =>
            match expressLoader expressApp
                    {| container := container st1;
                       boot_log := boot_log st1
                                   ++ [LogInfo "✌️ Dependency Injector loaded"] |}
            with
            | (Thrown e, st3) => (Thrown e, st3)
            | (Returned _, st3) =>
                (Returned tt,
                 {| container := container st3;
                    boot_log := boot_log st3
                                ++ [LogInfo "✌️ Express loaded"] |})
            end
        end
    end.
Proof.
  unfold loaders, supabaseLoader, mbind, Boot_bind, external, Logger_info.
  destruct (createClient _ _ _) as [c|e]; [|done].
  destruct (injector c _) as [[[]|e] st1]; [|done].
  by destruct (expressLoader expressApp _) as [[[]|e] st3].
Qed.

(** X16: the loaders stop at the first failure and undo nothing.  If the
    client of the store cannot be made, nothing is logged or registered;
    if the injector throws, the error is the injector's and the state is
    the one it left, so the express loader has not run and "Dependency
    Injector loaded" is not logged; otherwise the express loader runs on a
    container that holds the client just made, and "Express loaded" is
    logged exactly when it returns. *)
Theorem X16_loaders_stop_at_the_first_failure (expressApp : App)
    (st : BootState Client EmailClient) :
  let made :=
    createClient (supabase_url config) (supabase_anonKey config)
      {| auth := {| autoRefreshToken := false; persistSession := false;
                    detectSessionInUrl := false |};
         db_schema := "public" |} in
  let logged (msg : string) (st' : BootState Client EmailClient) :=
    {| container := container st';
       boot_log := boot_log st' ++ [LogInfo msg] |} in
  let run :=
    loaders config createClient new_Mailgun mg_client expressLoader
      expressApp st in
  (∀ e, made = Thrown e → run = (Thrown e, st))
  ∧ (∀ c, made = Returned c →
       let injected := injector c (logged "✌️ Supabase client loaded!" st) in
       (∀ e, injected.1 = Thrown e → run = (Thrown e, injected.2))
       ∧ (injected.1 = Returned tt →
          let st2 := logged "✌️ Dependency Injector loaded" injected.2 in
          container st2 !! "supabase" = Some (TheSupabase c)
          ∧ (∀ e st3, expressLoader expressApp st2 = (Thrown e, st3) →
                      run = (Thrown e, st3))
          ∧ (∀ st3, expressLoader expressApp st2 = (Returned tt, st3) →
                    run = (Returned tt, logged "✌️ Express loaded" st3)))).
Proof.
  cbv zeta. rewrite loaders_run. split.
  - by intros e ->.
  - intros c ->. split.
    + intros e He.
      destruct (injector c _) as [[[]|e'] st1]; cbn [fst snd] in He |- *;
        [done|]. by injection He as ->.
    + intros Hret.
      assert (Hsup : container
                (injector c
                   {| container := container st;
                      boot_log := boot_log st
                                  ++ [LogInfo "✌️ Supabase client loaded!"] |}).2
              !! "supabase" = Some (TheSupabase c)).
      { revert Hret. rewrite injector_run.
        destruct new_Mailgun as [mg|e0]; cbv zeta; [|by intros [=]].
        destruct (mg_client mg (mailgun_options config)) as [ec|e1];
          [|by intros [=]].
        intros _. cbn [snd container].
        by rewrite !lookup_insert_ne, lookup_insert_eq by done. }
      destruct (injector c _) as [[[]|e'] st1];
        cbn [fst snd container] in Hret, Hsup |- *; [|done].
      split; [exact Hsup|]. split.
      * by intros e st3 ->.
      * by intros st3 ->.
Qed.

(** X17: the loaders return only if nothing failed: the client of the
    store was made, so were the mail library and its client, and the
    express loader returned, having been started on a container that
    holds the five registrations and on a log that holds, after what was
    logged before, the four messages in the order of the source; the last
    thing logged is "Express loaded". *)
Theorem X17_loaders_return_only_after_every_step (expressApp : App)
    (st : BootState Client EmailClient) :
  let run :=
    loaders config createClient new_Mailgun mg_client expressLoader
      expressApp st in
  run.1 = Returned tt →
  ∃ c mg ec st2 st3,
    createClient (supabase_url config) (supabase_anonKey config)
      {| auth := {| autoRefreshToken := false; persistSession := false;
                    detectSessionInUrl := false |};
         db_schema := "public" |} = Returned c
    ∧ new_Mailgun = Returned mg
    ∧ mg_client mg (mailgun_options config) = Returned ec
    ∧ expressLoader expressApp st2 = (Returned tt, st3)
    ∧ container st2 !! "supabase" = Some (TheSupabase c)
    ∧ container st2 !! "userRepository" = Some (TheClass "UserRepository")
    ∧ container st2 !! "logger" = Some TheLogger
    ∧ container st2 !! "emailClient" = Some (TheEmailClient ec)
    ∧ container st2 !! "emailDomain" = Some (TheString (emails_domain config))
    ∧ boot_log st2 =
      boot_log st
      ++ [LogInfo "✌️ Supabase client loaded!";
          LogInfo "✌️ Supabase injected into container";
          LogInfo "✌️ UserRepository injected into container";
          LogInfo "✌️ Dependency Injector loaded"]
    ∧ container run.2 = container st3
    ∧ boot_log run.2 = boot_log st3 ++ [LogInfo "✌️ Express loaded"].
Proof.
  cbv zeta. rewrite loaders_run.
  destruct (createClient _ _ _) as [c|e0]; [|by intros [=]].
  rewrite injector_run.
  destruct new_Mailgun as [mg|e0]; cbv zeta; [|by intros [=]].
  destruct (mg_client mg (mailgun_options config)) as [ec|e1] eqn:Hec;
    [|by intros [=]].
  cbn [container boot_log].
  match goal with
  | |- context [expressLoader expressApp ?s] =>
      set (st2 := s); destruct (expressLoader expressApp st2)
        as [[[]|e2] st3] eqn:Hexpress
  end; [|by intros [=]].
  intros _. exists c, mg, ec, st2, st3. cbn [fst snd].
  subst st2. cbn [container boot_log].
  split; [done|]. split; [done|]. split; [done|]. split; [exact Hexpress|].
  split; [by rewrite !lookup_insert_ne, lookup_insert_eq by done|].
  split; [by rewrite !lookup_insert_ne, lookup_insert_eq by done|].
  split; [by rewrite !lookup_insert_ne, lookup_insert_eq by done|].
  split; [by rewrite lookup_insert_ne, lookup_insert_eq by done|].
  split; [by rewrite lookup_insert_eq|].
  split; [|done].
  by rewrite <- !app_assoc.
Qed.

End Boot.
End LoaderFacts.

(* ===================================================================== *)
(** ** The further properties on concrete tables and start-ups *)
(* ===================================================================== *)

Section FurtherInstances.
Import UsersTable Scenario Later.

(** A handle of 255 characters and a space is kept without the space:
    the user is found by what was kept and not by what was supplied. *)
Example handle_with_a_trailing_space :
  let w1 := (UserRepository.create (dave text255_space) w0).2 in
  (UserRepository.findByEmail text255_space w1).1 = Returned None
  ∧ ∃ u, (UserRepository.create (dave text255_space) w0).1 = Returned (Some u)
         ∧ (UserRepository.findByEmail text255 w1).1 = Returned (Some u).
Proof. split; [exact eq_refl|]. eexists. split; exact eq_refl. Qed.

(** An identifier that is changed in its spelling only is still found
    under the old spelling. *)
Example identifier_in_another_spelling :
  let w := world_of session1 [alice_row] in
  let U1 : string := "{00000000-0000-4000-8000-000000000001}" in
  let w1 := (UserRepository.update u1 (move_to U1) w).2 in
  default (uuid_text u1) (p_id (move_to U1)) ≠ uuid_text u1
  ∧ ∃ u, (UserRepository.findById u1 w1).1 = Returned (Some u).
Proof. split; [discriminate|]. eexists. exact eq_refl. Qed.

(** X2, at a concrete input: Alice's second registration in the same
    session is thrown and the table is the one before it. *)
Lemma X2_thrown_means_unchanged_witness :
  let e := new_Error ("Failed to create user: " +:+
                      message (unique_violation "users_pkey")) in
  (UserRepository.create alice registered).1 = Thrown e
  ∧ w_store (UserRepository.create alice registered).2 = w_store registered.
Proof.
  intros e. split; [exact eq_refl|].
  exact (proj1 (X2_thrown_means_unchanged registered alice u1 empty_update e)
           eq_refl).
Defined.

(** X4, at a concrete input: Alice is found after her registration. *)
Lemma X4_created_user_is_found_witness :
  (UserRepository.findByEmail "alice@x" (in_session session1 registered)).1
  = Returned (Some alice_row)
  ∧ (UserRepository.findById u1 (in_session session1 registered)).1
    = Returned (Some alice_row).
Proof.
  destruct (X4_created_user_is_found w0 registered alice alice_row session1
              consistent_nil eq_refl eq_refl)
    as (email & _ & _ & Hsame & Hbyemail & Hbyid).
  rewrite Hsame in Hbyemail; [|vm_compute; lia].
  split; [exact Hbyemail|exact Hbyid].
Defined.

(** X5, at a concrete input: Alice's row is given the identifier [u7],
    spelled in upper case within braces. *)
Lemma X5_updated_user_is_found_witness :
  let w := world_of session1 [alice_row] in
  let w1 := (UserRepository.update u1 (move_to U7) w).2 in
  let new := <["updated_at" := JStr t1]> (<["id" := JStr u7]> alice_row) in
  (UserRepository.findById U7 (in_session session1 w1)).1
  = Returned (Some new)
  ∧ (UserRepository.findById u1 (in_session session1 w1)).1 = Returned None.
Proof.
  intros w w1 new.
  destruct (X5_updated_user_is_found w w1 u1 (move_to U7) new session1
              (consistent_one alice_row eq_refl) eq_refl eq_refl)
    as (Hfound & Hgone).
  split; [exact Hfound|]. apply Hgone. vm_compute. discriminate.
Defined.

(** X7, at a concrete input: Alice's last login is recorded. *)
Lemma X7_update_of_lastLogin_is_thrown_witness :
  (UserRepository.update u1 (seen t1) registered).1 =
  Thrown (new_Error ("Failed to update user: " +:+
                     message (undefined_body_column "lastLogin")))
  ∧ w_store (UserRepository.update u1 (seen t1) registered).2
    = w_store registered.
Proof.
  exact (X7_update_of_lastLogin_is_thrown u1 (seen t1) registered t1
           eq_refl).
Defined.

(** X8, at a concrete input: caller [u2] renames Alice, the row policies
    in force. *)
Lemma X8_update_reaches_own_rows_only_witness :
  let w := world_of (session_of_u2 true) [alice_row] in
  (UserRepository.update u1 (rename "Mallory") w).1 =
  Thrown (new_Error ("Failed to update user: " +:+ message no_single_row))
  ∧ w_store (UserRepository.update u1 (rename "Mallory") w).2 = w_store w.
Proof.
  intros w.
  apply (X8_update_reaches_own_rows_only u1 u1 (rename "Mallory") w).
  - exact eq_refl.
  - repeat (apply Forall_cons; split;
            [intros v Hv;
             first [discriminate Hv
                   |injection Hv as <-; eexists; exact eq_refl]|]).
    constructor.
  - right. split; [exact eq_refl|]. intros a [= <-]. discriminate.
Defined.



(** X12, at a concrete input: a history on the empty table. *)
Lemma X12_history_keeps_constraints_witness :
  consistent (db_users (w_store (perform_all history w0))).
Proof. exact (X12_history_keeps_constraints history w0 consistent_nil). Defined.

(** X18, at a concrete input: a name of 256 characters, the row policies
    in force for a caller who is not the new row's owner. *)
Lemma X18_create_refuses_what_the_columns_refuse_witness :
  let w := world_of (session_of_u2 true) [alice_row] in
  (UserRepository.create (alice_named name256) w).1 =
  Thrown (new_Error ("Failed to create user: "
                     +:+ message (value_too_long 255)))
  ∧ w_store (UserRepository.create (alice_named name256) w).2 = w_store w.
Proof.
  intros w.
  destruct (X18_create_refuses_what_the_columns_refuse (alice_named name256)
              w name256) as (e & _ & Hthrown & Hstore).
  - apply list_elem_of_here.
  - right. exact eq_refl.
  - split; [exact eq_refl|exact Hstore].
Defined.

(** X19, at a concrete input: Alice is renamed under a key that is no
    identifier. *)
Lemma X19_update_refuses_what_is_no_identifier_witness :
  (UserRepository.update "alice" (rename "Al") registered).1 =
  Thrown (new_Error ("Failed to update user: "
                     +:+ message (invalid_uuid "alice")))
  ∧ w_store (UserRepository.update "alice" (rename "Al") registered).2
    = w_store registered.
Proof.
  apply (X19_update_refuses_what_is_no_identifier "alice" (rename "Al")
           registered); [exact eq_refl|exact eq_refl|].
  intros Hempty. apply (f_equal (fun body : JObject => body !! "name")) in Hempty.
  vm_compute in Hempty. discriminate Hempty.
Defined.

End FurtherInstances.

Section BootInstances.
Import Loaders BootScenario.

(** X14, at a concrete input: a start-up with a complete configuration. *)
Lemma X14_injector_fills_the_container_witness :
  let c := ("https://x.supabase.co", "anon") in
  let run :=
    dependencyInjectorLoader config_ok new_Mailgun mg_client c boot0 in
  run.1 = Returned tt
  ∧ container run.2 !! "supabase" = Some (TheSupabase c)
  ∧ container run.2 !! "userRepository" = Some (TheClass "UserRepository")
  ∧ container run.2 !! "logger" = Some TheLogger
  ∧ container run.2 !! "emailClient" = Some (TheEmailClient "api")
  ∧ container run.2 !! "emailDomain" = Some (TheString "mg.x")
  ∧ (∀ k, k ∉ ["supabase"; "userRepository"; "logger"; "emailClient";
               "emailDomain"] →
          container run.2 !! k = container boot0 !! k)
  ∧ boot_log run.2 =
    boot_log boot0
    ++ [LogInfo "✌️ Supabase injected into container";
        LogInfo "✌️ UserRepository injected into container"].
Proof.
  exact (LoaderFacts.X14_injector_fills_the_container config_ok new_Mailgun
           mg_client ("https://x.supabase.co", "anon") boot0 tt "api"
           eq_refl eq_refl).
Defined.

(** X15, at a concrete input: a start-up with no mail key. *)
Lemma X15_injector_failure_leaves_half_a_container_witness :
  let c := ("https://x.supabase.co", "anon") in
  let e := new_Error "Parameter key is required" in
  let run :=
    dependencyInjectorLoader config_no_mail_key new_Mailgun mg_client c boot0 in
  run.1 = Thrown e
  ∧ boot_log run.2 =
    [LogBootError "🔥 Error on dependency injector loader: %o" e]
  ∧ container run.2 !! "supabase" = Some (TheSupabase c)
  ∧ container run.2 !! "emailClient" = None.
Proof.
  intros c e run.
  destruct (LoaderFacts.X15_injector_failure_leaves_half_a_container
              config_no_mail_key new_Mailgun mg_client c boot0 e)
    as (Hiff & Hlog & _ & Hhalf).
  assert (Hwhy : ∃ mg, new_Mailgun = Returned mg
                       ∧ mg_client mg (mailgun_options config_no_mail_key)
                         = Thrown e)
    by (exists tt; split; exact eq_refl).
  pose proof (proj2 Hiff (or_intror Hwhy)) as Hthrown.
  destruct (Hlog Hthrown) as (Hlogged & Hrest).
  split; [exact Hthrown|]. split; [exact Hlogged|].
  split; [exact (proj1 (Hhalf Hwhy))|].
  fold run in Hrest. rewrite Hrest; [exact eq_refl|].
  rewrite !not_elem_of_cons. split_and!; try (intros [=]).
  apply not_elem_of_nil.
Defined.

(** X16, at a concrete input: a start-up with no URL of the store. *)
Lemma X16_loaders_stop_at_the_first_failure_witness :
  loaders config_no_url createClient new_Mailgun mg_client expressLoader tt
    boot0
  = (Thrown (new_Error "supabaseUrl is required."), boot0).
Proof.
  exact (proj1 (LoaderFacts.X16_loaders_stop_at_the_first_failure
                  config_no_url createClient new_Mailgun mg_client
                  expressLoader tt boot0) _ eq_refl).
Defined.

(** X17, at a concrete input: a start-up with a complete configuration. *)
Lemma X17_loaders_return_only_after_every_step_witness :
  let run :=
    loaders config_ok createClient new_Mailgun mg_client expressLoader tt
      boot0 in
  run.1 = Returned tt
  ∧ boot_log run.2 =
    [LogInfo "✌️ Supabase client loaded!";
     LogInfo "✌️ Supabase injected into container";
     LogInfo "✌️ UserRepository injected into container";
     LogInfo "✌️ Dependency Injector loaded";
     LogInfo "✌️ Express loaded"].
Proof.
  intros run. split; [exact eq_refl|].
  destruct (LoaderFacts.X17_loaders_return_only_after_every_step config_ok
              createClient new_Mailgun mg_client expressLoader tt boot0 eq_refl)
    as (c & mg & ec & st2 & st3 & _ & _ & _ & Hexpress & _ & _ & _ & _ & _
        & Hlog & _ & Hrun).
  injection Hexpress as <-. fold run in Hrun. rewrite Hrun, Hlog.
  exact eq_refl.
Defined.

End BootInstances.
